(** * Cluster and Tectonic assets of the installer: model and properties

    The two assets under [pkg/asset/cluster] and [pkg/asset/manifests] are
    embedded as Rocq functions.  Go strings and byte slices are sequences of
    bytes and are both represented by [string]; Go maps are [gmap]s; the
    operating system, the terraform driver and the serialisers are the
    fields of a record of oracles, and every call made to them is recorded
    in a trace of events. *)

From Stdlib Require Import String Ascii NArith ZArith List Bool Lia.
From Stdlib Require Import Sorting.Permutation.
From stdpp Require Import gmap strings list.

Import ListNotations.
Local Open Scope string_scope.

(** ** Go errors *)

(** The error values the two assets build or inspect: [os.ErrNotExist],
    [*os.PathError], [fmt.Errorf] (format and arguments kept apart),
    [errors.Wrap]/[errors.Wrapf] of pkg/errors, and the two errors of
    encoding/json. *)
Inductive error : Type :=
| ErrNotExist
| PathError (op path : string) (err : error)
| Errorf (format : string) (args : list string)
| Wrapf (cause : error) (format : string) (args : list string)
| SyntaxError
| UnmarshalTypeError (found goType : string).

Definition Wrap (cause : error) (message : string) : error :=
  Wrapf cause message [].

(** [os.underlyingError] strips one [*PathError]; pkg/errors wrappers are
    not looked through. *)
Definition underlyingError (err : error) : error :=
  match err with
  | PathError _ _ e => e
  | _ => err
  end.

Definition os_IsNotExist (err : error) : bool :=
  match underlyingError err with
  | ErrNotExist => true
  | _ => false
  end.

Abbreviation result A := (A + error)%type.

(** A Go call either returns or panics. *)
Inductive outcome (A : Type) : Type :=
| Returned (a : A)
| Panicked (reason : string).
Arguments Returned {A} a.
Arguments Panicked {A} reason.

(** ** asset.File and asset.FileFetcher *)

Record File := mkFile { Filename : string; Data : string }.

Class FileFetcher (F : Type) := {
  FetchByName : F -> string -> result File;
  FetchByPattern : F -> string -> result (list File)
}.

(** ** path/filepath *)

Module filepath.

Definition slash : ascii := "/"%char.

(** The path elements between separators; an empty path has one empty
    element. *)
Fixpoint elements (path : string) : list string :=
  match path with
  | EmptyString => [EmptyString]
  | String c rest =>
      if Ascii.eqb c slash then EmptyString :: elements rest
      else match elements rest with
           | e :: es => String c e :: es
           | [] => [String c EmptyString]
           end
  end.

Definition rooted (path : string) : bool :=
  match path with
  | String c _ => Ascii.eqb c slash
  | EmptyString => false
  end.

(** One turn of the loop of [Clean]; [out] holds the elements written so
    far, last one first. *)
Definition clean_step (isRooted : bool) (out : list string) (e : string)
  : list string :=
  if String.eqb e "" || String.eqb e "." then out
  else if String.eqb e ".." then
    match out with
    | top :: below =>
        if String.eqb top ".." then e :: out else below
    | [] => if isRooted then [] else [e]
    end
  else e :: out.

Definition Clean (path : string) : string :=
  if String.eqb path "" then "."
  else
    let out := fold_left (clean_step (rooted path)) (elements path) [] in
    let body := String.concat "/" (rev out) in
    if rooted path then String slash body
    else if String.eqb body "" then "." else body.

(** [Join] of two elements: empty leading elements are dropped, the rest
    joined by a separator and cleaned. *)
Definition Join (a b : string) : string :=
  if String.eqb a "" then
    if String.eqb b "" then "" else Clean b
  else Clean (a +:+ String slash b).

End filepath.

(** ** Package types *)

Module types.

(** Modelled from the spec: package [types] is not among the sources.  The
    records carry the fields [Cluster.Generate] reads and writes, under
    the names it uses; a nil pointer is [None]. *)
Record AWSPlatform := { AWSPlatform_Region : string }.
Record OpenStackPlatform := { OpenStackPlatform_Region : string }.
Record LibvirtPlatform := { LibvirtPlatform_URI : string }.

Record Platform := {
  Platform_AWS : option AWSPlatform;
  Platform_OpenStack : option OpenStackPlatform;
  Platform_Libvirt : option LibvirtPlatform
}.

Record InstallConfig := {
  ObjectMeta_Name : string;
  ClusterID : string;
  PullSecret : string;
  Platform_ : Platform
}.

Record ClusterAWSPlatformMetadata := {
  AWS_Region : string;
  AWS_Identifier : list (gmap string string)
}.

Record ClusterOpenStackPlatformMetadata := {
  OpenStack_Region : string;
  OpenStack_Identifier : gmap string string
}.

Record ClusterLibvirtPlatformMetadata := { Libvirt_URI : string }.

Record ClusterPlatformMetadata := {
  AWS : option ClusterAWSPlatformMetadata;
  OpenStack : option ClusterOpenStackPlatformMetadata;
  Libvirt : option ClusterLibvirtPlatformMetadata
}.

Record ClusterMetadata := {
  ClusterName : string;
  PlatformMetadata : ClusterPlatformMetadata
}.

Definition noPlatformMetadata : ClusterPlatformMetadata :=
  {| AWS := None; OpenStack := None; Libvirt := None |}.

End types.

(** ** pkg/asset/cluster *)

Module Cluster.
Import types.

Definition metadataFileName : string := "metadata.json".

Record Cluster := mkCluster { FileList : list File }.

(** The resolved parents [Generate] fetches with [parents.Get]: the
    install configuration and the files of the [TerraformVariables] asset
    (the admin kubeconfig is fetched and never read). *)
Record Parents := {
  installConfig : InstallConfig;
  terraformVariables_Files : list File
}.

(** Everything [Generate] and [LoadMetadata] call outside this package.
    Each field gives the result of the call for its arguments.
    [StateFileName] is the constant of package terraform and
    [Platform_Name] the method [Name] of [types.Platform], both declared
    outside the sources. *)
Record Externals := {
  ioutil_TempDir : string -> string -> result string;
  ioutil_WriteFile : string -> string -> N -> option error;
  ioutil_ReadFile : string -> result string;
  terraform_Apply : string -> string -> string * option error;
  StateFileName : string;
  Platform_Name : Platform -> string;
  json_Marshal : ClusterMetadata -> result string
}.

(** What [Generate] does to the world, in order. *)
Inductive Event : Type :=
| EvTempDir (dir pattern : string)
| EvRemoveAll (path : string)
| EvWriteFile (path data : string) (perm : N)
| EvReadFile (path : string)
| EvApply (dir platform : string)
| EvLogInfof (format : string)
| EvLogError (err : error)
| EvLogErrorf (format : string) (err : error).

(** The state [Generate] threads: the receiver and the trace. *)
Record GState := mkGState { receiver : Cluster; trace : list Event }.

Definition M (A : Type) : Type := GState -> A * GState.

Definition ret {A} (a : A) : M A := fun s => (a, s).

Definition bind {A B} (m : M A) (k : A -> M B) : M B :=
  fun s => let (a, s') := m s in k a s'.

Notation "'do' x <- m ; k" := (bind m (fun x => k))
  (at level 10, x pattern, m at level 100, k at level 200,
   format "'[v' 'do'  x  <-  m ; '/' k ']'").
Notation "m ;; k" := (bind m (fun _ => k))
  (at level 100, k at level 200, right associativity).

Definition emit (e : Event) : M unit :=
  fun s => (tt, mkGState (receiver s) (trace s ++ [e])).

(** [c.FileList = append(c.FileList, f)] *)
Definition appendFile (f : File) : M unit :=
  fun s => (tt, mkGState (mkCluster (FileList (receiver s) ++ [f])) (trace s)).

Section Generate.
Variable ext : Externals.
Variable parents : Parents.

Let config := installConfig parents.

Definition TempDir (dir pattern : string) : M (result string) :=
  emit (EvTempDir dir pattern) ;; ret (ioutil_TempDir ext dir pattern).

Definition WriteFile (path data : string) (perm : N) : M (option error) :=
  emit (EvWriteFile path data perm) ;; ret (ioutil_WriteFile ext path data perm).

Definition ReadFile (path : string) : M (result string) :=
  emit (EvReadFile path) ;; ret (ioutil_ReadFile ext path).

Definition Apply (dir platform : string) : M (string * option error) :=
  emit (EvApply dir platform) ;; ret (terraform_Apply ext dir platform).

(** The closure deferred at lines 71-86: it sees the metadata as the
    switch left it and the named result [err], and gives [err] its
    final value. *)
Definition deferredMetadata (metadata : ClusterMetadata) (err : option error)
  : M (option error) :=
  match json_Marshal ext metadata with
  | inl data =>
      appendFile (mkFile metadataFileName data) ;; ret err
  | inr err2 =>
      let err2 := Wrap err2 "failed to Marshal ClusterMetadata" in
      match err with
      | None => ret (Some err2)
      | Some _ => emit (EvLogError err2) ;; ret err
      end
  end.

(** The platform switch of lines 88-114: the metadata with its platform
    variant filled in, or nothing in the default case. *)
Definition platformMetadata : option ClusterPlatformMetadata :=
  match Platform_AWS (Platform_ config),
        Platform_OpenStack (Platform_ config),
        Platform_Libvirt (Platform_ config) with
  | Some aws, _, _ =>
      Some {| AWS := Some {|
                AWS_Region := AWSPlatform_Region aws;
                AWS_Identifier :=
                  [ {[ "tectonicClusterID" := ClusterID config ]};
                    {[ "kubernetes.io/cluster/" +:+ ObjectMeta_Name config
                       := "owned" ]} ] |};
              OpenStack := None; Libvirt := None |}
  | None, Some openstack, _ =>
      Some {| AWS := None;
              OpenStack := Some {|
                OpenStack_Region := OpenStackPlatform_Region openstack;
                OpenStack_Identifier :=
                  {[ "tectonicClusterID" := ClusterID config ]} |};
              Libvirt := None |}
  | None, None, Some libvirt =>
      Some {| AWS := None; OpenStack := None;
              Libvirt := Some {| Libvirt_URI := LibvirtPlatform_URI libvirt |} |}
  | None, None, None => None
  end.

(** Lines 116-137: run terraform, then read the state file whatever
    terraform answered. *)
Definition applyAndCapture (tmpDir : string) : M (option error) :=
  emit (EvLogInfof "Using Terraform to create cluster...") ;;
  do (stateFile, applyErr) <- Apply tmpDir (Platform_Name ext (Platform_ config));
  let err := option_map (fun e => Wrap e "failed to run terraform") applyErr in
  do read <- ReadFile stateFile;
  match read with
  | inl data =>
      appendFile (mkFile (StateFileName ext) data) ;; ret err
  | inr err2 =>
      match err with
      | None => ret (Some err2)
      | Some _ =>
          emit (EvLogErrorf "Failed to read tfstate: %v" err2) ;; ret err
      end
  end.

(** The metadata the deferred closure finds: the cluster name of line
    68 and whatever the switch stored. *)
Definition finalMetadata : ClusterMetadata :=
  {| ClusterName := ObjectMeta_Name config;
     PlatformMetadata :=
       match platformMetadata with
       | Some pm => pm
       | None => noPlatformMetadata
       end |}.

(** Lines 88-137: the value of the named result [err] at the [return]
    statement that ends the body. *)
Definition provision (tmpDir : string) : M (option error) :=
  match platformMetadata with
  | Some _ => applyAndCapture tmpDir
  | None => ret (Some (Errorf "no known platform" []))
  end.

(** Lines 67-137, the deferred closure running after the body. *)
Definition generateMetadata (tmpDir : string) : M (option error) :=
  do err <- provision tmpDir;
  deferredMetadata finalMetadata err.

(** Lines 62-137, inside the temporary directory.  0600 is 384. *)
Definition generateInTmpDir (tmpDir : string) : M (outcome (option error)) :=
  match terraformVariables_Files parents with
  | [] => ret (Panicked "index out of range")
  | terraformVariablesFile :: _ =>
      do w <- WriteFile (filepath.Join tmpDir (Filename terraformVariablesFile))
                        (Data terraformVariablesFile) 384;
      match w with
      | Some err =>
          ret (Returned (Some (Wrap err "failed to write terraform.tfvars file")))
      | None =>
          do err <- generateMetadata tmpDir;
          ret (Returned err)
      end
  end.

Definition GenerateM : M (outcome (option error)) :=
  do tmp <- TempDir "" "openshift-install-";
  match tmp with
  | inr err =>
      ret (Returned
             (Some (Wrap err "failed to create temp dir for terraform execution")))
  | inl tmpDir =>
      do r <- generateInTmpDir tmpDir;
      emit (EvRemoveAll tmpDir) ;;
      ret r
  end.

(** [Generate] on receiver [c]: what the call gives back, the receiver
    afterwards and the events of the call. *)
Definition Generate (c : Cluster) : outcome (option error) * GState :=
  GenerateM (mkGState c []).

End Generate.

Definition Files (c : Cluster) : list File := FileList c.

(** [Load] does not write to its receiver. *)
Definition Load `{FileFetcher F} (ext : Externals) (c : Cluster) (f : F)
  : bool * option error :=
  match FetchByName f (StateFileName ext) with
  | inr err =>
      if os_IsNotExist err then (false, None) else (false, Some err)
  | inl _ =>
      (true,
       Some (Errorf "%q already exisits.  There may already be a running cluster"
                    [StateFileName ext]))
  end.

(** [json.Unmarshal] into a nil [*types.ClusterMetadata]: the document
    [null] leaves the pointer nil. *)
Definition LoadMetadata
    (readFile : string -> result string)
    (json_Unmarshal : string -> result (option ClusterMetadata))
    (dir : string) : result (option ClusterMetadata) :=
  match readFile (filepath.Join dir metadataFileName) with
  | inr err => inr (Wrapf err "failed to read %s file" [metadataFileName])
  | inl raw =>
      match json_Unmarshal raw with
      | inr err =>
          inr (Wrapf err
                 "failed to Unmarshal data from %s file to types.ClusterMetadata"
                 [metadataFileName])
      | inl cmetadata => inl cmetadata
      end
  end.

End Cluster.

(** ** pkg/asset/manifests *)

Module Manifests.
Import types.

Definition tectonicManifestDir : string := "tectonic".

Definition tectonicConfigPath : string :=
  filepath.Join tectonicManifestDir "00_cluster-config.yaml".

(** Modelled from the spec: [configurationObject], [genericData] and
    [configMap] are declared in a file of this package that is not among
    the sources.  The document carries a namespace, a name and
    string-valued fields. *)
Record configurationObject := mkConfigurationObject {
  Namespace : string;
  Name : string;
  Fields : gmap string string
}.

Definition configMap (namespace name : string) (data : gmap string string)
  : configurationObject :=
  mkConfigurationObject namespace name data.

(** [&configurationObject{}] *)
Definition emptyConfigurationObject : configurationObject :=
  mkConfigurationObject "" "" ∅.

Record tectonicTemplateData := {
  KubeAddonOperatorImage : string;
  PullSecret : string
}.

Record Tectonic := mkTectonic {
  TectonicConfig : option configurationObject;
  FileList : list File
}.

(** The resolved parents [Generate] reads. *)
Record Parents := {
  installConfig : InstallConfig;
  clusterk8sio_Raw : string;
  worker_MachineSetRaw : string;
  worker_UserDataSecretRaw : string;
  master_MachinesRaw : string;
  master_UserDataSecretsRaw : string;
  addon_Files : list File
}.

(** What the asset uses from outside the sources: the static contents of
    package content/tectonic, the template renderer (which panics on a
    template it cannot render: [None]), base64, the YAML codec, and the
    order in which a [range] over a map visits its entries. *)
Record Externals := {
  content_BindingDiscovery : string;
  content_AppVersionKubeAddon : string;
  content_KubeAddonOperator : string;
  content_RoleAdmin : string;
  content_RoleUser : string;
  content_BindingAdmin : string;
  content_PullTectonicSystem : string;
  applyTemplateData : string -> tectonicTemplateData -> option string;
  base64_EncodeToString : string -> string;
  yaml_Marshal : configurationObject -> result string;
  yaml_Unmarshal : string -> configurationObject -> result configurationObject;
  mapRange : list (string * string) -> list (string * string)
}.

Section Generate.
Variable ext : Externals.
Variable dependencies : Parents.

Definition templateData : tectonicTemplateData :=
  {| KubeAddonOperatorImage :=
       "quay.io/coreos/kube-addon-operator-dev:375423a332f2c12b79438fc6a6da6e448e28ec0f";
     PullSecret :=
       base64_EncodeToString ext (types.PullSecret (installConfig dependencies)) |}.

(** The map literal of lines 66-79, given the two rendered templates. *)
Definition assetData (operator pull : string) : list (string * string) :=
  [ ("99_binding-discovery.yaml", content_BindingDiscovery ext);
    ("99_kube-addon-00-appversion.yaml", content_AppVersionKubeAddon ext);
    ("99_kube-addon-01-operator.yaml", operator);
    ("99_openshift-cluster-api_cluster.yaml", clusterk8sio_Raw dependencies);
    ("99_openshift-cluster-api_master-machines.yaml",
       master_MachinesRaw dependencies);
    ("99_openshift-cluster-api_master-user-data-secrets.yaml",
       master_UserDataSecretsRaw dependencies);
    ("99_openshift-cluster-api_worker-machineset.yaml",
       worker_MachineSetRaw dependencies);
    ("99_openshift-cluster-api_worker-user-data-secret.yaml",
       worker_UserDataSecretRaw dependencies);
    ("99_role-admin.yaml", content_RoleAdmin ext);
    ("99_role-user.yaml", content_RoleUser ext);
    ("99_tectonic-system-00-binding-admin.yaml", content_BindingAdmin ext);
    ("99_tectonic-system-02-pull.json", pull) ].

(** The loop of lines 96-101. *)
Definition appendAssets (fileList : list File) (entries : list (string * string))
  : list File :=
  fold_left
    (fun (acc : list File) '(name, data) =>
       (acc ++ [mkFile (filepath.Join tectonicManifestDir name) data])%list)
    entries fileList.

Definition Generate (t : Tectonic) : outcome (option error) * Tectonic :=
  match applyTemplateData ext (content_KubeAddonOperator ext) templateData,
        applyTemplateData ext (content_PullTectonicSystem ext) templateData with
  | Some operator, Some pull =>
      match addon_Files dependencies with
      | [] => (Panicked "index out of range", t)
      | addonFile :: _ =>
          let config :=
            configMap "tectonic-system" "cluster-config-v1"
                      {[ "addon-config" := Data addonFile ]} in
          let t := mkTectonic (Some config) (FileList t) in
          match yaml_Marshal ext config with
          | inr err =>
              (Returned
                 (Some (Wrap err
                    "failed to create tectonic-system/cluster-config-v1 configmap")),
               t)
          | inl tectonicConfigData =>
              let fileList := [mkFile tectonicConfigPath tectonicConfigData] in
              (Returned None,
               mkTectonic (Some config)
                 (appendAssets fileList (mapRange ext (assetData operator pull))))
          end
      end
  | _, _ => (Panicked "template rendering failed", t)
  end.

End Generate.

Definition Files (t : Tectonic) : list File := FileList t.

(** The loop of lines 123-130: every file with the configuration path is
    unmarshalled into the same object; the first failure ends [Load]. *)
Fixpoint findConfig (ext : Externals) (fileList : list File)
    (tectonicConfig : configurationObject) (found : bool)
  : result (configurationObject * bool) :=
  match fileList with
  | [] => inl (tectonicConfig, found)
  | file :: rest =>
      if String.eqb (Filename file) tectonicConfigPath then
        match yaml_Unmarshal ext (Data file) tectonicConfig with
        | inr err =>
            inr (Wrapf err "failed to unmarshal 00_cluster-config.yaml" [])
        | inl tectonicConfig => findConfig ext rest tectonicConfig true
        end
      else findConfig ext rest tectonicConfig found
  end.

Definition Load `{FileFetcher F} (ext : Externals) (t : Tectonic) (f : F)
  : (bool * option error) * Tectonic :=
  match FetchByPattern f (filepath.Join tectonicManifestDir "*") with
  | inr err => ((false, Some err), t)
  | inl fileList =>
      if Nat.eqb (length fileList) 0 then ((false, None), t)
      else
        match findConfig ext fileList emptyConfigurationObject false with
        | inr err => ((false, Some err), t)
        | inl (tectonicConfig, found) =>
            if negb found then ((false, None), t)
            else ((true, None), mkTectonic (Some tectonicConfig) fileList)
        end
  end.

End Manifests.

(** ** unicode/utf8 and unicode/utf16 *)

Module utf8.
Local Open Scope N_scope.

Definition RuneError : N := 0xFFFD.
Definition MaxRune : N := 0x10FFFF.

(** The table [first] with its accept ranges, for a lead byte at or above
    0x80: the length of the sequence and the bounds of its second byte;
    [None] for the bytes that start no sequence. *)
Definition first (s0 : N) : option (nat * N * N) :=
  if s0 <? 0xC2 then None
  else if s0 <? 0xE0 then Some (2%nat, 0x80, 0xBF)
  else if s0 =? 0xE0 then Some (3%nat, 0xA0, 0xBF)
  else if s0 =? 0xED then Some (3%nat, 0x80, 0x9F)
  else if s0 <? 0xF0 then Some (3%nat, 0x80, 0xBF)
  else if s0 =? 0xF0 then Some (4%nat, 0x90, 0xBF)
  else if s0 <? 0xF4 then Some (4%nat, 0x80, 0xBF)
  else if s0 =? 0xF4 then Some (4%nat, 0x80, 0x8F)
  else None.

Definition outside (b lo hi : N) : bool := (b <? lo) || (hi <? b).

Definition DecodeRuneInString (s : string) : N * nat :=
  match s with
  | EmptyString => (RuneError, 0%nat)
  | String c0 t0 =>
      let s0 := N_of_ascii c0 in
      if s0 <? 0x80 then (s0, 1%nat)
      else
        match first s0 with
        | None => (RuneError, 1%nat)
        | Some (sz, lo, hi) =>
            if (String.length s <? sz)%nat then (RuneError, 1%nat)
            else
              match t0 with
              | EmptyString => (RuneError, 1%nat)
              | String c1 t1 =>
                  let s1 := N_of_ascii c1 in
                  if outside s1 lo hi then (RuneError, 1%nat)
                  else if (sz <=? 2)%nat then
                    (N.lor (N.shiftl (N.land s0 0x1F) 6) (N.land s1 0x3F), 2%nat)
                  else
                    match t1 with
                    | EmptyString => (RuneError, 1%nat)
                    | String c2 t2 =>
                        let s2 := N_of_ascii c2 in
                        if outside s2 0x80 0xBF then (RuneError, 1%nat)
                        else if (sz <=? 3)%nat then
                          (N.lor (N.lor (N.shiftl (N.land s0 0x0F) 12)
                                        (N.shiftl (N.land s1 0x3F) 6))
                                 (N.land s2 0x3F), 3%nat)
                        else
                          match t2 with
                          | EmptyString => (RuneError, 1%nat)
                          | String c3 _ =>
                              let s3 := N_of_ascii c3 in
                              if outside s3 0x80 0xBF then (RuneError, 1%nat)
                              else
                                (N.lor (N.lor (N.lor
                                   (N.shiftl (N.land s0 0x07) 18)
                                   (N.shiftl (N.land s1 0x3F) 12))
                                   (N.shiftl (N.land s2 0x3F) 6))
                                   (N.land s3 0x3F), 4%nat)
                          end
                    end
              end
        end
  end.

Definition byte (n : N) : ascii := ascii_of_N (n mod 256).

Definition encode3 (r : N) : string :=
  String (byte (N.lor 0xE0 (N.shiftr r 12)))
    (String (byte (N.lor 0x80 (N.land (N.shiftr r 6) 0x3F)))
       (String (byte (N.lor 0x80 (N.land r 0x3F))) EmptyString)).

(** [EncodeRune]: surrogates and values above [MaxRune] are written as
    [RuneError]. *)
Definition EncodeRune (r : N) : string :=
  if r <=? 0x7F then String (byte r) EmptyString
  else if r <=? 0x7FF then
    String (byte (N.lor 0xC0 (N.shiftr r 6)))
      (String (byte (N.lor 0x80 (N.land r 0x3F))) EmptyString)
  else if (MaxRune <? r) || ((0xD800 <=? r) && (r <=? 0xDFFF)) then
    encode3 RuneError
  else if r <=? 0xFFFF then encode3 r
  else
    String (byte (N.lor 0xF0 (N.shiftr r 18)))
      (String (byte (N.lor 0x80 (N.land (N.shiftr r 12) 0x3F)))
         (String (byte (N.lor 0x80 (N.land (N.shiftr r 6) 0x3F)))
            (String (byte (N.lor 0x80 (N.land r 0x3F))) EmptyString))).

Fixpoint drop (n : nat) (s : string) : string :=
  match n, s with
  | S n, String _ rest => drop n rest
  | _, _ => s
  end.

Fixpoint take (n : nat) (s : string) : string :=
  match n, s with
  | S n, String c rest => String c (take n rest)
  | _, _ => EmptyString
  end.

Definition isError (d : N * nat) : bool :=
  (fst d =? RuneError) && (snd d =? 1)%nat.

(** [ValidString], the loop bounded by the length of the string. *)
Fixpoint validFrom (fuel : nat) (s : string) : bool :=
  match fuel, s with
  | _, EmptyString => true
  | O, _ => false
  | S fuel, _ =>
      let d := DecodeRuneInString s in
      if isError d then false else validFrom fuel (drop (snd d) s)
  end.

Definition ValidString (s : string) : bool := validFrom (String.length s) s.

End utf8.

Module utf16.
Local Open Scope N_scope.

Definition IsSurrogate (r : N) : bool := (0xD800 <=? r) && (r <? 0xE000).

(** The second argument is [None] where Go passes a negative rune. *)
Definition DecodeRune (r1 : N) (r2 : option N) : N :=
  match r2 with
  | Some r2 =>
      if (0xD800 <=? r1) && (r1 <? 0xDC00) && (0xDC00 <=? r2) && (r2 <? 0xE000)
      then N.lor (N.shiftl (r1 - 0xD800) 10) (r2 - 0xDC00) + 0x10000
      else utf8.RuneError
  | None => utf8.RuneError
  end.

End utf16.

(** ** encoding/json, for the documents of [types.ClusterMetadata]

    The fragment of JSON that the metadata file uses: objects, arrays,
    strings and the three literals.  Numbers are left out (no field of the
    metadata is numeric): a document that holds one is refused as a syntax
    error. *)

Module json.
Import types.
Local Open Scope N_scope.

#[local] Unset Elimination Schemes.
Inductive value : Type :=
| Null
| Bool (b : bool)
| Str (s : string)
| Arr (elements : list value)
| Obj (members : list (string * value)).
#[local] Set Elimination Schemes.

Definition dquote : ascii := ascii_of_N 0x22.
Definition backslash : ascii := ascii_of_N 0x5C.

(** *** Encoding *)

Definition hex (n : N) : ascii :=
  match String.get (N.to_nat n) "0123456789abcdef" with
  | Some c => c
  | None => "0"%char
  end.

(** [htmlSafeSet], for a byte below 0x80. *)
Definition htmlSafe (b : N) : bool :=
  (0x20 <=? b)
  && negb ((b =? 0x22) || (b =? 0x5C) || (b =? 0x3C) || (b =? 0x3E) || (b =? 0x26)).

(** The escape written for a byte below 0x80 that is not safe. *)
Definition escapeByte (c : ascii) : string :=
  let b := N_of_ascii c in
  if (b =? 0x5C) || (b =? 0x22) then String backslash (String c EmptyString)
  else if b =? 0x0A then String backslash "n"
  else if b =? 0x0D then String backslash "r"
  else if b =? 0x09 then String backslash "t"
  else String backslash
         ("u00" +:+ String (hex (N.shiftr b 4)) (String (hex (N.land b 0xF)) EmptyString)).

(** The loop of [encodeState.string] with HTML escaping on, as [Marshal]
    runs it; [fuel] bounds the number of turns. *)
Fixpoint escape (fuel : nat) (s : string) : string :=
  match fuel, s with
  | _, EmptyString => EmptyString
  | O, _ => EmptyString
  | S fuel, String c rest =>
      let b := N_of_ascii c in
      if b <? 0x80 then
        (if htmlSafe b then String c EmptyString else escapeByte c)
        +:+ escape fuel rest
      else
        let d := utf8.DecodeRuneInString s in
        if utf8.isError d then
          String backslash "ufffd" +:+ escape fuel rest
        else if (fst d =? 0x2028) || (fst d =? 0x2029) then
          String backslash ("u202" +:+ String (hex (N.land (fst d) 0xF)) EmptyString)
          +:+ escape fuel (utf8.drop (snd d) s)
        else
          utf8.take (snd d) s +:+ escape fuel (utf8.drop (snd d) s)
  end.

Definition encodeString (s : string) : string :=
  String dquote (escape (String.length s) s +:+ String dquote EmptyString).

Fixpoint encode (v : value) : string :=
  match v with
  | Null => "null"
  | Bool true => "true"
  | Bool false => "false"
  | Str s => encodeString s
  | Arr elements =>
      "[" +:+
      (fix encodeElements (vs : list value) : string :=
         match vs with
         | [] => EmptyString
         | v :: vs' =>
             encode v +:+
             match vs' with
             | [] => EmptyString
             | _ => "," +:+ encodeElements vs'
             end
         end) elements
      +:+ "]"
  | Obj members =>
      "{" +:+
      (fix encodeMembers (ms : list (string * value)) : string :=
         match ms with
         | [] => EmptyString
         | (k, v) :: ms' =>
             encodeString k +:+ ":" +:+ encode v +:+
             match ms' with
             | [] => EmptyString
             | _ => "," +:+ encodeMembers ms'
             end
         end) members
      +:+ "}"
  end.

(** A map is written with its keys in increasing order.  (A nil map,
    which [Generate] never builds, is not told apart from an empty
    one.) *)
Fixpoint insertEntry (e : string * string) (l : list (string * string))
  : list (string * string) :=
  match l with
  | [] => [e]
  | e' :: l' =>
      if String.leb (fst e) (fst e') then e :: l else e' :: insertEntry e l'
  end.

Definition sortedEntries (m : gmap string string) : list (string * string) :=
  fold_right insertEntry [] (map_to_list m).

Definition ofMap (m : gmap string string) : value :=
  Obj (map (fun '(k, v) => (k, Str v)) (sortedEntries m)).

(** Modelled from the spec: the keys of the metadata document, which the
    declarations of package [types] (not among the sources) fix.  The
    document is an object with [ClusterName] and
    [ClusterPlatformMetadata], the latter holding at most one of [AWS],
    [OpenStack] and [Libvirt]; inside a platform the keys are the names of
    the fields [Generate] sets. *)
Definition ofAWS (a : ClusterAWSPlatformMetadata) : value :=
  Obj [("Region", Str (AWS_Region a));
       ("Identifier", Arr (map ofMap (AWS_Identifier a)))].

Definition ofOpenStack (o : ClusterOpenStackPlatformMetadata) : value :=
  Obj [("Region", Str (OpenStack_Region o));
       ("Identifier", ofMap (OpenStack_Identifier o))].

Definition ofLibvirt (l : ClusterLibvirtPlatformMetadata) : value :=
  Obj [("URI", Str (Libvirt_URI l))].

Definition optionalMember {A} (key : string) (f : A -> value) (o : option A)
  : list (string * value) :=
  match o with
  | Some a => [(key, f a)]
  | None => []
  end.

Definition ofPlatformMetadata (p : ClusterPlatformMetadata) : value :=
  Obj (optionalMember "AWS" ofAWS (AWS p)
       ++ optionalMember "OpenStack" ofOpenStack (OpenStack p)
       ++ optionalMember "Libvirt" ofLibvirt (Libvirt p))%list.

Definition ofClusterMetadata (m : ClusterMetadata) : value :=
  Obj [("ClusterName", Str (ClusterName m));
       ("ClusterPlatformMetadata", ofPlatformMetadata (PlatformMetadata m))].

(** [json.Marshal] of a [*types.ClusterMetadata]. *)
Definition Marshal (m : ClusterMetadata) : string :=
  encode (ofClusterMetadata m).

(** *** Decoding *)

Definition isSpace (c : ascii) : bool :=
  let b := N_of_ascii c in
  (b =? 0x20) || (b =? 0x09) || (b =? 0x0D) || (b =? 0x0A).

Fixpoint skipSpace (s : string) : string :=
  match s with
  | String c rest => if isSpace c then skipSpace rest else s
  | EmptyString => s
  end.

Definition hexValue (c : ascii) : option N :=
  let b := N_of_ascii c in
  if (0x30 <=? b) && (b <=? 0x39) then Some (b - 0x30)
  else if (0x61 <=? b) && (b <=? 0x66) then Some (b - 0x61 + 10)
  else if (0x41 <=? b) && (b <=? 0x46) then Some (b - 0x41 + 10)
  else None.

(** Four hexadecimal digits at the head of [s]. *)
Definition hex4 (s : string) : option N :=
  match s with
  | String a (String b (String c (String d _))) =>
      match hexValue a, hexValue b, hexValue c, hexValue d with
      | Some a, Some b, Some c, Some d => Some (a * 4096 + b * 256 + c * 16 + d)
      | _, _, _, _ => None
      end
  | _ => None
  end.

(** [getu4]: the rune of a [\uXXXX] at the head of [s]. *)
Definition getu4 (s : string) : option N :=
  match s with
  | String c (String u rest) =>
      if Ascii.eqb c backslash && Ascii.eqb u "u" then hex4 rest else None
  | _ => None
  end.

(** The byte an escape letter other than [u] stands for. *)
Definition simpleEscape (e : ascii) : option ascii :=
  let b := N_of_ascii e in
  if (b =? 0x22) || (b =? 0x5C) || (b =? 0x2F) then Some e
  else if Ascii.eqb e "b" then Some (ascii_of_N 0x08)
  else if Ascii.eqb e "f" then Some (ascii_of_N 0x0C)
  else if Ascii.eqb e "n" then Some (ascii_of_N 0x0A)
  else if Ascii.eqb e "r" then Some (ascii_of_N 0x0D)
  else if Ascii.eqb e "t" then Some (ascii_of_N 0x09)
  else None.

Definition prepend (p : string) (r : option (string * string))
  : option (string * string) :=
  match r with
  | Some (s, rest) => Some (p +:+ s, rest)
  | None => None
  end.

(** A string literal after its opening quote: the scanner's checks and
    [unquote] in one pass.  The result is the string and the input after
    the closing quote. *)
Fixpoint unquote (fuel : nat) (s : string) : option (string * string) :=
  match fuel, s with
  | O, _ => None
  | _, EmptyString => None
  | S fuel, String c rest =>
      let b := N_of_ascii c in
      if b =? 0x22 then Some (EmptyString, rest)
      else if b =? 0x5C then
        match rest with
        | EmptyString => None
        | String e rest' =>
            match simpleEscape e with
            | Some ch => prepend (String ch EmptyString) (unquote fuel rest')
            | None =>
                if Ascii.eqb e "u" then
                  match hex4 rest' with
                  | None => None
                  | Some rr =>
                      let after := utf8.drop 4 rest' in
                      if utf16.IsSurrogate rr then
                        let dec := utf16.DecodeRune rr (getu4 after) in
                        if negb (dec =? utf8.RuneError) then
                          prepend (utf8.EncodeRune dec)
                                  (unquote fuel (utf8.drop 6 after))
                        else
                          prepend (utf8.EncodeRune utf8.RuneError)
                                  (unquote fuel after)
                      else prepend (utf8.EncodeRune rr) (unquote fuel after)
                  end
                else None
            end
        end
      else if b <? 0x20 then None
      else if b <? 0x80 then prepend (String c EmptyString) (unquote fuel rest)
      else
        let d := utf8.DecodeRuneInString s in
        prepend (utf8.EncodeRune (fst d)) (unquote fuel (utf8.drop (snd d) s))
  end.

Definition literal (word : string) (v : value) (s : string)
  : option (value * string) :=
  if String.prefix word s then Some (v, utf8.drop (String.length word) s)
  else None.

Fixpoint parseValue (fuel : nat) (s : string) : option (value * string) :=
  match fuel with
  | O => None
  | S fuel =>
      match skipSpace s with
      | EmptyString => None
      | String c rest as s' =>
          if Ascii.eqb c dquote then
            match unquote (S (String.length rest)) rest with
            | Some (str, rest') => Some (Str str, rest')
            | None => None
            end
          else if Ascii.eqb c "[" then
            match skipSpace rest with
            | String c' rest' =>
                if Ascii.eqb c' "]" then Some (Arr [], rest')
                else
                  match parseElements fuel rest with
                  | Some (vs, rest'') => Some (Arr vs, rest'')
                  | None => None
                  end
            | EmptyString => None
            end
          else if Ascii.eqb c "{" then
            match skipSpace rest with
            | String c' rest' =>
                if Ascii.eqb c' "}" then Some (Obj [], rest')
                else
                  match parseMembers fuel rest with
                  | Some (ms, rest'') => Some (Obj ms, rest'')
                  | None => None
                  end
            | EmptyString => None
            end
          else if Ascii.eqb c "n" then literal "null" Null s'
          else if Ascii.eqb c "t" then literal "true" (Bool true) s'
          else if Ascii.eqb c "f" then literal "false" (Bool false) s'
          else None
      end
  end

with parseElements (fuel : nat) (s : string) : option (list value * string) :=
  match fuel with
  | O => None
  | S fuel =>
      match parseValue fuel s with
      | None => None
      | Some (v, rest) =>
          match skipSpace rest with
          | String c rest' =>
              if Ascii.eqb c "," then
                match parseElements fuel rest' with
                | Some (vs, rest'') => Some (v :: vs, rest'')
                | None => None
                end
              else if Ascii.eqb c "]" then Some ([v], rest')
              else None
          | EmptyString => None
          end
      end
  end

with parseMembers (fuel : nat) (s : string)
  : option (list (string * value) * string) :=
  match fuel with
  | O => None
  | S fuel =>
      match skipSpace s with
      | String q afterQuote =>
          if Ascii.eqb q dquote then
            match unquote (S (String.length afterQuote)) afterQuote with
            | None => None
            | Some (key, afterKey) =>
                match skipSpace afterKey with
                | String colon afterColon =>
                    if Ascii.eqb colon ":" then
                      match parseValue fuel afterColon with
                      | None => None
                      | Some (v, rest) =>
                          match skipSpace rest with
                          | String c rest' =>
                              if Ascii.eqb c "," then
                                match parseMembers fuel rest' with
                                | Some (ms, rest'') => Some ((key, v) :: ms, rest'')
                                | None => None
                                end
                              else if Ascii.eqb c "}" then Some ([(key, v)], rest')
                              else None
                          | EmptyString => None
                          end
                      end
                    else None
                | EmptyString => None
                end
            end
          else None
      | EmptyString => None
      end
  end.

(** A whole document: one value, then only white space. *)
Definition parse (s : string) : option value :=
  match parseValue (S (String.length s)) s with
  | Some (v, rest) =>
      match skipSpace rest with
      | EmptyString => Some v
      | _ => None
      end
  | None => None
  end.

End json.

(** *** From a document to [types.ClusterMetadata] *)

Module decode.
Import types json.

Definition lower (c : ascii) : ascii :=
  let b := N_of_ascii c in
  if ((0x41 <=? b) && (b <=? 0x5A))%N then ascii_of_N (b + 0x20) else c.

(** A key names a field when the two are equal up to the case of ASCII
    letters.  (The decoder also folds U+017F and U+212A onto [s] and
    [k]; that is left out.) *)
Fixpoint equalFold (a b : string) : bool :=
  match a, b with
  | EmptyString, EmptyString => true
  | String x a', String y b' => Ascii.eqb (lower x) (lower y) && equalFold a' b'
  | _, _ => false
  end.

Definition describe (v : value) : string :=
  match v with
  | Null => "null"
  | Bool _ => "bool"
  | Str _ => "string"
  | Arr _ => "array"
  | Obj _ => "object"
  end.

(** [null] leaves a string as it is. *)
Definition toString (cur : string) (v : value) : result string :=
  match v with
  | Str s => inl s
  | Null => inl cur
  | _ => inr (UnmarshalTypeError (describe v) "string")
  end.

(** An object is decoded into the map it finds; [null] gives the nil
    map. *)
Definition toMap (cur : gmap string string) (v : value)
  : result (gmap string string) :=
  match v with
  | Null => inl ∅
  | Obj members =>
      fold_left
        (fun (acc : result (gmap string string)) '(k, v) =>
           match acc with
           | inr err => inr err
           | inl m =>
               match toString "" v with
               | inl s => inl (<[k := s]> m)
               | inr err => inr err
               end
           end)
        members (inl cur)
  | _ => inr (UnmarshalTypeError (describe v) "map[string]string")
  end.

(** The elements of an array are decoded into the elements the slice
    already has, then into fresh ones. *)
Fixpoint toMaps (cur : list (gmap string string)) (vs : list value)
  : result (list (gmap string string)) :=
  match vs with
  | [] => inl []
  | v :: vs' =>
      let '(c, cur') := match cur with
                        | c :: cur' => (c, cur')
                        | [] => (∅, [])
                        end in
      match toMap c v with
      | inr err => inr err
      | inl m =>
          match toMaps cur' vs' with
          | inr err => inr err
          | inl ms => inl (m :: ms)
          end
      end
  end.

Definition toMapSlice (cur : list (gmap string string)) (v : value)
  : result (list (gmap string string)) :=
  match v with
  | Null => inl []
  | Arr vs => toMaps cur vs
  | _ => inr (UnmarshalTypeError (describe v) "[]map[string]string")
  end.

(** The members of an object are stored one after the other into the
    struct; a key that names no field is skipped. *)
Definition intoStruct {A} (field : string -> A -> value -> result A)
    (members : list (string * value)) (cur : A) : result A :=
  fold_left
    (fun (acc : result A) '(k, v) =>
       match acc with
       | inr err => inr err
       | inl a => field k a v
       end)
    members (inl cur).

(** A pointer to a struct: [null] makes it nil, an object is decoded into
    the struct it points to, allocated when the pointer is nil. *)
Definition toPointer {A} (zero : A) (goType : string)
    (field : string -> A -> value -> result A)
    (cur : option A) (v : value) : result (option A) :=
  match v with
  | Null => inl None
  | Obj members =>
      match intoStruct field members (default zero cur) with
      | inl a => inl (Some a)
      | inr err => inr err
      end
  | _ => inr (UnmarshalTypeError (describe v) goType)
  end.

Definition awsField (k : string) (a : ClusterAWSPlatformMetadata) (v : value)
  : result ClusterAWSPlatformMetadata :=
  if equalFold "Region" k then
    match toString (AWS_Region a) v with
    | inl s => inl {| AWS_Region := s; AWS_Identifier := AWS_Identifier a |}
    | inr err => inr err
    end
  else if equalFold "Identifier" k then
    match toMapSlice (AWS_Identifier a) v with
    | inl ms => inl {| AWS_Region := AWS_Region a; AWS_Identifier := ms |}
    | inr err => inr err
    end
  else inl a.

Definition openStackField (k : string) (o : ClusterOpenStackPlatformMetadata)
    (v : value) : result ClusterOpenStackPlatformMetadata :=
  if equalFold "Region" k then
    match toString (OpenStack_Region o) v with
    | inl s => inl {| OpenStack_Region := s;
                      OpenStack_Identifier := OpenStack_Identifier o |}
    | inr err => inr err
    end
  else if equalFold "Identifier" k then
    match toMap (OpenStack_Identifier o) v with
    | inl m => inl {| OpenStack_Region := OpenStack_Region o;
                      OpenStack_Identifier := m |}
    | inr err => inr err
    end
  else inl o.

Definition libvirtField (k : string) (l : ClusterLibvirtPlatformMetadata)
    (v : value) : result ClusterLibvirtPlatformMetadata :=
  if equalFold "URI" k then
    match toString (Libvirt_URI l) v with
    | inl s => inl {| Libvirt_URI := s |}
    | inr err => inr err
    end
  else inl l.

Definition platformField (k : string) (p : ClusterPlatformMetadata) (v : value)
  : result ClusterPlatformMetadata :=
  if equalFold "AWS" k then
    match toPointer {| AWS_Region := ""; AWS_Identifier := [] |}
                    "types.ClusterAWSPlatformMetadata" awsField (AWS p) v with
    | inl a => inl {| AWS := a; OpenStack := OpenStack p; Libvirt := Libvirt p |}
    | inr err => inr err
    end
  else if equalFold "OpenStack" k then
    match toPointer {| OpenStack_Region := ""; OpenStack_Identifier := ∅ |}
                    "types.ClusterOpenStackPlatformMetadata" openStackField
                    (OpenStack p) v with
    | inl o => inl {| AWS := AWS p; OpenStack := o; Libvirt := Libvirt p |}
    | inr err => inr err
    end
  else if equalFold "Libvirt" k then
    match toPointer {| Libvirt_URI := "" |}
                    "types.ClusterLibvirtPlatformMetadata" libvirtField
                    (Libvirt p) v with
    | inl l => inl {| AWS := AWS p; OpenStack := OpenStack p; Libvirt := l |}
    | inr err => inr err
    end
  else inl p.

(** A struct held by value: [null] leaves it as it is. *)
Definition toPlatformMetadata (cur : ClusterPlatformMetadata) (v : value)
  : result ClusterPlatformMetadata :=
  match v with
  | Null => inl cur
  | Obj members => intoStruct platformField members cur
  | _ => inr (UnmarshalTypeError (describe v) "types.ClusterPlatformMetadata")
  end.

Definition metadataField (k : string) (m : ClusterMetadata) (v : value)
  : result ClusterMetadata :=
  if equalFold "ClusterName" k then
    match toString (ClusterName m) v with
    | inl s => inl {| ClusterName := s; PlatformMetadata := PlatformMetadata m |}
    | inr err => inr err
    end
  else if equalFold "ClusterPlatformMetadata" k then
    match toPlatformMetadata (PlatformMetadata m) v with
    | inl p => inl {| ClusterName := ClusterName m; PlatformMetadata := p |}
    | inr err => inr err
    end
  else inl m.

Definition toClusterMetadata (cur : option ClusterMetadata) (v : value)
  : result (option ClusterMetadata) :=
  toPointer {| ClusterName := ""; PlatformMetadata := noPlatformMetadata |}
            "types.ClusterMetadata" metadataField cur v.

(** [json.Unmarshal(raw, &cmetadata)] with [cmetadata] a nil pointer. *)
Definition Unmarshal (raw : string) : result (option ClusterMetadata) :=
  match parse raw with
  | None => inr SyntaxError
  | Some v => toClusterMetadata None v
  end.

End decode.

(** ** A file system in memory, and inputs to run the model on *)

Module memfs.

Definition WriteFile (fs : gmap string string) (path data : string)
  : gmap string string :=
  <[path := data]> fs.

Definition ReadFile (fs : gmap string string) (path : string) : result string :=
  match fs !! path with
  | Some data => inl data
  | None => inr (PathError "open" path ErrNotExist)
  end.

(** A directory listing as a fetcher: files are found by name; a pattern
    gives back the whole listing. *)
#[export] Instance listFetcher : FileFetcher (list File) := {
  FetchByName fl name :=
    match List.find (fun f => String.eqb (Filename f) name) fl with
    | Some f => inl f
    | None => inr (PathError "open" name ErrNotExist)
    end;
  FetchByPattern fl _ := inl fl
}.

(** A fetcher whose every call fails with the given error. *)
Record failing := Failing { failure : error }.

#[export] Instance failingFetcher : FileFetcher failing := {
  FetchByName f _ := inr (failure f);
  FetchByPattern f _ := inr (failure f)
}.

End memfs.

Module sample.
Import types.

Definition platformName (p : Platform) : string :=
  match Platform_AWS p, Platform_OpenStack p, Platform_Libvirt p with
  | Some _, _, _ => "aws"
  | None, Some _, _ => "openstack"
  | None, None, Some _ => "libvirt"
  | None, None, None => ""
  end.

Definition tmpDir : string := "/tmp/openshift-install-012345678".
Definition stateFile : string := "/tmp/openshift-install-012345678/terraform.tfstate".

(** Externals fixed by the outcome of each call. *)
Definition externals (tmp : result string) (write : option error)
    (apply : string * option error) (read : result string)
    (marshal : ClusterMetadata -> result string) : Cluster.Externals :=
  {| Cluster.ioutil_TempDir _ _ := tmp;
     Cluster.ioutil_WriteFile _ _ _ := write;
     Cluster.ioutil_ReadFile _ := read;
     Cluster.terraform_Apply _ _ := apply;
     Cluster.StateFileName := "terraform.tfstate";
     Cluster.Platform_Name := platformName;
     Cluster.json_Marshal := marshal |}.

Definition marshal (m : ClusterMetadata) : result string := inl (json.Marshal m).

Definition marshalFails (_ : ClusterMetadata) : result string :=
  inr (Errorf "json: unsupported value" []).

Definition applyError : error := Errorf "exit status 1" [].
Definition readError : error := PathError "open" "" ErrNotExist.
Definition diskFull : error := Errorf "no space left on device" [].

Definition allGood : Cluster.Externals :=
  externals (inl tmpDir) None (stateFile, None) (inl "{}") marshal.

Definition tfvars : File := mkFile "terraform.tfvars" "{}".

Definition noPlatform : Platform :=
  {| Platform_AWS := None; Platform_OpenStack := None; Platform_Libvirt := None |}.

Definition config (name : string) (p : Platform) : InstallConfig :=
  {| ObjectMeta_Name := name; ClusterID := "abc123"; PullSecret := "{}";
     Platform_ := p |}.

Definition aws : Platform :=
  {| Platform_AWS := Some {| AWSPlatform_Region := "us-east-1" |};
     Platform_OpenStack := None; Platform_Libvirt := None |}.

Definition openstack : Platform :=
  {| Platform_AWS := None;
     Platform_OpenStack := Some {| OpenStackPlatform_Region := "regionOne" |};
     Platform_Libvirt := None |}.

Definition libvirt : Platform :=
  {| Platform_AWS := None; Platform_OpenStack := None;
     Platform_Libvirt := Some {| LibvirtPlatform_URI := "qemu:///system" |} |}.

Definition parents (name : string) (p : Platform) : Cluster.Parents :=
  {| Cluster.installConfig := config name p;
     Cluster.terraformVariables_Files := [tfvars] |}.

Definition empty : Cluster.Cluster := Cluster.mkCluster [].

End sample.

Module sampleManifests.
Import types Manifests.

(** A stand-in for the YAML codec, enough to run [Generate] and [Load]:
    the document is written as its addon field behind a fixed header. *)
Definition header : string := "addon-config: ".

Definition marshal (c : configurationObject) : result string :=
  inl (header +:+ default "" (Fields c !! "addon-config")).

Definition unmarshal (data : string) (_ : configurationObject)
  : result configurationObject :=
  if String.prefix header data then
    inl (configMap "tectonic-system" "cluster-config-v1"
           {[ "addon-config" := utf8.drop (String.length header) data ]})
  else inr SyntaxError.

Definition marshalFails (_ : configurationObject) : result string :=
  inr (Errorf "yaml: unsupported value" []).

Definition externals (marshal : configurationObject -> result string)
  : Externals :=
  {| content_BindingDiscovery := "binding-discovery";
     content_AppVersionKubeAddon := "app-version";
     content_KubeAddonOperator := "operator";
     content_RoleAdmin := "role-admin";
     content_RoleUser := "role-user";
     content_BindingAdmin := "binding-admin";
     content_PullTectonicSystem := "pull";
     applyTemplateData tpl data := Some (tpl +:+ ":" +:+ PullSecret data);
     base64_EncodeToString s := s;
     yaml_Marshal := marshal;
     yaml_Unmarshal := unmarshal;
     mapRange := @rev (string * string) |}.

Definition parents : Parents :=
  {| installConfig := sample.config "mycluster" sample.aws;
     clusterk8sio_Raw := "cluster";
     worker_MachineSetRaw := "worker-machineset";
     worker_UserDataSecretRaw := "worker-secret";
     master_MachinesRaw := "master-machines";
     master_UserDataSecretsRaw := "master-secrets";
     addon_Files := [mkFile "kube-addon-operator-config.yml" "kind: addon"] |}.

Definition empty : Tectonic := mkTectonic None [].

Definition stale : Tectonic :=
  mkTectonic None [mkFile "tectonic/99_role-admin.yaml" "old"].

End sampleManifests.

(** ** Vocabulary of the statements about the cluster asset *)

Module ClusterSpec.
Import types Cluster.

(** The state in which the body of [Generate] starts once the temporary
    directory exists and the variables file is written. *)
Definition prepared (c : Cluster) (tmpDir : string) (f : File) : GState :=
  mkGState c [EvTempDir "" "openshift-install-";
              EvWriteFile (filepath.Join tmpDir (Filename f)) (Data f) 384].

(** What the deferred closure appends. *)
Definition metadataFiles (ext : Externals) (parents : Parents) : list File :=
  match json_Marshal ext (finalMetadata parents) with
  | inl data => [mkFile metadataFileName data]
  | inr _ => []
  end.

Definition isWrite (e : Event) : bool :=
  match e with
  | EvWriteFile _ _ _ => true
  | _ => false
  end.

Definition isApply (e : Event) : bool :=
  match e with
  | EvApply _ _ => true
  | _ => false
  end.

Definition noFileWrites (tr : list Event) : Prop := forallb (fun e => negb (isWrite e)) tr = true.
Definition noApply (tr : list Event) : Prop := forallb (fun e => negb (isApply e)) tr = true.

(** The arguments [Generate] hands to terraform and what terraform
    answers. *)
Definition applied (ext : Externals) (parents : Parents) (tmpDir : string)
  : string * option error :=
  terraform_Apply ext tmpDir (Platform_Name ext (Platform_ (installConfig parents))).

End ClusterSpec.

(** ** Vocabulary of the statements about the manifests asset *)

Module ManifestsSpec.
Import Manifests.

Definition pattern : string := filepath.Join tectonicManifestDir "*".

Definition isConfig (file : File) : bool :=
  String.eqb (Filename file) tectonicConfigPath.

Definition noConfig (fileList : list File) : Prop :=
  Forall (fun file => isConfig file = false) fileList.

(** The document [Generate] builds for the given addon file. *)
Definition clusterConfig (addonFile : File) : configurationObject :=
  configMap "tectonic-system" "cluster-config-v1"
            {[ "addon-config" := Data addonFile ]}.

End ManifestsSpec.

(** ** Vocabulary of the statements about JSON documents *)

Module jsonSpec.
Import json.

(** Every string of the value is valid UTF-8. *)
Fixpoint wellFormed (v : value) : Prop :=
  match v with
  | Str s => utf8.ValidString s = true
  | Arr elements =>
      (fix all (vs : list value) : Prop :=
         match vs with
         | [] => True
         | v :: vs' => wellFormed v /\ all vs'
         end) elements
  | Obj members =>
      (fix all (ms : list (string * value)) : Prop :=
         match ms with
         | [] => True
         | (k, v) :: ms' => utf8.ValidString k = true /\ wellFormed v /\ all ms'
         end) members
  | _ => True
  end.

(** The number of nested calls the parser makes for a value. *)
Fixpoint size (v : value) : nat :=
  match v with
  | Arr elements =>
      S ((fix sum (vs : list value) : nat :=
            match vs with
            | [] => O
            | v :: vs' => S (size v + sum vs')
            end) elements)
  | Obj members =>
      S ((fix sum (ms : list (string * value)) : nat :=
            match ms with
            | [] => O
            | (_, v) :: ms' => S (size v + sum ms')
            end) members)
  | _ => 1
  end.

Fixpoint sizeElements (vs : list value) : nat :=
  match vs with
  | [] => O
  | v :: vs' => S (size v + sizeElements vs')
  end.

Fixpoint sizeMembers (ms : list (string * value)) : nat :=
  match ms with
  | [] => O
  | (_, v) :: ms' => S (size v + sizeMembers ms')
  end.

(** The text between the brackets of an array and the braces of an
    object. *)
Fixpoint elementsText (vs : list value) : string :=
  match vs with
  | [] => EmptyString
  | v :: vs' =>
      encode v +:+
      match vs' with
      | [] => EmptyString
      | _ => "," +:+ elementsText vs'
      end
  end.

Fixpoint membersText (ms : list (string * value)) : string :=
  match ms with
  | [] => EmptyString
  | (k, v) :: ms' =>
      encodeString k +:+ ":" +:+ encode v +:+
      match ms' with
      | [] => EmptyString
      | _ => "," +:+ membersText ms'
      end
  end.

(** With fuel for its size, the parser reads the value back from its
    text, whatever follows the text. *)
Definition parsesBack (v : value) : Prop :=
  wellFormed v ->
  forall fuel rest,
    (size v <= fuel)%nat -> parseValue fuel (encode v +:+ rest) = Some (v, rest).

End jsonSpec.

(** ** Vocabulary of the statements about the metadata record *)

Module metadataSpec.
Import types utf8.

Definition validMap (m : gmap string string) : Prop :=
  map_Forall (fun k v => ValidString k = true /\ ValidString v = true) m.

(** Every string of the record is valid UTF-8. *)
Definition validMetadata (m : ClusterMetadata) : Prop :=
  ValidString (ClusterName m) = true /\
  (forall a, AWS (PlatformMetadata m) = Some a ->
             ValidString (AWS_Region a) = true /\
             Forall validMap (AWS_Identifier a)) /\
  (forall o, OpenStack (PlatformMetadata m) = Some o ->
             ValidString (OpenStack_Region o) = true /\
             validMap (OpenStack_Identifier o)) /\
  (forall l, Libvirt (PlatformMetadata m) = Some l ->
             ValidString (Libvirt_URI l) = true).

(** The strings [Generate] copies from the install configuration are
    valid UTF-8. *)
Definition validConfig (c : InstallConfig) : Prop :=
  ValidString (ObjectMeta_Name c) = true /\
  ValidString (ClusterID c) = true /\
  (forall aws, Platform_AWS (Platform_ c) = Some aws ->
               ValidString (AWSPlatform_Region aws) = true) /\
  (forall openstack, Platform_OpenStack (Platform_ c) = Some openstack ->
                     ValidString (OpenStackPlatform_Region openstack) = true) /\
  (forall libvirt, Platform_Libvirt (Platform_ c) = Some libvirt ->
                   ValidString (LibvirtPlatform_URI libvirt) = true).

End metadataSpec.

(** ** The metadata document of the AWS scenario *)

Module scenario.
Import types json.

Definition quoted (s : string) : string :=
  String dquote (s +:+ String dquote EmptyString).

(** The text of metadata.json for the cluster mycluster with ID abc123 on
    AWS in us-east-1. *)
Definition document : string :=
  "{" +:+ quoted "ClusterName" +:+ ":" +:+ quoted "mycluster" +:+ ","
  +:+ quoted "ClusterPlatformMetadata" +:+ ":{"
  +:+ quoted "AWS" +:+ ":{"
  +:+ quoted "Region" +:+ ":" +:+ quoted "us-east-1" +:+ ","
  +:+ quoted "Identifier" +:+ ":[{"
  +:+ quoted "tectonicClusterID" +:+ ":" +:+ quoted "abc123" +:+ "},{"
  +:+ quoted "kubernetes.io/cluster/mycluster" +:+ ":" +:+ quoted "owned"
  +:+ "}]}}}".

Definition identifier : list (gmap string string) :=
  [ {[ "tectonicClusterID" := "abc123" ]};
    {[ "kubernetes.io/cluster/mycluster" := "owned" ]} ].

Definition parsed : value :=
  Obj [("ClusterName", Str "mycluster");
       ("ClusterPlatformMetadata",
        Obj [("AWS",
              Obj [("Region", Str "us-east-1");
                   ("Identifier",
                    Arr [Obj [("tectonicClusterID", Str "abc123")];
                         Obj [("kubernetes.io/cluster/mycluster",
                               Str "owned")]])])])].

(** Paths and what [filepath.Clean] makes of them. *)
Definition cleanTable : list (string * string) :=
  [ ("abc", "abc"); ("a/b/c", "a/b/c"); (".", "."); ("..", ".."); ("/", "/");
    ("", "."); ("abc/", "abc"); ("./", "."); ("../../", "../..");
    ("abc//def//ghi", "abc/def/ghi"); ("///abc", "/abc"); ("//abc//", "/abc");
    ("abc/./def", "abc/def"); ("/./abc/def", "/abc/def"); ("abc/.", "abc");
    ("abc/def/ghi/../jkl", "abc/def/jkl"); ("abc/def/../..", ".");
    ("/abc/def/../..", "/"); ("abc/def/../../..", "..");
    ("/abc/def/../../..", "/");
    ("abc/def/../../../ghi/jkl/../../../mno", "../../mno");
    ("abc//./../def", "def"); ("abc/../../././../def", "../../def") ].

(** A cluster name that is not valid UTF-8: the single byte 0xFF. *)
Definition badName : string := String (ascii_of_N 255) EmptyString.

End scenario.

(** ** Vocabulary of the statements about paths *)

Module filepathSpec.
Import filepath.

Fixpoint hasSlash (s : string) : bool :=
  match s with
  | EmptyString => false
  | String c rest => Ascii.eqb c slash || hasSlash rest
  end.

(** A path element that [Clean] keeps as it is: not empty, not a dot or
    two, and without a separator. *)
Definition plain (e : string) : bool :=
  negb (String.eqb e "" || String.eqb e "." || String.eqb e ".." || hasSlash e).

(** The elements [Clean] has written, last one first, are plain ones on
    top of leading double dots; a rooted path has no double dots. *)
Definition normal (isRooted : bool) (out : list string) : Prop :=
  exists tops k,
    out = (tops ++ repeat ".." k)%list /\
    Forall (fun e => plain e = true) tops /\
    (isRooted = true -> k = 0%nat).

End filepathSpec.

(** ** Vocabulary of the statements about what [Cluster.Generate] does *)

Module ClusterEffects.
Import types Cluster.

Definition isRemoveAll (e : Event) : bool :=
  match e with
  | EvRemoveAll _ => true
  | _ => false
  end.

Definition isLog (e : Event) : bool :=
  match e with
  | EvLogInfof _ | EvLogError _ | EvLogErrorf _ _ => true
  | _ => false
  end.

(** The files [Generate] leaves in an asset that had none. *)
Definition generated (ext : Externals) (parents : Parents) : list File :=
  FileList (receiver (snd (Generate ext parents (mkCluster [])))).

(** The parents with the files of [TerraformVariables] after the first
    taken away. *)
Definition firstOnly (parents : Parents) : Parents :=
  {| installConfig := installConfig parents;
     terraformVariables_Files := firstn 1 (terraformVariables_Files parents) |}.

End ClusterEffects.

(** ** Vocabulary of the statements about the manifests [Generate] writes *)

Module ManifestsEffects.
Import Manifests filepathSpec.

(** The file the loop of [Generate] appends for an entry of the map. *)
Definition manifest (entry : string * string) : File :=
  mkFile (filepath.Join tectonicManifestDir (fst entry)) (snd entry).

(** A name of the form tectonic/base, with a base that is not empty and
    holds no separator. *)
Definition inManifestDir (name : string) : bool :=
  String.prefix "tectonic/" name
  && negb (String.eqb name "tectonic/")
  && negb (hasSlash (utf8.drop 9 name)).

(** The two templates [Generate] renders. *)
Definition operatorManifest (ext : Externals) (deps : Parents) : option string :=
  applyTemplateData ext (content_KubeAddonOperator ext) (templateData ext deps).

Definition pullManifest (ext : Externals) (deps : Parents) : option string :=
  applyTemplateData ext (content_PullTectonicSystem ext) (templateData ext deps).

End ManifestsEffects.

(** ** Vocabulary of the statements about strings that are not valid UTF-8 *)

Module coercion.
Import types json.

(** What the encoder writes for a string, read as a string again: every
    byte that starts no valid UTF-8 sequence is replaced by U+FFFD;
    [fuel] bounds the number of turns. *)
Fixpoint coerceFrom (fuel : nat) (s : string) : string :=
  match fuel, s with
  | _, EmptyString => EmptyString
  | O, _ => EmptyString
  | S fuel, String _ rest =>
      let d := utf8.DecodeRuneInString s in
      if utf8.isError d then
        utf8.EncodeRune utf8.RuneError +:+ coerceFrom fuel rest
      else utf8.take (snd d) s +:+ coerceFrom fuel (utf8.drop (snd d) s)
  end.

Definition coerce (s : string) : string := coerceFrom (String.length s) s.

Fixpoint coerceValue (v : value) : value :=
  match v with
  | Str s => Str (coerce s)
  | Arr elements => Arr (map coerceValue elements)
  | Obj members =>
      Obj (map (fun m => (coerce (fst m), coerceValue (snd m))) members)
  | _ => v
  end.

Definition coercePlatform (p : Platform) : Platform :=
  {| Platform_AWS :=
       option_map (fun a => {| AWSPlatform_Region := coerce (AWSPlatform_Region a) |})
                  (Platform_AWS p);
     Platform_OpenStack :=
       option_map (fun o => {| OpenStackPlatform_Region :=
                                 coerce (OpenStackPlatform_Region o) |})
                  (Platform_OpenStack p);
     Platform_Libvirt :=
       option_map (fun l => {| LibvirtPlatform_URI := coerce (LibvirtPlatform_URI l) |})
                  (Platform_Libvirt p) |}.

(** The install configuration with the strings [Generate] copies into the
    metadata coerced. *)
Definition coerceConfig (c : InstallConfig) : InstallConfig :=
  {| ObjectMeta_Name := coerce (ObjectMeta_Name c);
     ClusterID := coerce (ClusterID c);
     PullSecret := PullSecret c;
     Platform_ := coercePlatform (Platform_ c) |}.

Definition coerceParents (p : Cluster.Parents) : Cluster.Parents :=
  {| Cluster.installConfig := coerceConfig (Cluster.installConfig p);
     Cluster.terraformVariables_Files := Cluster.terraformVariables_Files p |}.

(** The parser reads the text of the value back as the coerced value,
    whatever follows the text. *)
Definition parsesCoerced (v : value) : Prop :=
  forall fuel rest,
    (jsonSpec.size v <= fuel)%nat ->
    parseValue fuel (encode v +:+ rest) = Some (coerceValue v, rest).

End coercion.

(** ** Vocabulary of the statements about how often [Generate] acts *)

Module ClusterCounts.
Import types Cluster.

Definition isRead (e : Event) : bool :=
  match e with
  | EvReadFile _ => true
  | _ => false
  end.

(** How many events of a trace satisfy [p]. *)
Definition count (p : Event -> bool) (tr : list Event) : nat :=
  length (List.filter p tr).

(** The steps before the platform switch succeeded and a platform is
    configured. *)
Definition reachesTerraform (ext : Externals) (parents : Parents) : Prop :=
  exists tmpDir f fs pm,
    ioutil_TempDir ext "" "openshift-install-" = inl tmpDir /\
    terraformVariables_Files parents = f :: fs /\
    ioutil_WriteFile ext (filepath.Join tmpDir (Filename f)) (Data f) 384 = None /\
    platformMetadata parents = Some pm.

End ClusterCounts.

(** ** Vocabulary of the statements about where files are *)

Module pathSpec.
Import filepath.

(** The file [name] in the directory [dir], for a plain [name]: in the
    current directory and in the root the directory is not written
    out. *)
Definition inDir (dir name : string) : string :=
  if String.eqb (Clean dir) "." then name
  else if String.eqb (Clean dir) "/" then String slash name
  else Clean dir +:+ String slash name.

End pathSpec.

(** ** Tactics *)

Module Tactics.
Import Cluster ClusterSpec.

(** Linear arithmetic with division and remainder by constants. *)
Ltac nlia := zify; Z.to_euclidean_division_equations; lia.

(** Unfolds the monadic steps of [Generate]. *)
Ltac run :=
  unfold Generate, GenerateM, generateInTmpDir, generateMetadata, provision,
    applyAndCapture, deferredMetadata, TempDir, WriteFile, ReadFile, Apply,
    appendFile, bind, emit, ret, applied in *.

End Tactics.

(** * Properties *)

(** ** The model on concrete inputs *)

Module Examples.
Import types.

Example Clean_table :
  forallb (fun '(path, cleaned) => String.eqb (filepath.Clean path) cleaned)
          scenario.cleanTable = true.
Proof. vm_compute. reflexivity. Qed.

Example Join_examples :
  filepath.Join "tectonic" "*" = "tectonic/*" /\
  filepath.Join "" "metadata.json" = "metadata.json" /\
  filepath.Join "/tmp/x/" "terraform.tfvars" = "/tmp/x/terraform.tfvars" /\
  filepath.Join "" "" = "".
Proof. repeat split; vm_compute; reflexivity. Qed.

Example tectonicConfigPath_value :
  Manifests.tectonicConfigPath = "tectonic/00_cluster-config.yaml".
Proof. vm_compute. reflexivity. Qed.

Example IsNotExist_examples :
  os_IsNotExist (PathError "open" "terraform.tfstate" ErrNotExist) = true /\
  os_IsNotExist (Wrap ErrNotExist "failed to read") = false.
Proof. split; reflexivity. Qed.

Example DecodeRune_examples :
  utf8.DecodeRuneInString "€uro" = (0x20AC%N, 3%nat) /\
  utf8.DecodeRuneInString scenario.badName = (utf8.RuneError, 1%nat) /\
  utf8.EncodeRune 0x20AC = "€" /\
  utf8.EncodeRune 0xD800 = utf8.EncodeRune utf8.RuneError.
Proof. repeat split; vm_compute; reflexivity. Qed.

Example ValidString_examples :
  utf8.ValidString "kubernetes.io/cluster/é€😀" = true /\
  utf8.ValidString scenario.badName = false.
Proof. split; vm_compute; reflexivity. Qed.

Example Marshal_libvirt :
  json.Marshal (Cluster.finalMetadata (sample.parents "a<b" sample.libvirt))
  = "{" +:+ scenario.quoted "ClusterName" +:+ ":" +:+ scenario.quoted "a\u003cb"
    +:+ "," +:+ scenario.quoted "ClusterPlatformMetadata" +:+ ":{"
    +:+ scenario.quoted "Libvirt" +:+ ":{" +:+ scenario.quoted "URI" +:+ ":"
    +:+ scenario.quoted "qemu:///system" +:+ "}}}".
Proof. vm_compute. reflexivity. Qed.

Example Unmarshal_examples :
  decode.Unmarshal "null" = inl None /\
  decode.Unmarshal "[]" = inr (UnmarshalTypeError "array" "types.ClusterMetadata") /\
  decode.Unmarshal "{" = inr SyntaxError /\
  decode.Unmarshal
    (" { " +:+ scenario.quoted "clustername" +:+ " : "
     +:+ scenario.quoted "é\n" +:+ " , " +:+ scenario.quoted "other"
     +:+ " : [ true , null ] } ")
  = inl (Some {| ClusterName := "é" +:+ String (ascii_of_N 10) EmptyString;
                 PlatformMetadata := noPlatformMetadata |}).
Proof. repeat split; vm_compute; reflexivity. Qed.

Example Generate_trace :
  Cluster.trace (snd (Cluster.Generate sample.allGood
                        (sample.parents "mycluster" sample.aws) sample.empty))
  = [ Cluster.EvTempDir "" "openshift-install-";
      Cluster.EvWriteFile "/tmp/openshift-install-012345678/terraform.tfvars"
                          "{}" 384;
      Cluster.EvLogInfof "Using Terraform to create cluster...";
      Cluster.EvApply sample.tmpDir "aws";
      Cluster.EvReadFile sample.stateFile;
      Cluster.EvRemoveAll sample.tmpDir ].
Proof. vm_compute. reflexivity. Qed.

Example Generate_panics_without_variables :
  Cluster.Generate sample.allGood
    {| Cluster.installConfig := sample.config "mycluster" sample.aws;
       Cluster.terraformVariables_Files := [] |} sample.empty
  = (Panicked "index out of range",
     Cluster.mkGState sample.empty
       [ Cluster.EvTempDir "" "openshift-install-";
         Cluster.EvRemoveAll sample.tmpDir ]).
Proof. vm_compute. reflexivity. Qed.

End Examples.

(** ** UTF-8: a decoded sequence is encoded back to itself *)

Module utf8Props.
Import utf8 Tactics.
Local Open Scope N_scope.

#[local] Arguments String.append _ _ : simpl nomatch.

Lemma lor_mul_add y n x : x < 2 ^ n -> N.lor (y * 2 ^ n) x = y * 2 ^ n + x.
Proof.
  intros Hx.
  rewrite <- N.lxor_lor, <- N.add_nocarry_lxor; [reflexivity | |].
  all: apply N.bits_inj; intros i; rewrite N.land_spec, N.bits_0.
  all: destruct (N.lt_ge_cases i n) as [Hi|Hi].
  all: try (rewrite N.mul_pow2_bits_low by assumption; reflexivity).
  all: destruct (N.eq_dec x 0) as [->|Hx0];
    [rewrite N.bits_0, andb_false_r; reflexivity|].
  all: rewrite (N.bits_above_log2 x i), andb_false_r; [reflexivity|].
  all: apply N.log2_lt_pow2; [lia|].
  all: eapply N.lt_le_trans; [exact Hx | apply N.pow_le_mono_r; lia].
Qed.

Lemma pack2 a b : b < 64 -> N.lor (N.shiftl a 6) b = a * 64 + b.
Proof.
  intros Hb. rewrite N.shiftl_mul_pow2. apply (lor_mul_add a 6 b). exact Hb.
Qed.

Lemma pack3 a b c :
  b < 64 -> c < 64 ->
  N.lor (N.lor (N.shiftl a 12) (N.shiftl b 6)) c = (a * 64 + b) * 64 + c.
Proof.
  intros Hb Hc. rewrite <- (pack2 _ c Hc), <- (pack2 a b Hb).
  f_equal. rewrite N.shiftl_lor, N.shiftl_shiftl. reflexivity.
Qed.

Lemma pack4 a b c d :
  b < 64 -> c < 64 -> d < 64 ->
  N.lor (N.lor (N.lor (N.shiftl a 18) (N.shiftl b 12)) (N.shiftl c 6)) d
  = ((a * 64 + b) * 64 + c) * 64 + d.
Proof.
  intros Hb Hc Hd. rewrite <- (pack2 _ d Hd), <- (pack3 a b c Hb Hc).
  f_equal. rewrite !N.shiftl_lor, !N.shiftl_shiftl. reflexivity.
Qed.

Lemma land_low x n : N.land x (N.ones n) = x mod 2 ^ n.
Proof. apply N.land_ones. Qed.

Lemma code_lt c : N_of_ascii c < 256.
Proof. apply N_ascii_bounded. Qed.

Lemma byte_code n c : n = N_of_ascii c -> byte n = c.
Proof.
  intros ->. unfold byte. rewrite N.mod_small by apply code_lt.
  apply ascii_N_embedding.
Qed.

(** A lead byte [hi * 2^n + x] written by [EncodeRune]. *)
Lemma lead_byte hi n x c :
  x < 2 ^ n -> hi * 2 ^ n + x = N_of_ascii c -> byte (N.lor (hi * 2 ^ n) x) = c.
Proof. intros Hx Hc. rewrite lor_mul_add by exact Hx. apply byte_code, Hc. Qed.

Lemma continuation_byte x c :
  128 + x mod 64 = N_of_ascii c -> byte (N.lor 0x80 (N.land x 0x3F)) = c.
Proof.
  intros Hc. change 0x3F with (N.ones 6). rewrite land_low.
  apply (lead_byte 2 6); [apply N.mod_lt; discriminate | exact Hc].
Qed.

Lemma EncodeRune_two c0 c1 :
  0xC2 <= N_of_ascii c0 <= 0xDF -> 0x80 <= N_of_ascii c1 <= 0xBF ->
  EncodeRune (N.lor (N.shiftl (N.land (N_of_ascii c0) 0x1F) 6)
                    (N.land (N_of_ascii c1) 0x3F))
  = String c0 (String c1 EmptyString).
Proof.
  intros H0 H1.
  change 0x1F with (N.ones 5). change 0x3F with (N.ones 6).
  rewrite !land_low, pack2 by (apply N.mod_lt; discriminate).
  set (r := _ + _). assert (Hr : r = (N_of_ascii c0 - 0xC0) * 64 + (N_of_ascii c1 - 0x80))
    by (subst r; nlia).
  clearbody r. unfold EncodeRune.
  destruct (N.leb_spec r 0x7F); [nlia|].
  destruct (N.leb_spec r 0x7FF); [|nlia].
  f_equal; [|f_equal].
  - rewrite N.shiftr_div_pow2. apply (lead_byte 6 5); nlia.
  - apply continuation_byte. nlia.
Qed.

Lemma EncodeRune_three c0 c1 c2 lo hi :
  first (N_of_ascii c0) = Some (3%nat, lo, hi) ->
  outside (N_of_ascii c1) lo hi = false ->
  outside (N_of_ascii c2) 0x80 0xBF = false ->
  EncodeRune (N.lor (N.lor (N.shiftl (N.land (N_of_ascii c0) 0x0F) 12)
                           (N.shiftl (N.land (N_of_ascii c1) 0x3F) 6))
                    (N.land (N_of_ascii c2) 0x3F))
  = String c0 (String c1 (String c2 EmptyString)).
Proof.
  unfold first, outside. intros Hfirst H1 H2.
  apply orb_false_elim in H1 as [H1 H1'], H2 as [H2 H2'].
  apply N.ltb_ge in H1, H1', H2, H2'.
  change 0x0F with (N.ones 4). change 0x3F with (N.ones 6).
  rewrite !land_low, pack3 by (apply N.mod_lt; discriminate).
  set (r := _ + _).
  assert (Hr : r = ((N_of_ascii c0 - 0xE0) * 64 + (N_of_ascii c1 - 0x80)) * 64
                   + (N_of_ascii c2 - 0x80) /\
               0xE0 <= N_of_ascii c0 <= 0xEF /\ 0x80 <= N_of_ascii c1 <= 0xBF /\
               0x800 <= r <= 0xFFFF /\ (r < 0xD800 \/ 0xDFFF < r)).
  { subst r.
    repeat match type of Hfirst with
           | (if ?b then _ else _) = _ =>
               let E := fresh in destruct b eqn:E;
               [try discriminate | ]
           end; try discriminate.
    all: injection Hfirst as <- <-.
    all: repeat match goal with
                | H : (_ <? _) = true |- _ => apply N.ltb_lt in H
                | H : (_ <? _) = false |- _ => apply N.ltb_ge in H
                | H : (_ =? _) = true |- _ => apply N.eqb_eq in H
                | H : (_ =? _) = false |- _ => apply N.eqb_neq in H
                end.
    all: nlia. }
  clearbody r. destruct Hr as (Hr & Hc0 & Hc1 & Hrange & Hsur).
  unfold EncodeRune, MaxRune.
  destruct (N.leb_spec r 0x7F); [nlia|].
  destruct (N.leb_spec r 0x7FF); [nlia|].
  destruct (N.ltb_spec 0x10FFFF r); [nlia|].
  replace ((0xD800 <=? r) && (r <=? 0xDFFF)) with false.
  2: { symmetry. apply andb_false_iff.
       destruct Hsur; [left; apply N.leb_gt | right; apply N.leb_gt]; assumption. }
  cbn [orb]. destruct (N.leb_spec r 0xFFFF); [|nlia].
  unfold encode3. f_equal; [|f_equal; [|f_equal]].
  - rewrite N.shiftr_div_pow2. apply (lead_byte 14 4); nlia.
  - rewrite N.shiftr_div_pow2. apply continuation_byte. nlia.
  - apply continuation_byte. nlia.
Qed.

Lemma EncodeRune_four c0 c1 c2 c3 lo hi :
  first (N_of_ascii c0) = Some (4%nat, lo, hi) ->
  outside (N_of_ascii c1) lo hi = false ->
  outside (N_of_ascii c2) 0x80 0xBF = false ->
  outside (N_of_ascii c3) 0x80 0xBF = false ->
  EncodeRune (N.lor (N.lor (N.lor (N.shiftl (N.land (N_of_ascii c0) 0x07) 18)
                                  (N.shiftl (N.land (N_of_ascii c1) 0x3F) 12))
                           (N.shiftl (N.land (N_of_ascii c2) 0x3F) 6))
                    (N.land (N_of_ascii c3) 0x3F))
  = String c0 (String c1 (String c2 (String c3 EmptyString))).
Proof.
  unfold first, outside. intros Hfirst H1 H2 H3.
  apply orb_false_elim in H1 as [H1 H1'], H2 as [H2 H2'], H3 as [H3 H3'].
  apply N.ltb_ge in H1, H1', H2, H2', H3, H3'.
  change 0x07 with (N.ones 3). change 0x3F with (N.ones 6).
  rewrite !land_low, pack4 by (apply N.mod_lt; discriminate).
  set (r := _ + _).
  assert (Hr : r = (((N_of_ascii c0 - 0xF0) * 64 + (N_of_ascii c1 - 0x80)) * 64
                    + (N_of_ascii c2 - 0x80)) * 64 + (N_of_ascii c3 - 0x80) /\
               0xF0 <= N_of_ascii c0 <= 0xF4 /\ 0x80 <= N_of_ascii c1 <= 0xBF /\
               0x10000 <= r <= 0x10FFFF).
  { subst r.
    repeat match type of Hfirst with
           | (if ?b then _ else _) = _ =>
               let E := fresh in destruct b eqn:E;
               [try discriminate | ]
           end; try discriminate.
    all: injection Hfirst as <- <-.
    all: repeat match goal with
                | H : (_ <? _) = true |- _ => apply N.ltb_lt in H
                | H : (_ <? _) = false |- _ => apply N.ltb_ge in H
                | H : (_ =? _) = true |- _ => apply N.eqb_eq in H
                | H : (_ =? _) = false |- _ => apply N.eqb_neq in H
                end.
    all: nlia. }
  clearbody r. destruct Hr as (Hr & Hc0 & Hc1 & Hrange).
  unfold EncodeRune, MaxRune.
  destruct (N.leb_spec r 0x7F); [nlia|].
  destruct (N.leb_spec r 0x7FF); [nlia|].
  destruct (N.ltb_spec 0x10FFFF r); [nlia|].
  destruct (N.leb_spec 0xD800 r); [|nlia].
  destruct (N.leb_spec r 0xDFFF); [nlia|].
  cbn [orb andb]. destruct (N.leb_spec r 0xFFFF); [nlia|].
  f_equal; [|f_equal; [|f_equal; [|f_equal]]].
  - rewrite N.shiftr_div_pow2. apply (lead_byte 30 3); nlia.
  - rewrite N.shiftr_div_pow2. apply continuation_byte. nlia.
  - rewrite N.shiftr_div_pow2. apply continuation_byte. nlia.
  - apply continuation_byte. nlia.
Qed.

Lemma first_inv s0 sz lo hi :
  first s0 = Some (sz, lo, hi) ->
  (sz = 2%nat /\ lo = 0x80 /\ hi = 0xBF /\ 0xC2 <= s0 <= 0xDF)
  \/ sz = 3%nat \/ sz = 4%nat.
Proof.
  unfold first. intros Hfirst.
  repeat match type of Hfirst with
         | (if ?b then _ else _) = _ =>
             let E := fresh in destruct b eqn:E; [try discriminate | ]
         end; try discriminate.
  all: injection Hfirst as <- <- <-; auto.
  left. apply N.ltb_ge in H. apply N.ltb_lt in H0. repeat split; lia.
Qed.

Lemma take_app pre k : take (String.length pre) (pre +:+ k) = pre.
Proof.
  induction pre as [|c pre IH]; cbn; [destruct k; reflexivity|].
  f_equal. exact IH.
Qed.

Lemma drop_app pre k : drop (String.length pre) (pre +:+ k) = k.
Proof.
  induction pre as [|c pre IH]; cbn; [destruct k; reflexivity | exact IH].
Qed.

(** At a byte at or above 0x80 a sequence that decodes without error is a
    prefix of the string; the rune is encoded back to that prefix, and
    the prefix decodes alike whatever follows it. *)
Lemma decode_chunk c0 t :
  0x80 <= N_of_ascii c0 ->
  isError (DecodeRuneInString (String c0 t)) = false ->
  exists pre post,
    String c0 t = String c0 pre +:+ post /\
    snd (DecodeRuneInString (String c0 t)) = String.length (String c0 pre) /\
    EncodeRune (fst (DecodeRuneInString (String c0 t))) = String c0 pre /\
    forall k, DecodeRuneInString (String c0 pre +:+ k)
              = DecodeRuneInString (String c0 t).
Proof.
  intros Hc0.
  assert (Hlt : (N_of_ascii c0 <? 0x80) = false) by (apply N.ltb_ge; exact Hc0).
  unfold DecodeRuneInString. rewrite Hlt.
  destruct (first (N_of_ascii c0)) as [[[sz lo] hi]|] eqn:Hfirst;
    [|discriminate].
  destruct t as [|c1 t1].
  { destruct (first_inv _ _ _ _ Hfirst) as [(-> & _)|[->| ->]]; discriminate. }
  destruct (outside (N_of_ascii c1) lo hi) eqn:H1.
  { destruct (String.length _ <? sz)%nat; discriminate. }
  destruct (first_inv _ _ _ _ Hfirst) as [(-> & -> & -> & Hs0)|[->| ->]].
  all: cbn [String.length Nat.ltb Nat.leb].
  - intros _. exists (String c1 EmptyString), t1.
    cbn [String.length Nat.ltb Nat.leb fst snd String.append].
    rewrite Hlt, Hfirst, H1. cbn [Nat.leb].
    repeat split.
    apply EncodeRune_two; [exact Hs0|].
    unfold outside in H1. apply orb_false_elim in H1 as [Ha Hb].
    apply N.ltb_ge in Ha, Hb. lia.
  - destruct t1 as [|c2 t2]; [intros H; cbv in H; discriminate|].
    destruct (outside (N_of_ascii c2) 0x80 0xBF) eqn:H2;
      [intros H; cbv in H; discriminate|].
    intros _. exists (String c1 (String c2 EmptyString)), t2.
    cbn [String.length Nat.ltb Nat.leb fst snd String.append].
    rewrite Hlt, Hfirst, H1, H2. cbn [Nat.leb].
    repeat split.
    eapply EncodeRune_three; eassumption.
  - destruct t1 as [|c2 t2]; [intros H; cbv in H; discriminate|].
    destruct t2 as [|c3 t3]; [intros H; cbv in H; discriminate|].
    cbn [String.length Nat.ltb Nat.leb].
    destruct (outside (N_of_ascii c2) 0x80 0xBF) eqn:H2;
      [intros H; cbv in H; discriminate|].
    destruct (outside (N_of_ascii c3) 0x80 0xBF) eqn:H3;
      [intros H; cbv in H; discriminate|].
    intros _. exists (String c1 (String c2 (String c3 EmptyString))), t3.
    cbn [String.length Nat.ltb Nat.leb fst snd String.append].
    rewrite Hlt, Hfirst, H1, H2, H3. cbn [Nat.leb].
    repeat split.
    eapply EncodeRune_four; eassumption.
Qed.
End utf8Props.

(** ** JSON strings: a quoted string is read back *)

Module quoteProps.
Import utf8 json utf8Props.
Local Open Scope N_scope.

#[local] Arguments String.append _ _ : simpl nomatch.

Lemma append_assoc (a b c : string) : (a +:+ b) +:+ c = a +:+ (b +:+ c).
Proof. induction a as [|x a IH]; cbn; [reflexivity | f_equal; exact IH]. Qed.

Lemma length_append (a b : string) :
  String.length (a +:+ b) = (String.length a + String.length b)%nat.
Proof. induction a as [|x a IH]; cbn; [reflexivity | f_equal; exact IH]. Qed.

Lemma prepend_Some p s rest : prepend p (Some (s, rest)) = Some (p +:+ s, rest).
Proof. reflexivity. Qed.

Lemma unquote_end fuel rest :
  unquote (S fuel) (String dquote rest) = Some (EmptyString, rest).
Proof. reflexivity. Qed.

Lemma unquote_escapeByte c k fuel :
  (N_of_ascii c <? 0x80) = true -> htmlSafe (N_of_ascii c) = false ->
  unquote (S fuel) (escapeByte c +:+ k)
  = prepend (String c EmptyString) (unquote fuel k).
Proof.
  destruct c as [b0 b1 b2 b3 b4 b5 b6 b7].
  destruct b0, b1, b2, b3, b4, b5, b6, b7; intros H1 H2;
    try (cbv in H1; discriminate); try (cbv in H2; discriminate);
    reflexivity.
Qed.

Lemma unquote_safe c k fuel :
  (N_of_ascii c <? 0x80) = true -> htmlSafe (N_of_ascii c) = true ->
  unquote (S fuel) (String c k) = prepend (String c EmptyString) (unquote fuel k).
Proof.
  intros Hlt Hsafe. unfold htmlSafe in Hsafe.
  apply andb_true_iff in Hsafe as [Hge Hnot].
  apply negb_true_iff in Hnot.
  repeat (apply orb_false_elim in Hnot as [Hnot ?]).
  cbn [unquote]. rewrite Hnot, H2, Hlt.
  apply N.leb_le in Hge. destruct (N.ltb_spec (N_of_ascii c) 0x20); [lia|].
  reflexivity.
Qed.

Lemma unquote_multibyte c t fuel :
  (N_of_ascii c <? 0x80) = false ->
  unquote (S fuel) (String c t)
  = prepend (EncodeRune (fst (DecodeRuneInString (String c t))))
            (unquote fuel (drop (snd (DecodeRuneInString (String c t)))
                                (String c t))).
Proof.
  intros Hlt. cbn [unquote]. rewrite Hlt.
  apply N.ltb_ge in Hlt.
  destruct (N.eqb_spec (N_of_ascii c) 0x22); [lia|].
  destruct (N.eqb_spec (N_of_ascii c) 0x5C); [lia|].
  destruct (N.ltb_spec (N_of_ascii c) 0x20); [lia|].
  reflexivity.
Qed.

Lemma unquote_separator r k fuel :
  r = 0x2028 \/ r = 0x2029 ->
  unquote (S fuel)
    (String backslash ("u202" +:+ String (hex (N.land r 0xF)) EmptyString) +:+ k)
  = prepend (EncodeRune r) (unquote fuel k).
Proof. intros [-> | ->]; reflexivity. Qed.

Lemma validFrom_step fuel c t :
  validFrom (S fuel) (String c t) = true ->
  isError (DecodeRuneInString (String c t)) = false /\
  validFrom fuel (drop (snd (DecodeRuneInString (String c t))) (String c t)) = true.
Proof.
  cbn [validFrom]. destruct (isError _); [discriminate | auto].
Qed.

Lemma decode_ascii c t :
  (N_of_ascii c <? 0x80) = true -> DecodeRuneInString (String c t) = (N_of_ascii c, 1%nat).
Proof. intros H. unfold DecodeRuneInString. rewrite H. reflexivity. Qed.

Lemma unquote_chunk c pre d k fuel :
  (N_of_ascii c <? 0x80) = false ->
  (forall k, DecodeRuneInString (String c pre +:+ k) = d) ->
  snd d = String.length (String c pre) ->
  EncodeRune (fst d) = String c pre ->
  unquote (S fuel) (String c pre +:+ k)
  = prepend (String c pre) (unquote fuel k).
Proof.
  intros Hlt Hdec Hsize Henc.
  change (String c pre +:+ k) with (String c (pre +:+ k)).
  rewrite unquote_multibyte by assumption.
  change (String c (pre +:+ k)) with (String c pre +:+ k).
  rewrite Hdec, Henc, Hsize, drop_app. reflexivity.
Qed.

Lemma unquote_escape fuel : forall s,
  (String.length s <= fuel)%nat -> validFrom fuel s = true ->
  forall fuel' rest,
    (String.length (escape fuel s) < fuel')%nat ->
    unquote fuel' (escape fuel s +:+ String dquote rest) = Some (s, rest).
Proof.
  induction fuel as [|fuel IH]; intros s Hlen Hvalid fuel' rest Hfuel.
  { destruct s; [|cbn in Hlen; lia]. destruct fuel'; [cbn in Hfuel; lia|].
    reflexivity. }
  destruct s as [|c t].
  { destruct fuel'; [cbn in Hfuel; lia|]. reflexivity. }
  destruct fuel' as [|fuel']; [lia|].
  apply validFrom_step in Hvalid as [Hok Hvalid].
  cbn [String.length] in Hlen.
  cbn [escape] in *.
  destruct (N_of_ascii c <? 0x80) eqn:Hlt.
  - rewrite (decode_ascii _ _ Hlt) in Hvalid. cbn [snd drop] in Hvalid.
    rewrite append_assoc. rewrite length_append in Hfuel.
    destruct (htmlSafe (N_of_ascii c)) eqn:Hsafe.
    + cbn [String.append]. rewrite unquote_safe by assumption.
      rewrite IH; [reflexivity | lia | assumption | cbn in Hfuel; lia].
    + rewrite unquote_escapeByte by assumption.
      rewrite IH; [reflexivity | lia | assumption |].
      assert (1 <= String.length (escapeByte c))%nat; [|lia].
      unfold escapeByte. repeat match goal with
                                | |- context [if ?b then _ else _] => destruct b
                                end; cbn; lia.
  - pose proof Hlt as Hge. apply N.ltb_ge in Hge.
    destruct (decode_chunk c t Hge Hok) as (pre & post & Hs & Hsize & Henc & Hdec).
    rewrite Hok in *.
    remember (DecodeRuneInString (String c t)) as d eqn:Hd.
    assert (Hdrop : drop (snd d) (String c t) = post)
      by (rewrite Hsize, Hs; apply drop_app).
    assert (Htake : take (snd d) (String c t) = String c pre)
      by (rewrite Hsize, Hs; apply take_app).
    rewrite Hdrop, ?Htake in *.
    assert (Hpost : (String.length post <= fuel)%nat).
    { apply (f_equal String.length) in Hs. rewrite length_append in Hs.
      cbn [String.length] in Hs. lia. }
    destruct ((fst d =? 0x2028) || (fst d =? 0x2029)) eqn:Hsep.
    + rewrite append_assoc, unquote_separator.
      2: { apply orb_true_iff in Hsep as [H|H]; apply N.eqb_eq in H; auto. }
      rewrite IH, Henc, prepend_Some, <- Hs; [reflexivity | | |]; try assumption.
      rewrite length_append in Hfuel. cbn [String.length] in Hfuel. lia.
    + rewrite append_assoc, (unquote_chunk c pre d) by assumption.
      rewrite IH, prepend_Some, <- Hs; [reflexivity | | |]; try assumption.
      rewrite length_append in Hfuel. cbn [String.length] in Hfuel. lia.
Qed.

(** A string that is valid UTF-8 is read back from its quoted form. *)
Lemma unquote_encodeString s rest fuel :
  ValidString s = true ->
  (String.length (encodeString s +:+ rest) <= fuel)%nat ->
  unquote fuel (escape (String.length s) s +:+ String dquote rest)
  = Some (s, rest).
Proof.
  intros Hvalid Hfuel. apply unquote_escape; [lia | exact Hvalid |].
  unfold encodeString in Hfuel. cbn [String.append String.length] in Hfuel.
  rewrite append_assoc, length_append in Hfuel. lia.
Qed.
End quoteProps.

(** ** JSON documents: an encoded value is parsed back *)

Module jsonProps.
Import utf8 json jsonSpec utf8Props quoteProps.

#[local] Arguments String.append _ _ : simpl nomatch.

Lemma value_induction (P : value -> Prop) :
  P Null -> (forall b, P (Bool b)) -> (forall s, P (Str s)) ->
  (forall vs, Forall P vs -> P (Arr vs)) ->
  (forall ms, Forall (fun m => P (snd m)) ms -> P (Obj ms)) ->
  forall v, P v.
Proof.
  intros HNull HBool HStr HArr HObj.
  fix IH 1. intros [|b|s|vs|ms].
  - exact HNull.
  - apply HBool.
  - apply HStr.
  - apply HArr. induction vs as [|v vs IHvs]; constructor; [apply IH | exact IHvs].
  - apply HObj. induction ms as [|[k v] ms IHms]; constructor;
      [apply IH | exact IHms].
Qed.

Lemma encode_Arr vs : encode (Arr vs) = "[" +:+ elementsText vs +:+ "]".
Proof.
  reflexivity.
Qed.

Lemma encode_Obj ms : encode (Obj ms) = "{" +:+ membersText ms +:+ "}".
Proof.
  reflexivity.
Qed.

Lemma size_Arr vs : size (Arr vs) = S (sizeElements vs).
Proof.
  reflexivity.
Qed.

Lemma size_Obj ms : size (Obj ms) = S (sizeMembers ms).
Proof.
  reflexivity.
Qed.

Lemma wellFormed_Arr vs : wellFormed (Arr vs) <-> Forall wellFormed vs.
Proof.
  induction vs as [|v vs IH].
  - split; [constructor | exact (fun _ => I)].
  - rewrite Forall_cons_iff, <- IH. reflexivity.
Qed.

Lemma wellFormed_Obj ms :
  wellFormed (Obj ms) <->
  Forall (fun m => ValidString (fst m) = true /\ wellFormed (snd m)) ms.
Proof.
  induction ms as [|[k v] ms IH].
  - split; [constructor | exact (fun _ => I)].
  - rewrite Forall_cons_iff, <- IH. cbn [fst snd].
    change (wellFormed (Obj ((k, v) :: ms)))
      with (ValidString k = true /\ wellFormed v /\ wellFormed (Obj ms)).
    tauto.
Qed.

Lemma encode_head v :
  exists c x, encode v = String c x /\ isSpace c = false /\
              Ascii.eqb c "]" = false /\ Ascii.eqb c "}" = false.
Proof.
  destruct v as [|[|]|s|vs|ms]; do 2 eexists;
    (split; [reflexivity | repeat split; reflexivity]).
Qed.

Lemma skipSpace_head c x : isSpace c = false -> skipSpace (String c x) = String c x.
Proof. intros H. cbn [skipSpace]. rewrite H. reflexivity. Qed.

Lemma append_nil_r (s : string) : s +:+ "" = s.
Proof. induction s as [|c s IH]; cbn; [reflexivity | f_equal; exact IH]. Qed.

Lemma prefix_append w rest : String.prefix w (w +:+ rest) = true.
Proof.
  induction w as [|a w IH]; cbn [String.append]; [destruct rest; reflexivity|].
  cbn [String.prefix]. destruct (ascii_dec a a); [exact IH | congruence].
Qed.

Lemma literal_append word v rest : literal word v (word +:+ rest) = Some (v, rest).
Proof. unfold literal. rewrite prefix_append, drop_app. reflexivity. Qed.

Lemma parseValue_literal fuel rest :
  parseValue (S fuel) ("null" +:+ rest) = Some (Null, rest) /\
  parseValue (S fuel) ("true" +:+ rest) = Some (Bool true, rest) /\
  parseValue (S fuel) ("false" +:+ rest) = Some (Bool false, rest).
Proof.
  repeat split.
  - apply (literal_append "null").
  - apply (literal_append "true").
  - apply (literal_append "false").
Qed.

Lemma parseValue_Str fuel x :
  parseValue (S fuel) (String dquote x)
  = match unquote (S (String.length x)) x with
    | Some (str, rest) => Some (Str str, rest)
    | None => None
    end.
Proof. reflexivity. Qed.

Lemma parseValue_Arr fuel c x :
  isSpace c = false -> Ascii.eqb c "]" = false ->
  parseValue (S fuel) (String "[" (String c x))
  = match parseElements fuel (String c x) with
    | Some (vs, rest) => Some (Arr vs, rest)
    | None => None
    end.
Proof.
  intros Hspace Hclose. cbn [parseValue].
  rewrite (skipSpace_head "[") by reflexivity.
  change (Ascii.eqb "[" dquote) with false.
  change (Ascii.eqb "[" "[") with true. cbv iota.
  rewrite skipSpace_head by assumption. rewrite Hclose. reflexivity.
Qed.

Lemma parseValue_Obj fuel x :
  parseValue (S fuel) (String "{" (String dquote x))
  = match parseMembers fuel (String dquote x) with
    | Some (ms, rest) => Some (Obj ms, rest)
    | None => None
    end.
Proof. reflexivity. Qed.

Lemma parseElements_step fuel s :
  parseElements (S fuel) s
  = match parseValue fuel s with
    | None => None
    | Some (v, rest) =>
        match skipSpace rest with
        | String c rest' =>
            if Ascii.eqb c "," then
              match parseElements fuel rest' with
              | Some (vs, rest'') => Some (v :: vs, rest'')
              | None => None
              end
            else if Ascii.eqb c "]" then Some ([v], rest')
            else None
        | EmptyString => None
        end
    end.
Proof. reflexivity. Qed.

Lemma parseMembers_step fuel k x :
  ValidString k = true ->
  parseMembers (S fuel) (encodeString k +:+ String ":" x)
  = match parseValue fuel x with
    | None => None
    | Some (v, rest) =>
        match skipSpace rest with
        | String c rest' =>
            if Ascii.eqb c "," then
              match parseMembers fuel rest' with
              | Some (ms, rest'') => Some ((k, v) :: ms, rest'')
              | None => None
              end
            else if Ascii.eqb c "}" then Some ([(k, v)], rest')
            else None
        | EmptyString => None
        end
    end.
Proof.
  intros Hk. unfold encodeString. cbn [String.append].
  rewrite append_assoc. cbn [String.append].
  cbn [parseMembers]. rewrite (skipSpace_head dquote) by reflexivity.
  change (Ascii.eqb dquote dquote) with true. cbv iota.
  rewrite unquote_escape; [reflexivity | lia | exact Hk |].
  rewrite length_append. cbn [String.length]. lia.
Qed.

Lemma parseElements_encode vs :
  vs <> [] -> Forall parsesBack vs -> Forall wellFormed vs ->
  forall fuel rest,
    (sizeElements vs <= fuel)%nat ->
    parseElements fuel (elementsText vs +:+ String "]" rest) = Some (vs, rest).
Proof.
  induction vs as [|v vs IH]; [congruence|].
  intros _ Hback Hwf fuel rest Hfuel.
  apply Forall_cons_iff in Hback as [Hv Hback], Hwf as [Hwfv Hwf].
  cbn [sizeElements] in Hfuel. destruct fuel as [|fuel]; [lia|].
  rewrite parseElements_step. cbn [elementsText].
  rewrite append_assoc, Hv by (assumption || lia).
  destruct vs as [|v' vs]; [reflexivity|].
  cbv iota. rewrite append_assoc. cbn [String.append].
  rewrite (skipSpace_head ",") by reflexivity.
  change (Ascii.eqb "," ",") with true. cbv iota.
  rewrite IH; [reflexivity | congruence | assumption | assumption | lia].
Qed.

Lemma parseMembers_encode ms :
  ms <> [] -> Forall (fun m => parsesBack (snd m)) ms ->
  Forall (fun m => ValidString (fst m) = true /\ wellFormed (snd m)) ms ->
  forall fuel rest,
    (sizeMembers ms <= fuel)%nat ->
    parseMembers fuel (membersText ms +:+ String "}" rest) = Some (ms, rest).
Proof.
  induction ms as [|[k v] ms IH]; [congruence|].
  intros _ Hback Hwf fuel rest Hfuel.
  apply Forall_cons_iff in Hback as [Hv Hback], Hwf as [[Hk Hwfv] Hwf].
  cbn [fst snd] in *.
  cbn [sizeMembers] in Hfuel. destruct fuel as [|fuel]; [lia|].
  cbn [membersText]. rewrite !append_assoc. cbn [String.append].
  rewrite parseMembers_step by assumption.
  rewrite Hv by (assumption || lia).
  destruct ms as [|m' ms]; [reflexivity|].
  cbv iota. rewrite ?append_assoc. cbn [String.append].
  rewrite (skipSpace_head ",") by reflexivity.
  change (Ascii.eqb "," ",") with true. cbv iota.
  rewrite IH; [reflexivity | congruence | assumption | assumption | lia].
Qed.

Lemma parseValue_encode v : parsesBack v.
Proof.
  induction v as [|b|s|vs IH|ms IH] using value_induction;
    intros Hwf fuel rest Hfuel.
  - destruct fuel; [cbn in Hfuel; lia | apply parseValue_literal].
  - destruct fuel; [cbn in Hfuel; lia | destruct b; apply parseValue_literal].
  - destruct fuel; [cbn in Hfuel; lia|].
    cbn [encode]. unfold encodeString. cbn [String.append].
    rewrite append_assoc. cbn [String.append].
    rewrite parseValue_Str, unquote_escape; [reflexivity | lia | exact Hwf |].
    rewrite length_append. cbn [String.length]. lia.
  - rewrite size_Arr in Hfuel. destruct fuel; [lia|].
    apply wellFormed_Arr in Hwf.
    rewrite encode_Arr, !append_assoc.
    destruct vs as [|v vs]; [reflexivity|].
    destruct (encode_head v) as (c & x & Hhead & Hspace & Hclose & _).
    cbn [String.append].
    assert (Htext : exists y,
               elementsText (v :: vs) +:+ String "]" rest = String c y).
    { cbn [elementsText]. rewrite Hhead. cbn [String.append]. eauto. }
    destruct Htext as [y Htext].
    change ("]" +:+ rest) with (String "]" rest).
    rewrite Htext, parseValue_Arr, <- Htext by assumption.
    rewrite parseElements_encode; [reflexivity | congruence | | | lia];
      assumption.
  - rewrite size_Obj in Hfuel. destruct fuel; [lia|].
    apply wellFormed_Obj in Hwf.
    rewrite encode_Obj, !append_assoc.
    destruct ms as [|[k v] ms]; [reflexivity|].
    cbn [String.append].
    assert (Htext : exists y,
               membersText ((k, v) :: ms) +:+ String "}" rest = String dquote y).
    { cbn [membersText]. unfold encodeString. cbn [String.append]. eauto. }
    destruct Htext as [y Htext].
    change ("}" +:+ rest) with (String "}" rest).
    rewrite Htext, parseValue_Obj, <- Htext.
    rewrite parseMembers_encode; [reflexivity | congruence | | | lia];
      assumption.
Qed.

Lemma size_le_length v : (size v <= String.length (encode v))%nat.
Proof.
  induction v as [|b|s|vs IH|ms IH] using value_induction.
  - cbn. lia.
  - destruct b; cbn; lia.
  - cbn [size encode]. unfold encodeString. cbn [String.length]. lia.
  - rewrite size_Arr, encode_Arr, !length_append. cbn [String.length].
    assert (sizeElements vs <= S (String.length (elementsText vs)))%nat; [|lia].
    induction IH as [|v vs Hv _ IHvs]; [cbn; lia|].
    cbn [sizeElements elementsText]. rewrite length_append.
    destruct vs; [cbn in *; lia|].
    rewrite length_append. cbn [String.length]. lia.
  - rewrite size_Obj, encode_Obj, !length_append. cbn [String.length].
    assert (sizeMembers ms <= S (String.length (membersText ms)))%nat; [|lia].
    induction IH as [|[k v] ms Hv _ IHms]; [cbn; lia|].
    cbn [sizeMembers membersText snd] in *. rewrite !length_append.
    destruct ms; [cbn in *; lia|].
    rewrite length_append. cbn [String.length]. lia.
Qed.

(** A document all of whose strings are valid UTF-8 is parsed back from
    its text. *)
Lemma parse_encode v : wellFormed v -> parse (encode v) = Some v.
Proof.
  intros Hwf. unfold parse.
  rewrite <- (append_nil_r (encode v)) at 2.
  rewrite parseValue_encode; [reflexivity | exact Hwf |].
  pose proof (size_le_length v). lia.
Qed.
End jsonProps.

(** ** The metadata record: deserialisation inverts serialisation *)

Module metadataProps.
Import types utf8 json decode jsonSpec metadataSpec jsonProps.

#[local] Arguments String.append _ _ : simpl nomatch.

Lemma insertEntry_Permutation e l : Permutation (insertEntry e l) (e :: l).
Proof.
  induction l as [|e' l IH]; cbn [insertEntry]; [reflexivity|].
  destruct (String.leb (fst e) (fst e')); [reflexivity|].
  rewrite IH. apply perm_swap.
Qed.

Lemma sortedEntries_Permutation m : Permutation (sortedEntries m) (map_to_list m).
Proof.
  unfold sortedEntries. induction (map_to_list m) as [|e l IH]; [reflexivity|].
  cbn [fold_right]. rewrite insertEntry_Permutation, IH. reflexivity.
Qed.

Lemma toMap_members entries : forall acc,
  fold_left
    (fun (acc : result (gmap string string)) '(k, v) =>
       match acc with
       | inr err => inr err
       | inl m =>
           match toString "" v with
           | inl s => inl (<[k := s]> m)
           | inr err => inr err
           end
       end)
    (map (fun '(k, v) => (k, Str v)) entries) (inl acc)
  = inl (fold_right (fun p m => <[p.1 := p.2]> m) acc (rev entries)).
Proof.
  induction entries as [|[k v] entries IH]; intros acc; [reflexivity|].
  cbn [map fold_left toString rev]. rewrite IH, fold_right_app. reflexivity.
Qed.

Lemma toMap_ofMap m : toMap ∅ (ofMap m) = inl m.
Proof.
  unfold toMap, ofMap. rewrite toMap_members. f_equal.
  change (fold_right _ ∅ ?l) with (list_to_map l : gmap string string).
  transitivity (list_to_map (map_to_list m) : gmap string string);
    [|apply list_to_map_to_list].
  apply list_to_map_proper.
  - rewrite <- Permutation_rev, sortedEntries_Permutation.
    apply NoDup_fst_map_to_list.
  - rewrite <- Permutation_rev. apply sortedEntries_Permutation.
Qed.

Lemma toMaps_ofMap ms : toMaps [] (map ofMap ms) = inl ms.
Proof.
  induction ms as [|m ms IH]; [reflexivity|].
  cbn [map toMaps]. rewrite toMap_ofMap, IH. reflexivity.
Qed.

Lemma toClusterMetadata_ofClusterMetadata m :
  toClusterMetadata None (ofClusterMetadata m) = inl (Some m).
Proof.
  destruct m as [name [aws openstack libvirt]].
  destruct aws as [[region ids]|], openstack as [[region' id]|],
    libvirt as [[uri]|]; cbv -[toMap ofMap toMaps map];
    rewrite ?toMaps_ofMap; cbv -[toMap ofMap toMaps map];
    rewrite ?toMap_ofMap; reflexivity.
Qed.

Lemma wellFormed_ofMap m : validMap m -> wellFormed (ofMap m).
Proof.
  intros Hm. unfold ofMap. apply wellFormed_Obj.
  apply List.Forall_map. rewrite sortedEntries_Permutation.
  apply List.Forall_forall. intros [k v] Hin.
  apply list_elem_of_In, elem_of_map_to_list in Hin.
  exact (Hm k v Hin).
Qed.

Lemma wellFormed_members ms :
  Forall (fun m => ValidString (fst m) = true /\ wellFormed (snd m)) ms ->
  wellFormed (Obj ms).
Proof. apply wellFormed_Obj. Qed.

Lemma wellFormed_ofAWS a :
  ValidString (AWS_Region a) = true -> Forall validMap (AWS_Identifier a) ->
  wellFormed (ofAWS a).
Proof.
  intros Hregion Hids. apply wellFormed_members.
  constructor; [split; [reflexivity | exact Hregion]|].
  constructor; [split; [reflexivity|] | constructor].
  apply wellFormed_Arr, List.Forall_map.
  eapply List.Forall_impl; [|exact Hids]. apply wellFormed_ofMap.
Qed.

Lemma wellFormed_ofOpenStack o :
  ValidString (OpenStack_Region o) = true -> validMap (OpenStack_Identifier o) ->
  wellFormed (ofOpenStack o).
Proof.
  intros Hregion Hid. apply wellFormed_members.
  constructor; [split; [reflexivity | exact Hregion]|].
  constructor; [split; [reflexivity|] | constructor].
  apply wellFormed_ofMap, Hid.
Qed.

Lemma wellFormed_ofLibvirt l :
  ValidString (Libvirt_URI l) = true -> wellFormed (ofLibvirt l).
Proof.
  intros Huri. apply wellFormed_members.
  constructor; [split; [reflexivity | exact Huri] | constructor].
Qed.

Lemma wellFormed_ofClusterMetadata m :
  validMetadata m -> wellFormed (ofClusterMetadata m).
Proof.
  destruct m as [name [aws openstack libvirt]].
  intros (Hname & Haws & Hopenstack & Hlibvirt).
  cbn [ClusterName PlatformMetadata AWS OpenStack Libvirt] in *.
  apply wellFormed_members.
  constructor; [split; [reflexivity | exact Hname]|].
  constructor; [split; [reflexivity|] | constructor].
  apply wellFormed_members. cbn [PlatformMetadata AWS OpenStack Libvirt].
  repeat apply Forall_app_2.
  - destruct aws as [a|]; [|constructor].
    destruct (Haws a eq_refl) as [Hregion Hids].
    constructor; [split; [reflexivity|] | constructor].
    apply wellFormed_ofAWS; assumption.
  - destruct openstack as [o|]; [|constructor].
    destruct (Hopenstack o eq_refl) as [Hregion Hid].
    constructor; [split; [reflexivity|] | constructor].
    apply wellFormed_ofOpenStack; assumption.
  - destruct libvirt as [l|]; [|constructor].
    constructor; [split; [reflexivity|] | constructor].
    apply wellFormed_ofLibvirt, Hlibvirt. reflexivity.
Qed.

(** Deserialisation inverts serialisation on the records whose strings
    are valid UTF-8. *)
Lemma Unmarshal_Marshal m :
  validMetadata m -> Unmarshal (Marshal m) = inl (Some m).
Proof.
  intros Hm. unfold Unmarshal, Marshal.
  rewrite parse_encode by (apply wellFormed_ofClusterMetadata, Hm).
  apply toClusterMetadata_ofClusterMetadata.
Qed.

Lemma ValidString_cons c s :
  (N_of_ascii c <? 0x80)%N = true -> ValidString (String c s) = ValidString s.
Proof.
  intros Hc. unfold ValidString. cbn [String.length validFrom].
  rewrite (quoteProps.decode_ascii _ _ Hc). unfold isError. cbn [fst snd drop].
  apply N.ltb_lt in Hc.
  destruct (N.eqb_spec (N_of_ascii c) RuneError) as [E|_];
    [unfold RuneError in E; lia | reflexivity].
Qed.

Lemma validMap_singleton k v :
  ValidString k = true -> ValidString v = true ->
  validMap ({[ k := v ]} : gmap string string).
Proof. intros Hk Hv. apply map_Forall_singleton. auto. Qed.

Lemma validMetadata_finalMetadata parents :
  validConfig (Cluster.installConfig parents) ->
  validMetadata (Cluster.finalMetadata parents).
Proof.
  intros (Hname & Hid & Haws & Hopenstack & Hlibvirt).
  unfold Cluster.finalMetadata, Cluster.platformMetadata.
  destruct (Platform_AWS _) as [aws|];
    [|destruct (Platform_OpenStack _) as [openstack|];
      [|destruct (Platform_Libvirt _) as [libvirt|]]].
  all: unfold validMetadata;
    cbn [ClusterName PlatformMetadata AWS OpenStack Libvirt noPlatformMetadata].
  all: split; [exact Hname|].
  all: split; [|split]; intros x Hx; try discriminate Hx.
  all: injection Hx as <-;
    cbn [AWS_Region AWS_Identifier OpenStack_Region OpenStack_Identifier
         Libvirt_URI].
  - split; [apply Haws; reflexivity|].
    constructor; [|constructor; [|constructor]].
    + apply validMap_singleton; [reflexivity | exact Hid].
    + apply validMap_singleton; [|reflexivity].
      cbn [String.append]. rewrite !ValidString_cons by reflexivity.
      exact Hname.
  - split; [apply Hopenstack; reflexivity|].
    apply validMap_singleton; [reflexivity | exact Hid].
  - apply Hlibvirt. reflexivity.
Qed.
End metadataProps.

(** ** Properties of the cluster asset *)

Module ClusterProps.
Import types Cluster ClusterSpec memfs Tactics.

Lemma Generate_prepared ext parents c tmpDir f fs :
  ioutil_TempDir ext "" "openshift-install-" = inl tmpDir ->
  terraformVariables_Files parents = f :: fs ->
  ioutil_WriteFile ext (filepath.Join tmpDir (Filename f)) (Data f) 384 = None ->
  Generate ext parents c =
    let (err, s) := generateMetadata ext parents tmpDir (prepared c tmpDir f) in
    (Returned err, mkGState (receiver s) (trace s ++ [EvRemoveAll tmpDir])).
Proof.
  intros Htmp Hfiles Hwrite.
  unfold Generate, GenerateM, TempDir, generateInTmpDir, WriteFile, bind, emit, ret.
  cbn. rewrite Htmp, Hfiles. cbn. rewrite Hwrite.
  unfold prepared.
  destruct (generateMetadata ext parents tmpDir _) as [err s]. reflexivity.
Qed.

(** C1: once terraform is invoked, (a) an apply failure with a readable
    state file still appends the state artifact and returns the wrapped
    apply error; (b) a successful apply with an unreadable state file
    returns the read error; (c) when both fail the wrapped apply error is
    returned and the read failure is only logged. *)
Theorem Generate_error_policy ext parents c tmpDir f fs pm :
  ioutil_TempDir ext "" "openshift-install-" = inl tmpDir ->
  terraformVariables_Files parents = f :: fs ->
  ioutil_WriteFile ext (filepath.Join tmpDir (Filename f)) (Data f) 384 = None ->
  platformMetadata parents = Some pm ->
  let r := Generate ext parents c in
  let read := ioutil_ReadFile ext (fst (applied ext parents tmpDir)) in
  (forall applyErr data,
      snd (applied ext parents tmpDir) = Some applyErr -> read = inl data ->
      fst r = Returned (Some (Wrap applyErr "failed to run terraform")) /\
      FileList (receiver (snd r)) =
        (FileList c ++ mkFile (StateFileName ext) data :: metadataFiles ext parents)%list)
  /\ (forall readErr,
      snd (applied ext parents tmpDir) = None -> read = inr readErr ->
      fst r = Returned (Some readErr) /\
      FileList (receiver (snd r)) = (FileList c ++ metadataFiles ext parents)%list)
  /\ (forall applyErr readErr,
      snd (applied ext parents tmpDir) = Some applyErr -> read = inr readErr ->
      fst r = Returned (Some (Wrap applyErr "failed to run terraform")) /\
      In (EvLogErrorf "Failed to read tfstate: %v" readErr) (trace (snd r)) /\
      FileList (receiver (snd r)) = (FileList c ++ metadataFiles ext parents)%list).
Proof.
  intros Htmp Hfiles Hwrite Hpm r read. subst r read.
  rewrite (Generate_prepared _ _ _ _ _ _ Htmp Hfiles Hwrite).
  unfold metadataFiles, prepared. run. rewrite Hpm. cbn.
  destruct (terraform_Apply ext tmpDir _) as [stateFile applyErr]. cbn.
  repeat split; intros; subst; cbn in *.
  all: match goal with H : ioutil_ReadFile _ _ = _ |- _ => rewrite H end; cbn.
  all: destruct (json_Marshal ext (finalMetadata parents)); cbn;
    rewrite <- ?app_assoc, ?app_nil_r; try reflexivity.
  all: rewrite ?in_app_iff; cbn; auto 10.
Qed.

Lemma Generate_error_policy_witness :
  let ext1 := sample.externals (inl sample.tmpDir) None
                (sample.stateFile, Some sample.applyError) (inl "partial")
                sample.marshal in
  let ext2 := sample.externals (inl sample.tmpDir) None
                (sample.stateFile, None) (inr sample.readError) sample.marshal in
  let ext3 := sample.externals (inl sample.tmpDir) None
                ("", Some sample.applyError) (inr sample.readError)
                sample.marshal in
  let parents := sample.parents "mycluster" sample.aws in
  (fst (Generate ext1 parents sample.empty) =
     Returned (Some (Wrap sample.applyError "failed to run terraform")) /\
   FileList (receiver (snd (Generate ext1 parents sample.empty))) =
     mkFile "terraform.tfstate" "partial" :: metadataFiles ext1 parents)
  /\ fst (Generate ext2 parents sample.empty) = Returned (Some sample.readError)
  /\ (fst (Generate ext3 parents sample.empty) =
        Returned (Some (Wrap sample.applyError "failed to run terraform")) /\
      In (EvLogErrorf "Failed to read tfstate: %v" sample.readError)
         (trace (snd (Generate ext3 parents sample.empty)))).
Proof.
  intros ext1 ext2 ext3 parents.
  split; [| split].
  - edestruct (Generate_error_policy ext1 parents sample.empty) as [H _];
      [reflexivity ..|].
    apply (H sample.applyError "partial"); reflexivity.
  - edestruct (Generate_error_policy ext2 parents sample.empty) as (_ & H & _);
      [reflexivity ..|].
    apply (H sample.readError); reflexivity.
  - edestruct (Generate_error_policy ext3 parents sample.empty) as (_ & _ & H);
      [reflexivity ..|].
    destruct (H sample.applyError sample.readError eq_refl eq_refl) as (? & ? & _).
    split; assumption.
Defined.

(** C3: when terraform succeeds, the state file is read and the metadata
    is serialised, [Generate] returns nil and has appended the state
    artifact and then the metadata artifact. *)
Theorem Generate_success ext parents c tmpDir f fs pm stateFile state metadata :
  ioutil_TempDir ext "" "openshift-install-" = inl tmpDir ->
  terraformVariables_Files parents = f :: fs ->
  ioutil_WriteFile ext (filepath.Join tmpDir (Filename f)) (Data f) 384 = None ->
  platformMetadata parents = Some pm ->
  applied ext parents tmpDir = (stateFile, None) ->
  ioutil_ReadFile ext stateFile = inl state ->
  json_Marshal ext (finalMetadata parents) = inl metadata ->
  fst (Generate ext parents c) = Returned None /\
  Files (receiver (snd (Generate ext parents c))) =
    (Files c ++ [mkFile (StateFileName ext) state;
                 mkFile metadataFileName metadata])%list.
Proof.
  intros Htmp Hfiles Hwrite Hpm Happly Hread Hmarshal.
  rewrite (Generate_prepared _ _ _ _ _ _ Htmp Hfiles Hwrite).
  unfold prepared, Files. run. rewrite Hpm. cbn.
  rewrite Happly. cbn. rewrite Hread. cbn. rewrite Hmarshal. cbn.
  rewrite <- app_assoc. split; reflexivity.
Qed.

Lemma Generate_success_witness :
  fst (Generate sample.allGood (sample.parents "mycluster" sample.libvirt)
         sample.empty) = Returned None /\
  Files (receiver (snd (Generate sample.allGood
                          (sample.parents "mycluster" sample.libvirt)
                          sample.empty))) =
    [mkFile "terraform.tfstate" "{}";
     mkFile metadataFileName
       (json.Marshal (finalMetadata (sample.parents "mycluster" sample.libvirt)))].
Proof.
  eapply (Generate_success sample.allGood
            (sample.parents "mycluster" sample.libvirt) sample.empty);
    reflexivity.
Defined.

(** C2, as the spec states it, fails: with no platform configured the
    temporary directory is created and the variables file written before
    the platform is looked at. *)
Lemma Generate_no_platform_writes_first :
  let r := Generate sample.allGood (sample.parents "mycluster" sample.noPlatform)
             sample.empty in
  platformMetadata (sample.parents "mycluster" sample.noPlatform) = None /\
  fst r = Returned (Some (Errorf "no known platform" [])) /\
  trace (snd r) =
    [EvTempDir "" "openshift-install-";
     EvWriteFile "/tmp/openshift-install-012345678/terraform.tfvars" "{}" 384;
     EvRemoveAll sample.tmpDir] /\
  ~ noFileWrites (trace (snd r)).
Proof.
  cbn. repeat split. unfold noFileWrites. cbn. discriminate.
Qed.

(** C2, amended: with no known platform configured, terraform is never
    invoked and [Generate] does not return nil; when the temporary
    directory and the variables file could be written, the error is "no
    known platform", the only events are the creation of the directory,
    the write of the variables file, the log of a failed serialisation if
    any, and the removal of the directory, and the metadata artifact is
    still appended. *)
Theorem Generate_no_known_platform ext parents c :
  platformMetadata parents = None ->
  let r := Generate ext parents c in
  noApply (trace (snd r)) /\
  fst r <> Returned None /\
  (forall tmpDir f fs,
      ioutil_TempDir ext "" "openshift-install-" = inl tmpDir ->
      terraformVariables_Files parents = f :: fs ->
      ioutil_WriteFile ext (filepath.Join tmpDir (Filename f)) (Data f) 384 = None ->
      fst r = Returned (Some (Errorf "no known platform" [])) /\
      FileList (receiver (snd r)) = (FileList c ++ metadataFiles ext parents)%list /\
      trace (snd r) =
        (trace (prepared c tmpDir f)
         ++ match json_Marshal ext (finalMetadata parents) with
            | inl _ => []
            | inr err => [EvLogError (Wrap err "failed to Marshal ClusterMetadata")]
            end
         ++ [EvRemoveAll tmpDir])%list).
Proof.
  intros Hpm r. subst r. unfold noApply, metadataFiles, prepared. run.
  rewrite Hpm. cbn.
  destruct (ioutil_TempDir ext "" "openshift-install-") as [tmpDir|err]; cbn.
  2: { split; [reflexivity | split; [discriminate | discriminate]]. }
  destruct (terraformVariables_Files parents) as [|f fs]; cbn.
  1: { split; [reflexivity | split; [discriminate | discriminate]]. }
  destruct (ioutil_WriteFile ext _ _ 384) as [err|] eqn:Hwrite; cbn.
  1: { split; [reflexivity | split; [discriminate |]].
       intros ? ? ? Ha Hb Hc. inversion Ha; inversion Hb; subst. congruence. }
  destruct (json_Marshal ext (finalMetadata parents)); cbn.
  all: split; [reflexivity | split; [discriminate |]].
  all: intros ? ? ? Ha Hb Hc; inversion Ha; inversion Hb; subst; cbn.
  all: rewrite ?app_nil_r; repeat split; reflexivity.
Qed.

Lemma Generate_no_known_platform_witness :
  let r := Generate sample.allGood (sample.parents "mycluster" sample.noPlatform)
             sample.empty in
  noApply (trace (snd r)) /\
  fst r = Returned (Some (Errorf "no known platform" [])).
Proof.
  intros r.
  destruct (Generate_no_known_platform sample.allGood
              (sample.parents "mycluster" sample.noPlatform) sample.empty eq_refl)
    as (H1 & _ & H3).
  split; [exact H1 |].
  apply (H3 sample.tmpDir sample.tfvars []); reflexivity.
Defined.

(** C5, as the spec states it, fails: when the temporary directory cannot
    be created, [Generate] returns before the metadata closure is
    deferred, and nothing is appended although the record would
    serialise. *)
Lemma Generate_temp_dir_failure_no_metadata :
  let ext := sample.externals (inr sample.diskFull) None (sample.stateFile, None)
               (inl "{}") sample.marshal in
  let parents := sample.parents "mycluster" sample.aws in
  let r := Generate ext parents sample.empty in
  (exists data, json_Marshal ext (finalMetadata parents) = inl data) /\
  fst r = Returned (Some (Wrap sample.diskFull
                            "failed to create temp dir for terraform execution")) /\
  FileList (receiver (snd r)) = [].
Proof.
  cbn. split; [eexists; reflexivity | split; reflexivity].
Qed.

Lemma Generate_deferred_metadata ext parents c tmpDir f fs :
  ioutil_TempDir ext "" "openshift-install-" = inl tmpDir ->
  terraformVariables_Files parents = f :: fs ->
  ioutil_WriteFile ext (filepath.Join tmpDir (Filename f)) (Data f) 384 = None ->
  let body := provision ext parents tmpDir (prepared c tmpDir f) in
  let r := Generate ext parents c in
  match json_Marshal ext (finalMetadata parents) with
  | inl data =>
      fst r = Returned (fst body) /\
      FileList (receiver (snd r)) =
        (FileList (receiver (snd body)) ++ [mkFile metadataFileName data])%list /\
      trace (snd r) = (trace (snd body) ++ [EvRemoveAll tmpDir])%list
  | inr err2 =>
      let err2 := Wrap err2 "failed to Marshal ClusterMetadata" in
      FileList (receiver (snd r)) = FileList (receiver (snd body)) /\
      match fst body with
      | None =>
          fst r = Returned (Some err2) /\
          trace (snd r) = (trace (snd body) ++ [EvRemoveAll tmpDir])%list
      | Some err =>
          fst r = Returned (Some err) /\
          trace (snd r) =
            (trace (snd body) ++ [EvLogError err2; EvRemoveAll tmpDir])%list
      end
  end.
Proof.
  intros Htmp Hfiles Hwrite body r. subst body r.
  rewrite (Generate_prepared _ _ _ _ _ _ Htmp Hfiles Hwrite).
  unfold generateMetadata, bind.
  destruct (provision ext parents tmpDir (prepared c tmpDir f)) as [err s].
  unfold deferredMetadata.
  destruct (json_Marshal ext (finalMetadata parents)) as [data|err2]; cbn.
  - repeat split; reflexivity.
  - destruct err as [err|]; cbn; rewrite <- ?app_assoc; repeat split; reflexivity.
Qed.

(** C5, amended: (a) when the temporary directory cannot be created, and
    (b) when the variables file cannot be written, [Generate] returns that
    error, wrapped, and the file list is as it was: the metadata is not
    serialised.  (c) Once both steps succeeded, whatever the rest of the
    body did (no known platform, apply failure, read failure: [fst body] is
    the error the body returns), the metadata is serialised; on success it
    is appended as the last file and the body's error is returned; on
    failure nothing is appended, and the serialisation error is returned
    when the body's error is nil and is otherwise logged while the body's
    error is returned. *)
Theorem Generate_metadata_policy ext parents c :
  (forall err,
      ioutil_TempDir ext "" "openshift-install-" = inr err ->
      Generate ext parents c =
        (Returned (Some (Wrap err "failed to create temp dir for terraform execution")),
         mkGState c [EvTempDir "" "openshift-install-"]))
  /\ (forall tmpDir f fs err,
      ioutil_TempDir ext "" "openshift-install-" = inl tmpDir ->
      terraformVariables_Files parents = f :: fs ->
      ioutil_WriteFile ext (filepath.Join tmpDir (Filename f)) (Data f) 384
        = Some err ->
      Generate ext parents c =
        (Returned (Some (Wrap err "failed to write terraform.tfvars file")),
         mkGState c (trace (prepared c tmpDir f) ++ [EvRemoveAll tmpDir])%list))
  /\ (forall tmpDir f fs,
      ioutil_TempDir ext "" "openshift-install-" = inl tmpDir ->
      terraformVariables_Files parents = f :: fs ->
      ioutil_WriteFile ext (filepath.Join tmpDir (Filename f)) (Data f) 384 = None ->
      let body := provision ext parents tmpDir (prepared c tmpDir f) in
      let r := Generate ext parents c in
      match json_Marshal ext (finalMetadata parents) with
      | inl data =>
          fst r = Returned (fst body) /\
          FileList (receiver (snd r)) =
            (FileList (receiver (snd body)) ++ [mkFile metadataFileName data])%list
      | inr err2 =>
          let err2 := Wrap err2 "failed to Marshal ClusterMetadata" in
          FileList (receiver (snd r)) = FileList (receiver (snd body)) /\
          match fst body with
          | None => fst r = Returned (Some err2)
          | Some err =>
              fst r = Returned (Some err) /\ In (EvLogError err2) (trace (snd r))
          end
      end).
Proof.
  split; [|split].
  - intros err Htmp. unfold Generate, GenerateM, TempDir, bind, emit, ret.
    cbn. rewrite Htmp. reflexivity.
  - intros tmpDir f fs err Htmp Hfiles Hwrite.
    unfold Generate, GenerateM, TempDir, generateInTmpDir, WriteFile, bind, emit, ret.
    cbn. rewrite Htmp, Hfiles. cbn. rewrite Hwrite. reflexivity.
  - intros tmpDir f fs Htmp Hfiles Hwrite body r.
    pose proof (Generate_deferred_metadata ext parents c tmpDir f fs
                  Htmp Hfiles Hwrite) as H.
    cbv zeta in H. fold body r in H.
    destruct (json_Marshal ext (finalMetadata parents)) as [data|err2].
    + destruct H as (H1 & H2 & _). split; assumption.
    + cbv zeta in *. destruct H as [H1 H2]. split; [exact H1|].
      destruct (fst body) as [err|]; [|apply H2].
      destruct H2 as [H2 H3]. split; [exact H2|].
      rewrite H3, in_app_iff. right. left. reflexivity.
Qed.

Lemma Generate_metadata_policy_witness :
  let ext := sample.externals (inl sample.tmpDir) None
               ("", Some sample.applyError) (inr sample.readError)
               sample.marshalFails in
  let parents := sample.parents "mycluster" sample.openstack in
  let r := Generate ext parents sample.empty in
  FileList (receiver (snd r)) = [] /\
  fst r = Returned (Some (Wrap sample.applyError "failed to run terraform")) /\
  In (EvLogError (Wrap (Errorf "json: unsupported value" [])
                       "failed to Marshal ClusterMetadata"))
     (trace (snd r)).
Proof.
  intros ext parents r.
  destruct (Generate_metadata_policy ext parents sample.empty) as (_ & _ & H).
  specialize (H sample.tmpDir sample.tfvars [] eq_refl eq_refl eq_refl).
  destruct H as (H1 & H2 & H3).
  split; [exact H1 | split; [exact H2 | exact H3]].
Defined.

(** C4: [Load] answers (false, nil) when the fetcher reports that the
    state file does not exist, and (true, err) with a non-nil error
    whenever the fetcher finds it. *)
Theorem Load_state_file_guard {F} `{FileFetcher F} ext c (f : F) :
  (forall err,
      FetchByName f (StateFileName ext) = inr err ->
      os_IsNotExist err = true ->
      Load ext c f = (false, None))
  /\ (forall file,
      FetchByName f (StateFileName ext) = inl file ->
      exists err, Load ext c f = (true, Some err)).
Proof.
  unfold Load. split.
  - intros err Hfetch Hnotexist. rewrite Hfetch, Hnotexist. reflexivity.
  - intros file Hfetch. rewrite Hfetch. eexists. reflexivity.
Qed.

Lemma Load_state_file_guard_witness :
  Load sample.allGood sample.empty ([] : list File) = (false, None) /\
  exists err,
    Load sample.allGood sample.empty [mkFile "terraform.tfstate" "{}"]
    = (true, Some err).
Proof.
  split.
  - eapply (proj1 (Load_state_file_guard sample.allGood sample.empty [])); reflexivity.
  - eapply (proj2 (Load_state_file_guard sample.allGood sample.empty
                     [mkFile "terraform.tfstate" "{}"])).
    reflexivity.
Defined.
End ClusterProps.

(** ** Properties of the manifests asset *)

Module ManifestsProps.
Import Manifests ManifestsSpec memfs.

Lemma findConfig_noConfig ext fileList cur found :
  noConfig fileList -> findConfig ext fileList cur found = inl (cur, found).
Proof.
  induction 1 as [|file rest Hfile _ IH]; cbn [findConfig]; [reflexivity |].
  unfold isConfig in Hfile. rewrite Hfile. exact IH.
Qed.


Lemma appendAssets_map fileList entries :
  appendAssets fileList entries =
    (fileList ++
     map (fun e => mkFile (filepath.Join tectonicManifestDir (fst e)) (snd e))
         entries)%list.
Proof.
  unfold appendAssets. revert fileList.
  induction entries as [|[name data] entries IH]; intros fileList; cbn.
  - symmetry. apply app_nil_r.
  - rewrite IH, <- app_assoc. reflexivity.
Qed.



Lemma nonempty_length {A} (l : list A) : l <> [] -> Nat.eqb (length l) 0 = false.
Proof. destruct l; [congruence | reflexivity]. Qed.



(** C9: when the configuration document cannot be serialised,
    [Generate] returns that error, wrapped, and the file list of the asset
    is the one it had before the call. *)
Theorem Generate_marshal_failure ext deps t operator pull addonFile rest err :
  applyTemplateData ext (content_KubeAddonOperator ext) (templateData ext deps)
    = Some operator ->
  applyTemplateData ext (content_PullTectonicSystem ext) (templateData ext deps)
    = Some pull ->
  addon_Files deps = addonFile :: rest ->
  yaml_Marshal ext (clusterConfig addonFile) = inr err ->
  fst (Generate ext deps t) =
    Returned (Some (Wrap err
       "failed to create tectonic-system/cluster-config-v1 configmap")) /\
  Files (snd (Generate ext deps t)) = Files t.
Proof.
  intros Hoperator Hpull Haddon Hmarshal.
  unfold Generate, clusterConfig in *.
  rewrite Hoperator, Hpull, Haddon, Hmarshal. split; reflexivity.
Qed.

Lemma Generate_marshal_failure_witness :
  let ext := sampleManifests.externals sampleManifests.marshalFails in
  fst (Generate ext sampleManifests.parents sampleManifests.stale) =
    Returned (Some (Wrap (Errorf "yaml: unsupported value" [])
       "failed to create tectonic-system/cluster-config-v1 configmap")) /\
  Files (snd (Generate ext sampleManifests.parents sampleManifests.stale)) =
    [mkFile "tectonic/99_role-admin.yaml" "old"].
Proof.
  intros ext.
  eapply (Generate_marshal_failure ext sampleManifests.parents sampleManifests.stale);
    reflexivity.
Defined.

(** C10: [Load] writes [FileList] and [TectonicConfig] only when it
    answers (true, nil).  A fetch error, an empty match, a match without
    the configuration document and a document that does not deserialise
    all leave the asset as it was. *)
Theorem Load_frame {F} `{FileFetcher F} ext t (f : F) :
  (forall res t', Load ext t f = (res, t') -> res <> (true, None) -> t' = t)
  /\ (forall err,
      FetchByPattern f pattern = inr err ->
      Load ext t f = ((false, Some err), t))
  /\ (FetchByPattern f pattern = inl [] -> Load ext t f = ((false, None), t))
  /\ (forall fileList,
      FetchByPattern f pattern = inl fileList -> noConfig fileList ->
      Load ext t f = ((false, None), t))
  /\ (forall fileList err,
      FetchByPattern f pattern = inl fileList -> fileList <> [] ->
      findConfig ext fileList emptyConfigurationObject false = inr err ->
      Load ext t f = ((false, Some err), t)).
Proof.
  unfold Load. fold pattern. repeat apply conj.
  - intros res t'.
    destruct (FetchByPattern f pattern) as [fileList|err].
    2: { intros [= <- <-]. reflexivity. }
    destruct (Nat.eqb (length fileList) 0).
    1: { intros [= <- <-]. reflexivity. }
    destruct (findConfig ext fileList emptyConfigurationObject false)
      as [[cfg found]|err].
    2: { intros [= <- <-]. reflexivity. }
    destruct found; cbn.
    + intros [= <- <-]. congruence.
    + intros [= <- <-]. reflexivity.
  - intros err Hfetch. rewrite Hfetch. reflexivity.
  - intros Hfetch. rewrite Hfetch. reflexivity.
  - intros fileList Hfetch Hno. rewrite Hfetch.
    destruct (Nat.eqb (length fileList) 0); [reflexivity |].
    rewrite findConfig_noConfig by assumption. reflexivity.
  - intros fileList err Hfetch Hne Hfind. rewrite Hfetch.
    rewrite nonempty_length by assumption. rewrite Hfind. reflexivity.
Qed.

Lemma Load_frame_witness :
  let ext := sampleManifests.externals sampleManifests.marshal in
  snd (Load ext sampleManifests.stale
         [mkFile tectonicConfigPath "not the document";
          mkFile "tectonic/99_role-user.yaml" "x"]) = sampleManifests.stale
  /\ Load ext sampleManifests.stale (Failing ErrNotExist)
      = ((false, Some ErrNotExist), sampleManifests.stale).
Proof.
  intros ext. split.
  - pose proof (Load_frame ext sampleManifests.stale
                  [mkFile tectonicConfigPath "not the document";
                   mkFile "tectonic/99_role-user.yaml" "x"]) as (H1 & _).
    eapply H1; [apply surjective_pairing |].
    vm_compute. discriminate.
  - pose proof (Load_frame ext sampleManifests.stale (Failing ErrNotExist))
      as (_ & H2 & _).
    apply H2. reflexivity.
Defined.
End ManifestsProps.

(** ** The metadata file: what [Generate] writes and [LoadMetadata] reads *)

Module MetadataFileProps.
Import types Cluster ClusterSpec metadataSpec memfs.

Lemma Generate_last_metadata ext parents c tmpDir f fs data :
  ioutil_TempDir ext "" "openshift-install-" = inl tmpDir ->
  terraformVariables_Files parents = f :: fs ->
  ioutil_WriteFile ext (filepath.Join tmpDir (Filename f)) (Data f) 384 = None ->
  json_Marshal ext (finalMetadata parents) = inl data ->
  last (Files (receiver (snd (Generate ext parents c))))
  = Some (mkFile metadataFileName data).
Proof.
  intros Htmp Hfiles Hwrite Hmarshal.
  rewrite (ClusterProps.Generate_prepared _ _ _ _ _ _ Htmp Hfiles Hwrite).
  unfold generateMetadata, bind.
  destruct (provision ext parents tmpDir (prepared c tmpDir f)) as [err s].
  unfold deferredMetadata. rewrite Hmarshal.
  cbn. apply last_snoc.
Qed.

Lemma LoadMetadata_written fsys dir data :
  LoadMetadata
    (ReadFile (WriteFile fsys (filepath.Join dir metadataFileName) data))
    decode.Unmarshal dir
  = match decode.Unmarshal data with
    | inl m => inl m
    | inr err =>
        inr (Wrapf err
               "failed to Unmarshal data from %s file to types.ClusterMetadata"
               [metadataFileName])
    end.
Proof.
  unfold LoadMetadata, ReadFile, WriteFile. rewrite lookup_insert_eq.
  reflexivity.
Qed.





(** C7: for an install configuration on AWS in us-east-1 with cluster ID
    abc123 and name mycluster, the metadata record has that region and
    the two identifier maps, and the metadata artifact is the expected
    document, which holds Region us-east-1 under AWS, the entry
    tectonicClusterID abc123 and the tag kubernetes.io/cluster/mycluster
    owned. *)
Theorem Generate_aws_scenario ext parents c tmpDir f fs aws :
  (forall m, json_Marshal ext m = inl (json.Marshal m)) ->
  Platform_AWS (Platform_ (installConfig parents)) = Some aws ->
  AWSPlatform_Region aws = "us-east-1" ->
  ClusterID (installConfig parents) = "abc123" ->
  ObjectMeta_Name (installConfig parents) = "mycluster" ->
  ioutil_TempDir ext "" "openshift-install-" = inl tmpDir ->
  terraformVariables_Files parents = f :: fs ->
  ioutil_WriteFile ext (filepath.Join tmpDir (Filename f)) (Data f) 384 = None ->
  AWS (PlatformMetadata (finalMetadata parents))
    = Some {| AWS_Region := "us-east-1"; AWS_Identifier := scenario.identifier |}
  /\ last (Files (receiver (snd (Generate ext parents c))))
     = Some (mkFile "metadata.json" scenario.document)
  /\ json.parse scenario.document = Some scenario.parsed.
Proof.
  intros Hmarshal Haws Hregion Hid Hname Htmp Hfiles Hwrite.
  assert (Hfinal : finalMetadata parents =
            {| ClusterName := "mycluster";
               PlatformMetadata :=
                 {| AWS := Some {| AWS_Region := "us-east-1";
                                   AWS_Identifier := scenario.identifier |};
                    OpenStack := None; Libvirt := None |} |}).
  { unfold finalMetadata, platformMetadata.
    rewrite Haws, Hregion, Hid, Hname. reflexivity. }
  split; [rewrite Hfinal; reflexivity | split].
  - erewrite Generate_last_metadata; eauto.
    rewrite Hmarshal, Hfinal. vm_compute. reflexivity.
  - vm_compute. reflexivity.
Qed.

Lemma Generate_aws_scenario_witness :
  last (Files (receiver (snd (Generate sample.allGood
                                (sample.parents "mycluster" sample.aws)
                                sample.empty))))
  = Some (mkFile "metadata.json" scenario.document).
Proof.
  eapply (Generate_aws_scenario sample.allGood
            (sample.parents "mycluster" sample.aws) sample.empty);
    reflexivity.
Defined.
End MetadataFileProps.

(** ** Paths: [Clean] and [Join] *)

Module filepathProps.
Import filepath filepathSpec.

#[local] Arguments String.append _ _ : simpl nomatch.

Lemma elements_nonempty p : elements p <> [].
Proof.
  destruct p as [|c p]; cbn [elements]; [discriminate|].
  destruct (Ascii.eqb c slash); [discriminate|].
  destruct (elements p); discriminate.
Qed.

Lemma elements_app a b :
  elements (a +:+ String slash b) = (elements a ++ elements b)%list.
Proof.
  induction a as [|c a IH]; cbn [String.append elements].
  - rewrite Ascii.eqb_refl. reflexivity.
  - rewrite IH. destruct (Ascii.eqb c slash); [reflexivity|].
    destruct (elements a) eqn:E; [destruct (elements_nonempty _ E) | reflexivity].
Qed.

Lemma elements_single x : hasSlash x = false -> elements x = [x].
Proof.
  induction x as [|c x IH]; cbn [hasSlash elements]; [reflexivity|].
  intros H. apply orb_false_iff in H as [H1 H2].
  rewrite H1, (IH H2). reflexivity.
Qed.

Lemma concat_cons x y l :
  String.concat "/" (x :: y :: l) = x +:+ String slash (String.concat "/" (y :: l)).
Proof. reflexivity. Qed.

Lemma elements_concat l :
  l <> [] -> Forall (fun e => hasSlash e = false) l ->
  elements (String.concat "/" l) = l.
Proof.
  induction l as [|x l IH]; [congruence|].
  intros _ H. inversion H as [|? ? Hx Hl]; subst.
  destruct l as [|y l].
  - apply elements_single, Hx.
  - rewrite concat_cons, elements_app, elements_single by exact Hx.
    rewrite IH; [reflexivity | discriminate | exact Hl].
Qed.

Lemma plain_inv e :
  plain e = true ->
  String.eqb e "" = false /\ String.eqb e "." = false /\
  String.eqb e ".." = false /\ hasSlash e = false.
Proof.
  unfold plain. rewrite negb_true_iff, !orb_false_iff. tauto.
Qed.

Lemma clean_step_plain r out e : plain e = true -> clean_step r out e = e :: out.
Proof.
  intros H. apply plain_inv in H as (H1 & H2 & H3 & _).
  unfold clean_step. rewrite H1, H2, H3. reflexivity.
Qed.

Lemma normal_nil r : normal r [].
Proof. exists [], 0%nat. repeat split; auto. Qed.

Lemma clean_step_normal r out e :
  hasSlash e = false -> normal r out -> normal r (clean_step r out e).
Proof.
  intros He (tops & k & -> & Htops & Hk). unfold clean_step.
  destruct (String.eqb e "") eqn:E1; cbn [orb].
  { exists tops, k. auto. }
  destruct (String.eqb e ".") eqn:E2.
  { exists tops, k. auto. }
  destruct (String.eqb e "..") eqn:E3.
  - apply String.eqb_eq in E3 as ->.
    destruct tops as [|t tops]; cbn [app].
    + destruct k as [|k]; cbn [repeat].
      * destruct r; [apply normal_nil|].
        exists [], 1%nat. repeat split; auto. discriminate.
      * exists [], (S (S k)). repeat split; auto.
        intros Hr. specialize (Hk Hr). discriminate.
    + inversion Htops as [|? ? Ht Htops']; subst.
      apply plain_inv in Ht as (_ & _ & Ht & _). rewrite Ht.
      exists tops, k. auto.
  - exists (e :: tops), k. repeat split; auto.
    constructor; [|exact Htops].
    unfold plain. rewrite E1, E2, E3, He. reflexivity.
Qed.

Lemma fold_normal r es out :
  Forall (fun e => hasSlash e = false) es -> normal r out ->
  normal r (fold_left (clean_step r) es out).
Proof.
  intros Hes. revert out.
  induction Hes as [|e es He _ IH]; intros out Hout; cbn [fold_left]; [exact Hout|].
  apply IH, clean_step_normal; assumption.
Qed.

Lemma elements_noSlash p : Forall (fun e => hasSlash e = false) (elements p).
Proof.
  induction p as [|c p IH]; cbn [elements].
  - repeat constructor.
  - destruct (Ascii.eqb c slash) eqn:Ec; [constructor; [reflexivity | exact IH]|].
    destruct (elements p) as [|e es].
    + repeat constructor. cbn. rewrite Ec. reflexivity.
    + inversion IH; subst. constructor; [|assumption].
      cbn. rewrite Ec. assumption.
Qed.

Lemma fold_plain r l acc :
  Forall (fun e => plain e = true) l ->
  fold_left (clean_step r) l acc = (rev l ++ acc)%list.
Proof.
  intros Hl. revert acc.
  induction Hl as [|e l He _ IH]; intros acc; cbn [fold_left rev]; [reflexivity|].
  rewrite clean_step_plain by exact He. rewrite IH, <- app_assoc. reflexivity.
Qed.

Lemma fold_dotdots k j :
  fold_left (clean_step false) (repeat ".." k) (repeat ".." j)
  = repeat ".." (k + j).
Proof.
  revert j. induction k as [|k IH]; intros j; cbn [repeat fold_left]; [reflexivity|].
  replace (clean_step false (repeat ".." j) "..") with (repeat ".." (S j)).
  - rewrite IH. f_equal. lia.
  - destruct j; reflexivity.
Qed.

Lemma rev_dotdots k : rev (repeat ".." k) = repeat ".." k.
Proof.
  induction k as [|k IH]; [reflexivity|].
  cbn [repeat rev]. rewrite IH. clear IH.
  induction k as [|k IH]; [reflexivity|].
  cbn [repeat app]. rewrite IH. reflexivity.
Qed.

Lemma fold_rev_normal r out :
  normal r out -> fold_left (clean_step r) (rev out) [] = out.
Proof.
  intros (tops & k & -> & Htops & Hk).
  rewrite rev_app_distr, rev_dotdots, fold_left_app.
  assert (Hd : fold_left (clean_step r) (repeat ".." k) [] = repeat ".." k).
  { destruct r.
    - rewrite (Hk eq_refl). reflexivity.
    - pose proof (fold_dotdots k 0) as E. rewrite Nat.add_0_r in E. exact E. }
  rewrite Hd, fold_plain by (apply List.Forall_rev, Htops).
  rewrite rev_involutive. reflexivity.
Qed.

Lemma normal_noSlash r out :
  normal r out -> Forall (fun e => hasSlash e = false /\ e <> "") out.
Proof.
  intros (tops & k & -> & Htops & _). apply Forall_app. split.
  - eapply List.Forall_impl; [|exact Htops]. intros e He.
    apply plain_inv in He as (H1 & _ & _ & H4). split; [exact H4|].
    intros ->. discriminate.
  - clear. induction k; cbn [repeat]; constructor; auto.
Qed.

Lemma concat_empty l :
  Forall (fun e => hasSlash e = false /\ e <> "") l ->
  String.concat "/" l = "" -> l = [].
Proof.
  destruct l as [|x [|y l]]; [reflexivity | |].
  - intros H Hx. inversion H; subst. cbn in Hx. tauto.
  - intros H Hx. inversion H as [|? ? [_ Hne] _]; subst.
    rewrite concat_cons in Hx. destruct x; [congruence | discriminate].
Qed.

Lemma rooted_concat l :
  Forall (fun e => hasSlash e = false /\ e <> "") l ->
  rooted (String.concat "/" l) = false.
Proof.
  destruct l as [|x l]; [reflexivity|].
  intros H. inversion H as [|? ? [Hs Hne] _]; subst.
  destruct x as [|c x]; [congruence|].
  cbn in Hs. apply orb_false_iff in Hs as [Hc _].
  destruct l; [exact Hc | rewrite concat_cons; exact Hc].
Qed.

(** The elements of a cleaned path are cleaned to what the elements of the
    path are. *)
Lemma Clean_elements p :
  p <> "" ->
  fold_left (clean_step (rooted p)) (elements (Clean p)) []
  = fold_left (clean_step (rooted p)) (elements p) [] /\
  rooted (Clean p) = rooted p /\ Clean p <> "".
Proof.
  intros Hp. unfold Clean.
  destruct (String.eqb_spec p "") as [->|_]; [congruence|]. cbv zeta.
  set (out := fold_left (clean_step (rooted p)) (elements p) []).
  assert (Hnormal : normal (rooted p) out).
  { apply fold_normal; [apply elements_noSlash | apply normal_nil]. }
  pose proof (normal_noSlash _ _ Hnormal) as Hout.
  assert (Hrev : Forall (fun e => hasSlash e = false /\ e <> "") (rev out)).
  { apply List.Forall_rev, Hout. }
  assert (Hslash : Forall (fun e => hasSlash e = false) (rev out)).
  { eapply List.Forall_impl; [|exact Hrev]. intros e [He _]. exact He. }
  destruct (rooted p) eqn:Hr.
  - split; [|split; [reflexivity | discriminate]].
    cbn [elements]. rewrite Ascii.eqb_refl. cbn [fold_left].
    change (clean_step true [] "") with (@nil string).
    destruct out as [|e out'] eqn:Eout; [reflexivity|].
    rewrite elements_concat; [| |exact Hslash].
    + rewrite <- Eout in *. apply fold_rev_normal. exact Hnormal.
    + cbn [rev]. destruct (rev out'); discriminate.
  - destruct (String.eqb_spec (String.concat "/" (rev out)) "") as [Hbody|Hbody].
    + split; [|split; [reflexivity | discriminate]].
      apply concat_empty in Hbody; [|exact Hrev].
      apply (f_equal (@rev string)) in Hbody. rewrite rev_involutive in Hbody.
      rewrite Hbody. reflexivity.
    + split; [|split; [apply rooted_concat, Hrev | exact Hbody]].
      rewrite elements_concat; [| |exact Hslash].
      * apply fold_rev_normal. exact Hnormal.
      * intros E. rewrite E in Hbody. apply Hbody. reflexivity.
Qed.

(** X13: cleaning a cleaned path changes nothing. *)
Theorem Clean_idempotent p : Clean (Clean p) = Clean p.
Proof.
  destruct (String.eqb_spec p "") as [->|Hp]; [reflexivity|].
  destruct (Clean_elements p Hp) as (Hfold & Hrooted & Hne).
  unfold Clean at 1.
  destruct (String.eqb_spec (Clean p) "") as [E|_]; [contradiction|].
  rewrite Hrooted, Hfold. unfold Clean.
  destruct (String.eqb_spec p "") as [E|_]; [contradiction|]. reflexivity.
Qed.

Lemma rooted_app a b : a <> "" -> rooted (a +:+ b) = rooted a.
Proof. destruct a; [congruence | reflexivity]. Qed.

Lemma append_not_empty a c b : String.eqb (a +:+ String c b) "" = false.
Proof. destruct a; reflexivity. Qed.

Lemma Join_Clean a b :
  (a = "" -> b <> "" /\ rooted b = false) ->
  Join (Clean a) b = Join a b.
Proof.
  intros Hb. unfold Join.
  destruct (String.eqb_spec a "") as [->|Ha].
  - destruct (Hb eq_refl) as [Hne Hrooted].
    destruct (String.eqb_spec b "") as [E|_]; [contradiction|].
    change (Clean "") with ".". cbn [String.eqb Ascii.eqb Bool.eqb].
    unfold Clean. rewrite append_not_empty.
    destruct (String.eqb_spec b "") as [E|_]; [contradiction|].
    rewrite elements_app, rooted_app by discriminate.
    cbn [rooted Ascii.eqb Bool.eqb]. rewrite Hrooted.
    reflexivity.
  - destruct (Clean_elements a Ha) as (Hfold & Hrooted & Hne).
    destruct (String.eqb_spec (Clean a) "") as [E|_]; [contradiction|].
    unfold Clean at 1 3. rewrite !append_not_empty.
    rewrite !elements_app, !rooted_app, !fold_left_app by assumption.
    rewrite Hrooted, Hfold. reflexivity.
Qed.

(** X14: [Join] of two plain names (not empty, not a dot or two dots,
    without a separator) is the two names with a separator between
    them; this is how [Generate] of the manifests names its files under
    tectonic/. *)
Theorem Join_plain a b :
  plain a = true -> plain b = true -> Join a b = a +:+ String slash b.
Proof.
  intros Ha Hb.
  pose proof (plain_inv _ Ha) as (Ha1 & _ & _ & Ha4).
  pose proof (plain_inv _ Hb) as (_ & _ & _ & Hb4).
  unfold Join. rewrite Ha1. unfold Clean. rewrite append_not_empty. cbv zeta.
  assert (Hrooted : rooted (a +:+ String slash b) = false).
  { destruct a as [|c a]; [discriminate|].
    cbn in Ha4. apply orb_false_iff in Ha4 as [Hc _]. exact Hc. }
  rewrite Hrooted, elements_app, !elements_single by assumption.
  cbn [app fold_left]. rewrite !clean_step_plain by assumption.
  cbn [rev app]. rewrite concat_cons. cbn [String.concat].
  rewrite append_not_empty. reflexivity.
Qed.

Lemma Join_plain_witness :
  Join "tectonic" "99_role-admin.yaml" = "tectonic/99_role-admin.yaml".
Proof. apply (Join_plain "tectonic" "99_role-admin.yaml"); reflexivity. Defined.

End filepathProps.

(** ** The directory of the metadata file *)

Module MetadataPathProps.
Import Cluster filepath.

(** X12: [LoadMetadata] reads the same file, and so gives the same
    answer, for a directory and for its cleaned form: a trailing
    separator, a doubled separator, a dot element or an inner double dot in
    the directory make no difference. *)
Theorem LoadMetadata_clean_dir readFile json_Unmarshal dir :
  LoadMetadata readFile json_Unmarshal (Clean dir)
  = LoadMetadata readFile json_Unmarshal dir.
Proof.
  unfold LoadMetadata. rewrite filepathProps.Join_Clean; [reflexivity|].
  intros _. split; [discriminate | reflexivity].
Qed.

End MetadataPathProps.

(** ** The effects of [Cluster.Generate] *)

Module ClusterEffectsProps.
Import types Cluster ClusterSpec ClusterEffects memfs Tactics.

(** X1: in every run of [Generate] in which the temporary directory was
    created, whatever happens next (a panic included), the directory is
    removed as the last effect and nothing else is removed; when it could
    not be created, creating it is the only effect attempted. *)
Theorem Generate_removes_temp_dir ext parents c :
  let tr := trace (snd (Generate ext parents c)) in
  match ioutil_TempDir ext "" "openshift-install-" with
  | inl tmpDir =>
      exists body,
        tr = EvTempDir "" "openshift-install-" :: body ++ [EvRemoveAll tmpDir] /\
        forallb (fun e => negb (isRemoveAll e)) body = true
  | inr _ => tr = [EvTempDir "" "openshift-install-"]
  end.
Proof.
  run. cbn.
  destruct (ioutil_TempDir ext "" "openshift-install-") as [tmpDir|err]; cbn;
    [|reflexivity].
  destruct (terraformVariables_Files parents) as [|f fs]; cbn.
  { exists []. split; reflexivity. }
  destruct (ioutil_WriteFile ext _ _ 384); cbn.
  { eexists [_]. split; reflexivity. }
  destruct (platformMetadata parents); cbn.
  2: { destruct (json_Marshal ext _); cbn.
       - eexists [_]. split; reflexivity.
       - eexists [_; _]. split; reflexivity. }
  destruct (terraform_Apply ext tmpDir _) as [stateFile [applyErr|]]; cbn;
    destruct (ioutil_ReadFile ext stateFile); cbn;
    destruct (json_Marshal ext _); cbn.
  all: first [ eexists [_; _; _; _]; split; reflexivity
             | eexists [_; _; _; _; _]; split; reflexivity
             | eexists [_; _; _; _; _; _]; split; reflexivity ].
Qed.

(** X2: the outcome and the effects of [Generate] do not depend on the
    files the asset already holds; [Generate] keeps these files and
    appends after them at most two files, each named by [StateFileName] or
    metadata.json.  So a second run on the same asset appends its files
    again. *)
Theorem Generate_appends ext parents c :
  let r := Generate ext parents c in
  let r0 := Generate ext parents (mkCluster []) in
  fst r = fst r0 /\
  trace (snd r) = trace (snd r0) /\
  FileList (receiver (snd r)) = (FileList c ++ generated ext parents)%list /\
  (length (generated ext parents) <= 2)%nat /\
  Forall (fun f => Filename f = StateFileName ext \/ Filename f = metadataFileName)
         (generated ext parents).
Proof.
  unfold generated. run. cbn.
  destruct (ioutil_TempDir ext "" "openshift-install-") as [tmpDir|err]; cbn.
  2: { rewrite app_nil_r. repeat split; auto. }
  destruct (terraformVariables_Files parents) as [|f fs]; cbn.
  { rewrite app_nil_r. repeat split; auto. }
  destruct (ioutil_WriteFile ext _ _ 384); cbn.
  { rewrite app_nil_r. repeat split; auto. }
  destruct (platformMetadata parents); cbn.
  2: { destruct (json_Marshal ext _); cbn; rewrite ?app_nil_r;
       repeat split; auto. }
  destruct (terraform_Apply ext tmpDir _) as [stateFile [applyErr|]]; cbn;
    destruct (ioutil_ReadFile ext stateFile); cbn;
    destruct (json_Marshal ext _); cbn; rewrite <- ?app_assoc, ?app_nil_r; cbn.
  all: repeat split; auto 10.
Qed.

(** X3: [Generate] returns nil only if every step succeeded: the
    temporary directory, the variables file, a known platform, terraform,
    the read of the state file and the serialisation of the metadata; the
    asset then holds the state artifact and the metadata artifact after
    its earlier files. *)
Theorem Generate_nil_inversion ext parents c :
  fst (Generate ext parents c) = Returned None ->
  exists tmpDir f fs pm stateFile state metadata,
    ioutil_TempDir ext "" "openshift-install-" = inl tmpDir /\
    terraformVariables_Files parents = f :: fs /\
    ioutil_WriteFile ext (filepath.Join tmpDir (Filename f)) (Data f) 384 = None /\
    platformMetadata parents = Some pm /\
    applied ext parents tmpDir = (stateFile, None) /\
    ioutil_ReadFile ext stateFile = inl state /\
    json_Marshal ext (finalMetadata parents) = inl metadata /\
    FileList (receiver (snd (Generate ext parents c))) =
      (FileList c ++ [mkFile (StateFileName ext) state;
                      mkFile metadataFileName metadata])%list.
Proof.
  run. cbn.
  destruct (ioutil_TempDir ext "" "openshift-install-") as [tmpDir|err]; cbn;
    [|discriminate].
  destruct (terraformVariables_Files parents) as [|f fs]; cbn; [discriminate|].
  destruct (ioutil_WriteFile ext _ _ 384) eqn:Hwrite; cbn; [discriminate|].
  destruct (platformMetadata parents) as [pm|] eqn:Hpm; cbn.
  2: { destruct (json_Marshal ext _); cbn; discriminate. }
  destruct (terraform_Apply ext tmpDir _) as [stateFile [applyErr|]] eqn:Happly; cbn;
    destruct (ioutil_ReadFile ext stateFile) as [state|readErr] eqn:Hread; cbn;
    destruct (json_Marshal ext _) as [metadata|] eqn:Hmarshal; cbn;
    try discriminate.
  intros _. exists tmpDir, f, fs, pm, stateFile, state, metadata.
  rewrite <- app_assoc. repeat split; auto.
Qed.

Lemma Generate_nil_inversion_witness :
  exists state metadata,
    FileList (receiver (snd (Generate sample.allGood
                               (sample.parents "mycluster" sample.aws)
                               sample.empty))) =
      [mkFile "terraform.tfstate" state; mkFile metadataFileName metadata].
Proof.
  destruct (Generate_nil_inversion sample.allGood
              (sample.parents "mycluster" sample.aws) sample.empty eq_refl)
    as (tmpDir & f & fs & pm & stateFile & state & metadata & H).
  exists state, metadata. apply H.
Defined.


(** X5: of the files of the [TerraformVariables] parent [Generate] uses
    the first only: dropping the others changes nothing. *)
Theorem Generate_first_variables_file ext parents c :
  Generate ext (firstOnly parents) c = Generate ext parents c.
Proof.
  unfold firstOnly, Generate, GenerateM, generateInTmpDir. cbn.
  destruct (terraformVariables_Files parents); reflexivity.
Qed.

(** X6: the switch gives AWS precedence over OpenStack and OpenStack over
    Libvirt: the metadata carries the AWS variant exactly when AWS is
    configured, the OpenStack variant exactly when OpenStack is and AWS is
    not, the Libvirt variant exactly when Libvirt alone is, and no variant
    exactly when none is; at most one variant is set. *)
Theorem platformMetadata_precedence parents :
  let p := Platform_ (installConfig parents) in
  let pm := PlatformMetadata (finalMetadata parents) in
  (is_Some (AWS pm) <-> is_Some (Platform_AWS p)) /\
  (is_Some (OpenStack pm) <->
     Platform_AWS p = None /\ is_Some (Platform_OpenStack p)) /\
  (is_Some (Libvirt pm) <->
     Platform_AWS p = None /\ Platform_OpenStack p = None /\
     is_Some (Platform_Libvirt p)) /\
  (platformMetadata parents = None <->
     Platform_AWS p = None /\ Platform_OpenStack p = None /\
     Platform_Libvirt p = None) /\
  (AWS pm = None /\ OpenStack pm = None \/
   AWS pm = None /\ Libvirt pm = None \/
   OpenStack pm = None /\ Libvirt pm = None).
Proof.
  unfold finalMetadata, platformMetadata. cbn.
  destruct (Platform_AWS _), (Platform_OpenStack _), (Platform_Libvirt _); cbn.
  all: rewrite ?is_Some_alt; intuition (try discriminate; eauto).
Qed.

(** X7: with a known platform, once the variables file is written, the
    effects of [Generate] are, in order: the temporary directory, the
    write of the variables file, the log line, one call of terraform in the
    temporary directory with the name of the platform, one read of the
    state file terraform named (also when terraform failed), log lines
    only, and the removal of the directory. *)
Theorem Generate_effect_order ext parents c tmpDir f fs pm :
  ioutil_TempDir ext "" "openshift-install-" = inl tmpDir ->
  terraformVariables_Files parents = f :: fs ->
  ioutil_WriteFile ext (filepath.Join tmpDir (Filename f)) (Data f) 384 = None ->
  platformMetadata parents = Some pm ->
  exists logs,
    trace (snd (Generate ext parents c)) =
      ([EvTempDir "" "openshift-install-";
        EvWriteFile (filepath.Join tmpDir (Filename f)) (Data f) 384;
        EvLogInfof "Using Terraform to create cluster...";
        EvApply tmpDir (Platform_Name ext (Platform_ (installConfig parents)));
        EvReadFile (fst (applied ext parents tmpDir))]
       ++ logs ++ [EvRemoveAll tmpDir])%list /\
    forallb isLog logs = true.
Proof.
  intros Htmp Hfiles Hwrite Hpm.
  rewrite (ClusterProps.Generate_prepared _ _ _ _ _ _ Htmp Hfiles Hwrite).
  unfold prepared. run. rewrite Hpm. cbn.
  destruct (terraform_Apply ext tmpDir _) as [stateFile [applyErr|]]; cbn;
    destruct (ioutil_ReadFile ext stateFile); cbn;
    destruct (json_Marshal ext _); cbn.
  all: first [ exists []; split; reflexivity
             | eexists [_]; split; reflexivity
             | eexists [_; _]; split; reflexivity ].
Qed.

Lemma Generate_effect_order_witness :
  exists logs,
    trace (snd (Generate
                  (sample.externals (inl sample.tmpDir) None
                     ("", Some sample.applyError) (inr sample.readError)
                     sample.marshalFails)
                  (sample.parents "mycluster" sample.libvirt) sample.empty)) =
      ([EvTempDir "" "openshift-install-";
        EvWriteFile "/tmp/openshift-install-012345678/terraform.tfvars" "{}" 384;
        EvLogInfof "Using Terraform to create cluster...";
        EvApply sample.tmpDir "libvirt";
        EvReadFile ""]
       ++ logs ++ [EvRemoveAll sample.tmpDir])%list /\
    forallb isLog logs = true.
Proof.
  eapply (Generate_effect_order
            (sample.externals (inl sample.tmpDir) None
               ("", Some sample.applyError) (inr sample.readError)
               sample.marshalFails)
            (sample.parents "mycluster" sample.libvirt)
            sample.empty sample.tmpDir sample.tfvars []);
    reflexivity.
Defined.

(** X8: when [Generate] could read the state file (terraform having
    succeeded or not), the asset holds the state artifact, and [Load] on
    a fetcher that finds the files of the asset by name reports the state
    file as found, with its error. *)
Theorem Load_after_Generate {F} `{FileFetcher F} ext parents c tmpDir f fs pm state
    (fetcher : F) :
  ioutil_TempDir ext "" "openshift-install-" = inl tmpDir ->
  terraformVariables_Files parents = f :: fs ->
  ioutil_WriteFile ext (filepath.Join tmpDir (Filename f)) (Data f) 384 = None ->
  platformMetadata parents = Some pm ->
  ioutil_ReadFile ext (fst (applied ext parents tmpDir)) = inl state ->
  let c' := receiver (snd (Generate ext parents c)) in
  In (mkFile (StateFileName ext) state) (Files c') /\
  ((forall file, In file (Files c') ->
      exists found, FetchByName fetcher (Filename file) = inl found) ->
   Load ext c' fetcher =
     (true,
      Some (Errorf "%q already exisits.  There may already be a running cluster"
                   [StateFileName ext]))).
Proof.
  intros Htmp Hfiles Hwrite Hpm Hread c'.
  assert (Hin : In (mkFile (StateFileName ext) state) (Files c')).
  { subst c'. rewrite (ClusterProps.Generate_prepared _ _ _ _ _ _ Htmp Hfiles Hwrite).
    unfold prepared, Files. run. rewrite Hpm. cbn.
    destruct (terraform_Apply ext tmpDir _) as [stateFile applyErr]. cbn in *.
    rewrite Hread.
    destruct applyErr; cbn; destruct (json_Marshal ext _); cbn;
      rewrite ?in_app_iff; cbn; auto. }
  split; [exact Hin|].
  intros Hserves. destruct (Hserves _ Hin) as [found Hfound].
  unfold Load. cbn [Filename] in Hfound. rewrite Hfound. reflexivity.
Qed.

Lemma Load_after_Generate_witness :
  let ext := sample.externals (inl sample.tmpDir) None
               (sample.stateFile, Some sample.applyError) (inl "partial")
               sample.marshal in
  let c' := receiver (snd (Generate ext (sample.parents "mycluster" sample.aws)
                             sample.empty)) in
  fst (Generate ext (sample.parents "mycluster" sample.aws) sample.empty)
    = Returned (Some (Wrap sample.applyError "failed to run terraform")) /\
  fst (Load ext c' (Files c')) = true.
Proof.
  intros ext c'. split; [reflexivity|].
  destruct (Load_after_Generate ext (sample.parents "mycluster" sample.aws)
              sample.empty sample.tmpDir sample.tfvars [] _ "partial" (Files c')
              eq_refl eq_refl eq_refl eq_refl eq_refl) as [_ Hload].
  fold c' in Hload. rewrite Hload; [reflexivity|].
  intros file Hin. cbn in Hin.
  destruct Hin as [<- | [<- | []]]; eexists; reflexivity.
Defined.

End ClusterEffectsProps.

(** ** [Cluster.Load] and [LoadMetadata]: what they report *)

Module LoadProps.
Import types Cluster ClusterSpec memfs Tactics.

(** X9: [Load] reports found exactly when the fetcher finds the state
    file, and then always with the same error; it returns no error exactly
    when the fetcher failed with an error [os.IsNotExist] recognises; any
    other fetch error is returned as it is, and an error wrapped by
    pkg/errors is such an error whatever its cause. *)
Theorem Load_classification {F} `{FileFetcher F} ext c (f : F) :
  let fetched := FetchByName f (StateFileName ext) in
  (fst (Load ext c f) = true <-> exists file, fetched = inl file) /\
  (snd (Load ext c f) = None <->
     exists err, fetched = inr err /\ os_IsNotExist err = true) /\
  (forall err,
      fetched = inr err -> os_IsNotExist err = false ->
      Load ext c f = (false, Some err)) /\
  (forall file,
      fetched = inl file ->
      Load ext c f =
        (true,
         Some (Errorf "%q already exisits.  There may already be a running cluster"
                      [StateFileName ext]))) /\
  (forall cause format args,
      fetched = inr (Wrapf cause format args) ->
      Load ext c f = (false, Some (Wrapf cause format args))).
Proof.
  unfold Load. cbn.
  destruct (FetchByName f (StateFileName ext)) as [file|err];
    [|destruct (os_IsNotExist err) eqn:Hnot]; cbn.
  all: repeat split; intros.
  all: repeat match goal with
              | H : exists _, _ |- _ => destruct H
              | H : _ /\ _ |- _ => destruct H
              end.
  all: try discriminate; try congruence; eauto.
  all: match goal with
       | H : inr _ = inr _ |- _ => injection H as ->
       end; cbn in *; try discriminate; reflexivity.
Qed.

(** X10: an error of [LoadMetadata] is the read error or the
    deserialisation error wrapped with the name of the metadata file, and
    [os.IsNotExist] never holds of it, not even when the file is
    missing. *)
Theorem LoadMetadata_error readFile json_Unmarshal dir err :
  LoadMetadata readFile json_Unmarshal dir = inr err ->
  os_IsNotExist err = false /\
  ((exists cause,
       readFile (filepath.Join dir metadataFileName) = inr cause /\
       err = Wrapf cause "failed to read %s file" ["metadata.json"]) \/
   (exists raw cause,
       readFile (filepath.Join dir metadataFileName) = inl raw /\
       json_Unmarshal raw = inr cause /\
       err = Wrapf cause
               "failed to Unmarshal data from %s file to types.ClusterMetadata"
               ["metadata.json"])).
Proof.
  unfold LoadMetadata.
  destruct (readFile _) as [raw|cause] eqn:Hread.
  - destruct (json_Unmarshal raw) as [m|cause] eqn:Hraw; [discriminate|].
    intros [= <-]. split; [reflexivity|]. right. eauto.
  - intros [= <-]. split; [reflexivity|]. left. eauto.
Qed.

Lemma LoadMetadata_error_witness :
  os_IsNotExist (PathError "open" "assets/metadata.json" ErrNotExist) = true /\
  os_IsNotExist
    (Wrapf (PathError "open" "assets/metadata.json" ErrNotExist)
           "failed to read %s file" ["metadata.json"]) = false.
Proof.
  split; [reflexivity|].
  refine (proj1 (LoadMetadata_error (ReadFile ∅) decode.Unmarshal "assets"
                   (Wrapf (PathError "open" "assets/metadata.json" ErrNotExist)
                          "failed to read %s file" ["metadata.json"]) _)).
  vm_compute. reflexivity.
Defined.

(** X11: [LoadMetadata] returns a nil record without an error exactly
    when the metadata file holds the JSON document null. *)
Theorem LoadMetadata_nil_record readFile dir :
  LoadMetadata readFile decode.Unmarshal dir = inl None <->
  exists raw,
    readFile (filepath.Join dir metadataFileName) = inl raw /\
    json.parse raw = Some json.Null.
Proof.
  unfold LoadMetadata, decode.Unmarshal, decode.toClusterMetadata, decode.toPointer.
  destruct (readFile _) as [raw|cause] eqn:Hread.
  - destruct (json.parse raw) as [[| | | |members]|] eqn:Hparse.
    all: try (split; [discriminate | intros (raw' & [= <-] & Hp); congruence]).
    + split; eauto.
    + destruct (decode.intoStruct _ _ _); cbn.
      all: split; [discriminate | intros (raw' & [= <-] & Hp); congruence].
  - split; [discriminate | intros (raw' & Hr & _); discriminate].
Qed.

End LoadProps.

(** ** The manifests: what [Generate] writes and [Load] reads *)

Module ManifestsEffectsProps.
Import Manifests ManifestsSpec filepathSpec ManifestsEffects memfs.

(** X15: when the two templates render, the addon parent has a file and
    the configuration document serialises, [Generate] returns nil, stores
    the document built from the first addon file, and replaces the file
    list (whatever it held) by the configuration file followed by one
    file per entry of the map, in the order the map is ranged over;
    whatever that order, these are the configuration file and the twelve
    manifests, thirteen files. *)
Theorem Generate_manifests ext deps t operator pull addonFile rest data :
  operatorManifest ext deps = Some operator ->
  pullManifest ext deps = Some pull ->
  addon_Files deps = addonFile :: rest ->
  yaml_Marshal ext (clusterConfig addonFile) = inl data ->
  let r := Generate ext deps t in
  fst r = Returned None /\
  TectonicConfig (snd r) = Some (clusterConfig addonFile) /\
  Files (snd r) =
    mkFile tectonicConfigPath data
    :: map manifest (mapRange ext (assetData ext deps operator pull)) /\
  ((forall l, Permutation l (mapRange ext l)) ->
   Permutation (Files (snd r))
     (mkFile tectonicConfigPath data
      :: map manifest (assetData ext deps operator pull)) /\
   length (Files (snd r)) = 13%nat).
Proof.
  unfold operatorManifest, pullManifest, clusterConfig.
  intros Hoperator Hpull Haddon Hmarshal. unfold Generate.
  rewrite Hoperator, Hpull, Haddon, Hmarshal. cbn [fst snd Files FileList TectonicConfig].
  rewrite ManifestsProps.appendAssets_map. cbn [app].
  repeat split.
  - constructor. apply Permutation_map. symmetry. apply H.
  - cbn [length]. rewrite length_map.
    rewrite <- (Permutation_length (H _)). reflexivity.
Qed.

Lemma Generate_manifests_witness :
  let ext := sampleManifests.externals sampleManifests.marshal in
  let r := Generate ext sampleManifests.parents sampleManifests.stale in
  fst r = Returned None /\
  hd_error (Files (snd r))
    = Some (mkFile "tectonic/00_cluster-config.yaml" "addon-config: kind: addon") /\
  length (Files (snd r)) = 13%nat.
Proof.
  intros ext r.
  destruct (Generate_manifests ext sampleManifests.parents sampleManifests.stale
              "operator:{}" "pull:{}"
              (mkFile "kube-addon-operator-config.yml" "kind: addon") []
              "addon-config: kind: addon" eq_refl eq_refl eq_refl eq_refl)
    as (H1 & _ & H3 & H4).
  split; [exact H1 | split].
  - fold r in H3. rewrite H3. reflexivity.
  - apply H4. intros l. apply Permutation_rev.
Defined.

(** X16: after a successful [Generate] the names of the files are
    pairwise distinct, each is a name directly under tectonic/, and the
    first is the path of the configuration document. *)
Theorem Generate_file_names ext deps t :
  (forall l, Permutation l (mapRange ext l)) ->
  fst (Generate ext deps t) = Returned None ->
  let names := map Filename (Files (snd (Generate ext deps t))) in
  NoDup names /\
  Forall (fun name => inManifestDir name = true) names /\
  hd_error names = Some tectonicConfigPath.
Proof.
  intros Hrange. unfold Generate.
  destruct (applyTemplateData ext (content_KubeAddonOperator ext) _)
    as [operator|]; [|discriminate].
  destruct (applyTemplateData ext (content_PullTectonicSystem ext) _)
    as [pull|]; [|discriminate].
  destruct (addon_Files deps) as [|addonFile rest]; [discriminate|].
  destruct (yaml_Marshal ext _) as [data|err]; [|discriminate].
  intros _. cbn [fst snd Files FileList].
  rewrite ManifestsProps.appendAssets_map. cbn [app map Filename].
  rewrite map_map.
  set (entries := assetData ext deps operator pull).
  assert (Hperm : Permutation
            (map (fun e => Filename (mkFile (filepath.Join tectonicManifestDir (fst e)) (snd e)))
                 (mapRange ext entries))
            (map (fun e => filepath.Join tectonicManifestDir (fst e)) entries)).
  { rewrite <- (Hrange entries). reflexivity. }
  subst entries. unfold assetData in Hperm at 2. cbn [map fst] in Hperm.
  set (names := map (fun e => Filename (mkFile (filepath.Join tectonicManifestDir (fst e)) (snd e)))
                 (mapRange ext (assetData ext deps operator pull))) in *.
  assert (Hall : Permutation (tectonicConfigPath :: names)
                   (tectonicConfigPath ::
                    [filepath.Join tectonicManifestDir "99_binding-discovery.yaml";
                     filepath.Join tectonicManifestDir "99_kube-addon-00-appversion.yaml";
                     filepath.Join tectonicManifestDir "99_kube-addon-01-operator.yaml";
                     filepath.Join tectonicManifestDir "99_openshift-cluster-api_cluster.yaml";
                     filepath.Join tectonicManifestDir "99_openshift-cluster-api_master-machines.yaml";
                     filepath.Join tectonicManifestDir "99_openshift-cluster-api_master-user-data-secrets.yaml";
                     filepath.Join tectonicManifestDir "99_openshift-cluster-api_worker-machineset.yaml";
                     filepath.Join tectonicManifestDir "99_openshift-cluster-api_worker-user-data-secret.yaml";
                     filepath.Join tectonicManifestDir "99_role-admin.yaml";
                     filepath.Join tectonicManifestDir "99_role-user.yaml";
                     filepath.Join tectonicManifestDir "99_tectonic-system-00-binding-admin.yaml";
                     filepath.Join tectonicManifestDir "99_tectonic-system-02-pull.json"])).
  { constructor. exact Hperm. }
  clearbody names. clear Hperm.
  split; [|split].
  - rewrite Hall. apply (bool_decide_unpack _). vm_compute. reflexivity.
  - eapply Permutation_Forall; [symmetry; exact Hall|].
    repeat (constructor; [vm_compute; reflexivity|]). constructor.
  - reflexivity.
Qed.

Lemma Generate_file_names_witness :
  let ext := sampleManifests.externals sampleManifests.marshal in
  NoDup (map Filename (Files (snd (Generate ext sampleManifests.parents
                                     sampleManifests.stale)))).
Proof.
  intros ext.
  apply (Generate_file_names ext sampleManifests.parents sampleManifests.stale).
  - intros l. apply Permutation_rev.
  - reflexivity.
Defined.

(** X17: whenever [Generate] returns, with or without an error, the
    asset holds the configuration document built from the first addon
    file: the document is stored before it is serialised, so a failed
    serialisation leaves the new document beside the old file list. *)
Theorem Generate_sets_configuration ext deps t e :
  fst (Generate ext deps t) = Returned e ->
  exists addonFile rest,
    addon_Files deps = addonFile :: rest /\
    TectonicConfig (snd (Generate ext deps t)) = Some (clusterConfig addonFile) /\
    match yaml_Marshal ext (clusterConfig addonFile) with
    | inl _ => e = None
    | inr err =>
        e = Some (Wrap err
                    "failed to create tectonic-system/cluster-config-v1 configmap") /\
        FileList (snd (Generate ext deps t)) = FileList t
    end.
Proof.
  unfold Generate, clusterConfig.
  destruct (applyTemplateData ext (content_KubeAddonOperator ext) _)
    as [operator|]; [|discriminate].
  destruct (applyTemplateData ext (content_PullTectonicSystem ext) _)
    as [pull|]; [|discriminate].
  destruct (addon_Files deps) as [|addonFile rest]; [discriminate|].
  intros He. exists addonFile, rest. split; [reflexivity|].
  destruct (yaml_Marshal ext _) as [data|err]; cbn in *.
  - injection He as <-. split; reflexivity.
  - injection He as <-. repeat split; reflexivity.
Qed.

Lemma Generate_sets_configuration_witness :
  let ext := sampleManifests.externals sampleManifests.marshalFails in
  let r := Generate ext sampleManifests.parents sampleManifests.stale in
  TectonicConfig sampleManifests.stale = None /\
  TectonicConfig (snd r)
    = Some (clusterConfig (mkFile "kube-addon-operator-config.yml" "kind: addon")) /\
  FileList (snd r) = FileList sampleManifests.stale.
Proof.
  intros ext r. split; [reflexivity|].
  destruct (Generate_sets_configuration ext sampleManifests.parents
              sampleManifests.stale _ eq_refl)
    as (addonFile & rest & Haddon & Hconfig & Hrest).
  injection Haddon as <- <-.
  split; [exact Hconfig | apply Hrest].
Defined.


Lemma findConfig_found ext fileList cur cfg :
  findConfig ext fileList cur false = inl (cfg, true) ->
  existsb isConfig fileList = true.
Proof.
  induction fileList as [|file rest IH] in cur |- *; cbn [findConfig existsb].
  - discriminate.
  - unfold isConfig at 1. destruct (String.eqb (Filename file) tectonicConfigPath); cbn.
    + reflexivity.
    + apply IH.
Qed.

(** X19: when [Load] reports found it returns no error, the fetched
    list holds a file with the path of the configuration document, and the
    asset holds the deserialised document and the whole fetched list,
    whatever it held before; when [Load] reports not found the asset is
    as it was; what [Load] reports does not depend on the asset. *)
Theorem Load_found {F} `{FileFetcher F} ext t t' (f : F) :
  let r := Load ext t f in
  (fst (fst r) = true ->
   snd (fst r) = None /\
   exists fileList cfg,
     FetchByPattern f pattern = inl fileList /\
     existsb isConfig fileList = true /\
     findConfig ext fileList emptyConfigurationObject false = inl (cfg, true) /\
     snd r = mkTectonic (Some cfg) fileList /\
     Load ext t' f = r) /\
  (fst (fst r) = false -> snd r = t) /\
  fst (Load ext t' f) = fst r.
Proof.
  unfold Load. fold pattern. cbv zeta.
  destruct (FetchByPattern f pattern) as [fileList|err] eqn:Hfetch; cbn [fst snd].
  2: { split; [discriminate | split; reflexivity]. }
  destruct (Nat.eqb (length fileList) 0); cbn [fst snd].
  1: { split; [discriminate | split; reflexivity]. }
  destruct (findConfig ext fileList emptyConfigurationObject false)
    as [[cfg found]|err] eqn:Hfind; cbn [fst snd].
  2: { split; [discriminate | split; reflexivity]. }
  destruct found; cbn [fst snd negb].
  2: { split; [discriminate | split; reflexivity]. }
  split; [|split; [discriminate | reflexivity]].
  intros _. split; [reflexivity|].
  exists fileList, cfg.
  split; [reflexivity | split; [eapply findConfig_found, Hfind |]].
  split; [exact Hfind | split; [reflexivity|]].
  reflexivity.
Qed.

Lemma Load_found_witness :
  let ext := sampleManifests.externals sampleManifests.marshal in
  let fileList := [mkFile "tectonic/99_role-user.yaml" "x";
                   mkFile tectonicConfigPath "addon-config: kind: addon";
                   mkFile "tectonic/notes.txt" "kept"] in
  FileList (snd (Load ext sampleManifests.stale fileList)) = fileList /\
  Load ext sampleManifests.empty fileList = Load ext sampleManifests.stale fileList.
Proof.
  intros ext fileList.
  destruct (Load_found ext sampleManifests.stale sampleManifests.empty fileList)
    as [Hfound _].
  destruct (Hfound eq_refl) as (_ & l & cfg & Hl & _ & _ & Hsnd & Hsame).
  injection Hl as <-.
  split; [rewrite Hsnd; reflexivity | exact Hsame].
Defined.

(** X20: when the first fetched file with the path of the configuration
    document does not deserialise, [Load] returns that error, wrapped,
    reports not found and leaves the asset as it was, whatever files
    follow. *)
Theorem Load_unmarshal_failure {F} `{FileFetcher F} ext t (f : F)
    before file after err :
  FetchByPattern f pattern = inl (before ++ file :: after)%list ->
  noConfig before ->
  Filename file = tectonicConfigPath ->
  yaml_Unmarshal ext (Data file) emptyConfigurationObject = inr err ->
  Load ext t f =
    ((false, Some (Wrapf err "failed to unmarshal 00_cluster-config.yaml" [])), t).
Proof.
  intros Hfetch Hbefore Hname Herr.
  unfold Load. fold pattern. rewrite Hfetch.
  rewrite ManifestsProps.nonempty_length by (destruct before; discriminate).
  assert (Hfind : forall cur found,
             yaml_Unmarshal ext (Data file) cur = inr err ->
             findConfig ext (before ++ file :: after) cur found =
               inr (Wrapf err "failed to unmarshal 00_cluster-config.yaml" [])).
  { intros cur found Hcur. clear Hfetch.
    induction Hbefore as [|x before Hx _ IH]; cbn [findConfig app].
    - rewrite Hname, String.eqb_refl, Hcur. reflexivity.
    - unfold isConfig in Hx. rewrite Hx. apply IH. }
  rewrite Hfind by assumption. reflexivity.
Qed.

Lemma Load_unmarshal_failure_witness :
  let ext := sampleManifests.externals sampleManifests.marshal in
  Load ext sampleManifests.stale
    [mkFile "tectonic/99_role-user.yaml" "x";
     mkFile tectonicConfigPath "not the document";
     mkFile tectonicConfigPath "addon-config: kind: addon"]
  = ((false, Some (Wrapf SyntaxError "failed to unmarshal 00_cluster-config.yaml" [])),
     sampleManifests.stale).
Proof.
  intros ext.
  apply (Load_unmarshal_failure ext sampleManifests.stale
           [mkFile "tectonic/99_role-user.yaml" "x";
            mkFile tectonicConfigPath "not the document";
            mkFile tectonicConfigPath "addon-config: kind: addon"]
           [mkFile "tectonic/99_role-user.yaml" "x"]
           (mkFile tectonicConfigPath "not the document")
           [mkFile tectonicConfigPath "addon-config: kind: addon"]).
  - reflexivity.
  - repeat constructor.
  - reflexivity.
  - reflexivity.
Defined.

End ManifestsEffectsProps.

(** ** Strings that are not valid UTF-8: what is read back *)

Module coercionProps.
Import types utf8 json jsonSpec coercion utf8Props quoteProps jsonProps.
Local Open Scope N_scope.

#[local] Arguments String.append _ _ : simpl nomatch.

Lemma take_drop n s : take n s +:+ drop n s = s.
Proof.
  revert s. induction n as [|n IH]; intros [|c s]; cbn; try reflexivity.
  f_equal. apply IH.
Qed.

Lemma isError_ascii c t :
  (N_of_ascii c <? 0x80) = true -> isError (DecodeRuneInString (String c t)) = false.
Proof.
  intros Hc. rewrite (decode_ascii _ _ Hc). unfold isError. cbn [fst snd].
  apply N.ltb_lt in Hc.
  destruct (N.eqb_spec (N_of_ascii c) RuneError) as [E|_];
    [unfold RuneError in E; lia | reflexivity].
Qed.

Lemma coerceFrom_ascii fuel c t :
  (N_of_ascii c <? 0x80) = true ->
  coerceFrom (S fuel) (String c t) = String c (coerceFrom fuel t).
Proof.
  intros Hc. cbn [coerceFrom]. rewrite (isError_ascii _ _ Hc).
  rewrite (decode_ascii _ _ Hc). reflexivity.
Qed.

Lemma coerce_ascii c t :
  (N_of_ascii c <? 0x80) = true -> coerce (String c t) = String c (coerce t).
Proof. apply coerceFrom_ascii. Qed.

Lemma unquote_replacement fuel k :
  unquote (S fuel) (String backslash "ufffd" +:+ k)
  = prepend (EncodeRune RuneError) (unquote fuel k).
Proof. reflexivity. Qed.

(** A quoted string is read back as the coerced string. *)
Lemma unquote_escape_any fuel : forall s,
  (String.length s <= fuel)%nat ->
  forall fuel' rest,
    (String.length (escape fuel s) < fuel')%nat ->
    unquote fuel' (escape fuel s +:+ String dquote rest)
    = Some (coerceFrom fuel s, rest).
Proof.
  induction fuel as [|fuel IH]; intros s Hlen fuel' rest Hfuel.
  { destruct s; [|cbn in Hlen; lia]. destruct fuel'; [cbn in Hfuel; lia|].
    reflexivity. }
  destruct s as [|c t].
  { destruct fuel'; [cbn in Hfuel; lia|]. reflexivity. }
  destruct fuel' as [|fuel']; [lia|].
  cbn [String.length] in Hlen.
  destruct (N_of_ascii c <? 0x80) eqn:Hlt.
  - rewrite coerceFrom_ascii by assumption.
    cbn [escape] in *. rewrite Hlt in *.
    rewrite append_assoc. rewrite length_append in Hfuel.
    destruct (htmlSafe (N_of_ascii c)) eqn:Hsafe.
    + cbn [String.append]. rewrite unquote_safe by assumption.
      rewrite IH; [reflexivity | lia | cbn in Hfuel; lia].
    + rewrite unquote_escapeByte by assumption.
      rewrite IH; [reflexivity | lia |].
      assert (1 <= String.length (escapeByte c))%nat; [|lia].
      unfold escapeByte. repeat match goal with
                                | |- context [if ?b then _ else _] => destruct b
                                end; cbn; lia.
  - cbn [escape coerceFrom] in *. rewrite Hlt in *.
    destruct (isError (DecodeRuneInString (String c t))) eqn:Hok.
    + rewrite append_assoc, unquote_replacement.
      rewrite IH; [reflexivity | lia |].
      rewrite length_append in Hfuel. cbn [String.length] in Hfuel. lia.
    + pose proof Hlt as Hge. apply N.ltb_ge in Hge.
      destruct (decode_chunk c t Hge Hok) as (pre & post & Hs & Hsize & Henc & Hdec).
      remember (DecodeRuneInString (String c t)) as d eqn:Hd.
      assert (Hdrop : drop (snd d) (String c t) = post)
        by (rewrite Hsize, Hs; apply drop_app).
      assert (Htake : take (snd d) (String c t) = String c pre)
        by (rewrite Hsize, Hs; apply take_app).
      rewrite Hdrop, ?Htake in *.
      assert (Hpost : (String.length post <= fuel)%nat).
      { apply (f_equal String.length) in Hs. rewrite length_append in Hs.
        cbn [String.length] in Hs. lia. }
      destruct ((fst d =? 0x2028) || (fst d =? 0x2029)) eqn:Hsep.
      * rewrite append_assoc, unquote_separator.
        2: { apply orb_true_iff in Hsep as [H|H]; apply N.eqb_eq in H; auto. }
        rewrite IH, Henc, prepend_Some; [reflexivity | |]; try assumption.
        rewrite length_append in Hfuel. cbn [String.length] in Hfuel. lia.
      * rewrite append_assoc, (unquote_chunk c pre d) by assumption.
        rewrite IH, prepend_Some; [reflexivity | |]; try assumption.
        rewrite length_append in Hfuel. cbn [String.length] in Hfuel. lia.
Qed.

Lemma coerceFrom_valid fuel : forall s,
  validFrom fuel s = true -> coerceFrom fuel s = s.
Proof.
  induction fuel as [|fuel IH]; intros [|c t] Hvalid; try reflexivity.
  { discriminate. }
  apply validFrom_step in Hvalid as [Hok Hvalid].
  cbn [coerceFrom]. rewrite Hok, (IH _ Hvalid). apply take_drop.
Qed.

Lemma coerce_valid s : ValidString s = true -> coerce s = s.
Proof. apply coerceFrom_valid. Qed.

Lemma parseMembers_step_any fuel k x :
  parseMembers (S fuel) (encodeString k +:+ String ":" x)
  = match parseValue fuel x with
    | None => None
    | Some (v, rest) =>
        match skipSpace rest with
        | String c rest' =>
            if Ascii.eqb c "," then
              match parseMembers fuel rest' with
              | Some (ms, rest'') => Some ((coerce k, v) :: ms, rest'')
              | None => None
              end
            else if Ascii.eqb c "}" then Some ([(coerce k, v)], rest')
            else None
        | EmptyString => None
        end
    end.
Proof.
  unfold encodeString. cbn [String.append].
  rewrite append_assoc. cbn [String.append].
  cbn [parseMembers]. rewrite (skipSpace_head dquote) by reflexivity.
  change (Ascii.eqb dquote dquote) with true. cbv iota.
  rewrite unquote_escape_any; [reflexivity | lia |].
  rewrite length_append. cbn [String.length]. lia.
Qed.

Lemma parseElements_coerced vs :
  vs <> [] -> Forall parsesCoerced vs ->
  forall fuel rest,
    (sizeElements vs <= fuel)%nat ->
    parseElements fuel (elementsText vs +:+ String "]" rest)
    = Some (map coerceValue vs, rest).
Proof.
  induction vs as [|v vs IH]; [congruence|].
  intros _ Hback fuel rest Hfuel.
  apply Forall_cons_iff in Hback as [Hv Hback].
  cbn [sizeElements] in Hfuel. destruct fuel as [|fuel]; [lia|].
  rewrite parseElements_step. cbn [elementsText].
  rewrite append_assoc, Hv by lia.
  destruct vs as [|v' vs]; [reflexivity|].
  cbv iota. rewrite append_assoc. cbn [String.append].
  rewrite (skipSpace_head ",") by reflexivity.
  change (Ascii.eqb "," ",") with true. cbv iota.
  rewrite IH; [reflexivity | congruence | assumption | lia].
Qed.

Lemma parseMembers_coerced ms :
  ms <> [] -> Forall (fun m => parsesCoerced (snd m)) ms ->
  forall fuel rest,
    (sizeMembers ms <= fuel)%nat ->
    parseMembers fuel (membersText ms +:+ String "}" rest)
    = Some (map (fun m => (coerce (fst m), coerceValue (snd m))) ms, rest).
Proof.
  induction ms as [|[k v] ms IH]; [congruence|].
  intros _ Hback fuel rest Hfuel.
  apply Forall_cons_iff in Hback as [Hv Hback].
  cbn [fst snd] in *.
  cbn [sizeMembers] in Hfuel. destruct fuel as [|fuel]; [lia|].
  cbn [membersText]. rewrite !append_assoc. cbn [String.append].
  rewrite parseMembers_step_any.
  rewrite Hv by lia.
  destruct ms as [|m' ms]; [reflexivity|].
  cbv iota. rewrite ?append_assoc. cbn [String.append].
  rewrite (skipSpace_head ",") by reflexivity.
  change (Ascii.eqb "," ",") with true. cbv iota.
  rewrite IH; [reflexivity | congruence | assumption | lia].
Qed.

Lemma parseValue_coerced v : parsesCoerced v.
Proof.
  induction v as [|b|s|vs IH|ms IH] using value_induction;
    intros fuel rest Hfuel.
  - destruct fuel; [cbn in Hfuel; lia | apply parseValue_literal].
  - destruct fuel; [cbn in Hfuel; lia | destruct b; apply parseValue_literal].
  - destruct fuel; [cbn in Hfuel; lia|].
    cbn [encode]. unfold encodeString. cbn [String.append].
    rewrite append_assoc. cbn [String.append].
    rewrite parseValue_Str, unquote_escape_any; [reflexivity | lia |].
    rewrite length_append. cbn [String.length]. lia.
  - rewrite size_Arr in Hfuel. destruct fuel; [lia|].
    rewrite encode_Arr, !append_assoc.
    destruct vs as [|v vs]; [reflexivity|].
    destruct (encode_head v) as (c & x & Hhead & Hspace & Hclose & _).
    cbn [String.append].
    assert (Htext : exists y,
               elementsText (v :: vs) +:+ String "]" rest = String c y).
    { cbn [elementsText]. rewrite Hhead. cbn [String.append]. eauto. }
    destruct Htext as [y Htext].
    change ("]" +:+ rest) with (String "]" rest).
    rewrite Htext, parseValue_Arr, <- Htext by assumption.
    rewrite parseElements_coerced; [reflexivity | congruence | assumption | lia].
  - rewrite size_Obj in Hfuel. destruct fuel; [lia|].
    rewrite encode_Obj, !append_assoc.
    destruct ms as [|[k v] ms]; [reflexivity|].
    cbn [String.append].
    assert (Htext : exists y,
               membersText ((k, v) :: ms) +:+ String "}" rest = String dquote y).
    { cbn [membersText]. unfold encodeString. cbn [String.append]. eauto. }
    destruct Htext as [y Htext].
    change ("}" +:+ rest) with (String "}" rest).
    rewrite Htext, parseValue_Obj, <- Htext.
    rewrite parseMembers_coerced; [reflexivity | congruence | assumption | lia].
Qed.

(** Every document the encoder writes is parsed, as the coerced
    document. *)
Lemma parse_encode_any v : parse (encode v) = Some (coerceValue v).
Proof.
  unfold parse.
  rewrite <- (append_nil_r (encode v)) at 2.
  rewrite parseValue_coerced; [reflexivity|].
  pose proof (size_le_length v). lia.
Qed.

Lemma ofMap_singleton k v :
  ofMap ({[ k := v ]} : gmap string string) = Obj [(k, Str v)].
Proof. unfold ofMap, sortedEntries. rewrite map_to_list_singleton. reflexivity. Qed.

Lemma coerce_cluster_key name :
  coerce ("kubernetes.io/cluster/" +:+ name) = "kubernetes.io/cluster/" +:+ coerce name.
Proof. cbn [String.append]. rewrite !coerce_ascii by reflexivity. reflexivity. Qed.

(** The document of the metadata of a configuration, coerced, is the
    document of the metadata of the coerced configuration. *)
Lemma coerceValue_finalMetadata parents :
  coerceValue (ofClusterMetadata (Cluster.finalMetadata parents))
  = ofClusterMetadata (Cluster.finalMetadata (coerceParents parents)).
Proof.
  destruct parents as [[name id secret [aws openstack libvirt]] files].
  destruct aws as [[region]|];
    [|destruct openstack as [[region]|]; [|destruct libvirt as [[uri]|]]].
  all: unfold Cluster.finalMetadata, Cluster.platformMetadata, coerceParents,
         coerceConfig, coercePlatform, ofClusterMetadata, ofPlatformMetadata,
         ofAWS, ofOpenStack, ofLibvirt, optionalMember.
  all: cbn -[coerce ofMap singletonM String.append].
  all: rewrite ?ofMap_singleton.
  all: cbn -[coerce singletonM String.append].
  all: rewrite ?coerce_cluster_key.
  all: repeat match goal with
              | |- context [coerce (String ?c ?s)] =>
                  change (coerce (String c s)) with (String c s)
              end.
  all: reflexivity.
Qed.

(** Whatever the strings of the configuration, the metadata [Generate]
    serialises is deserialised, as the metadata of the coerced
    configuration. *)
Lemma Unmarshal_Marshal_any parents :
  decode.Unmarshal (Marshal (Cluster.finalMetadata parents))
  = inl (Some (Cluster.finalMetadata (coerceParents parents))).
Proof.
  unfold decode.Unmarshal, Marshal.
  rewrite parse_encode_any, coerceValue_finalMetadata.
  apply metadataProps.toClusterMetadata_ofClusterMetadata.
Qed.

Lemma validFrom_replacement fuel r :
  validFrom (S fuel) (EncodeRune RuneError +:+ r) = validFrom fuel r.
Proof. reflexivity. Qed.

Lemma validFrom_chunk fuel c pre d r :
  (forall k, DecodeRuneInString (String c pre +:+ k) = d) ->
  isError d = false ->
  snd d = String.length (String c pre) ->
  validFrom (S fuel) (String c pre +:+ r) = validFrom fuel r.
Proof.
  intros Hdec Hok Hsize.
  change (String c pre +:+ r) with (String c (pre +:+ r)). cbn [validFrom].
  change (String c (pre +:+ r)) with (String c pre +:+ r).
  rewrite Hdec, Hok, Hsize, drop_app. reflexivity.
Qed.

Lemma validFrom_coerceFrom fuel : forall s fuel',
  (String.length (coerceFrom fuel s) <= fuel')%nat ->
  validFrom fuel' (coerceFrom fuel s) = true.
Proof.
  induction fuel as [|fuel IH]; intros s fuel' Hfuel.
  { destruct s; destruct fuel'; reflexivity. }
  destruct s as [|c t]; [destruct fuel'; reflexivity|].
  cbn [coerceFrom] in *.
  destruct (isError (DecodeRuneInString (String c t))) eqn:Hok.
  - rewrite length_append in Hfuel. cbn [String.length EncodeRune] in Hfuel.
    destruct fuel' as [|fuel']; [cbn in Hfuel; lia|].
    rewrite validFrom_replacement. apply IH. cbn in Hfuel. lia.
  - destruct (N_of_ascii c <? 0x80) eqn:Hlt.
    + rewrite (decode_ascii _ _ Hlt) in *. cbn [snd take drop] in *.
      cbn [String.append String.length] in Hfuel.
      destruct fuel' as [|fuel']; [lia|].
      rewrite (validFrom_chunk fuel' c "" (N_of_ascii c, 1%nat)).
      * apply IH. lia.
      * intros k. apply decode_ascii, Hlt.
      * exact Hok.
      * reflexivity.
    + apply N.ltb_ge in Hlt.
      destruct (decode_chunk c t Hlt Hok) as (pre & post & Hs & Hsize & Henc & Hdec).
      remember (DecodeRuneInString (String c t)) as d eqn:Hd.
      assert (Hdrop : drop (snd d) (String c t) = post)
        by (rewrite Hsize, Hs; apply drop_app).
      assert (Htake : take (snd d) (String c t) = String c pre)
        by (rewrite Hsize, Hs; apply take_app).
      rewrite Hdrop, Htake in *.
      rewrite length_append in Hfuel. cbn [String.length] in Hfuel.
      destruct fuel' as [|fuel']; [lia|].
      rewrite (validFrom_chunk fuel' c pre d) by assumption.
      apply IH. lia.
Qed.

Lemma coerce_ValidString s : ValidString (coerce s) = true.
Proof. apply validFrom_coerceFrom. reflexivity. Qed.

End coercionProps.

(** ** The metadata file of any configuration *)

Module MetadataCoercedProps.
Import types Cluster ClusterSpec metadataSpec coercion memfs.

Lemma validConfig_coerceConfig c : validConfig (coerceConfig c).
Proof.
  destruct c as [name id secret [aws openstack libvirt]].
  unfold validConfig, coerceConfig, coercePlatform.
  cbn [ObjectMeta_Name ClusterID Platform_ Platform_AWS Platform_OpenStack
       Platform_Libvirt].
  repeat split; try apply coercionProps.coerce_ValidString.
  - intros x Hx. destruct aws; [|discriminate]. injection Hx as <-.
    apply coercionProps.coerce_ValidString.
  - intros x Hx. destruct openstack; [|discriminate]. injection Hx as <-.
    apply coercionProps.coerce_ValidString.
  - intros x Hx. destruct libvirt; [|discriminate]. injection Hx as <-.
    apply coercionProps.coerce_ValidString.
Qed.

Lemma coerceParents_valid parents :
  validConfig (installConfig parents) -> coerceParents parents = parents.
Proof.
  destruct parents as [[name id secret [aws openstack libvirt]] files].
  intros (Hname & Hid & Haws & Hopenstack & Hlibvirt).
  cbn [installConfig ObjectMeta_Name ClusterID Platform_ Platform_AWS
       Platform_OpenStack Platform_Libvirt] in *.
  unfold coerceParents, coerceConfig, coercePlatform.
  cbn [installConfig terraformVariables_Files ObjectMeta_Name ClusterID
       types.PullSecret Platform_ Platform_AWS Platform_OpenStack Platform_Libvirt].
  rewrite (coercionProps.coerce_valid _ Hname), (coercionProps.coerce_valid _ Hid).
  do 3 f_equal.
  f_equal.
  - destruct aws as [[region]|]; [|reflexivity].
    cbn [option_map AWSPlatform_Region].
    rewrite (coercionProps.coerce_valid region (Haws _ eq_refl)). reflexivity.
  - destruct openstack as [[region]|]; [|reflexivity].
    cbn [option_map OpenStackPlatform_Region].
    rewrite (coercionProps.coerce_valid region (Hopenstack _ eq_refl)). reflexivity.
  - destruct libvirt as [[uri]|]; [|reflexivity].
    cbn [option_map LibvirtPlatform_URI].
    rewrite (coercionProps.coerce_valid uri (Hlibvirt _ eq_refl)). reflexivity.
Qed.

(** X21: whatever the strings of the install configuration, valid UTF-8
    or not, the metadata artifact [Generate] appends, written to
    metadata.json in a directory, is read by [LoadMetadata] without
    error, as the metadata of the configuration in which every byte that
    starts no valid sequence is replaced by U+FFFD; the strings of that
    record are valid UTF-8, and it is the record [Generate] serialised
    when the configuration was valid. *)
Theorem LoadMetadata_any_configuration ext parents c tmpDir f fs :
  (forall m, json_Marshal ext m = inl (json.Marshal m)) ->
  ioutil_TempDir ext "" "openshift-install-" = inl tmpDir ->
  terraformVariables_Files parents = f :: fs ->
  ioutil_WriteFile ext (filepath.Join tmpDir (Filename f)) (Data f) 384 = None ->
  let loaded := finalMetadata (coerceParents parents) in
  (exists data,
     last (Files (receiver (snd (Generate ext parents c))))
       = Some (mkFile metadataFileName data) /\
     forall fsys dir,
       LoadMetadata
         (ReadFile (WriteFile fsys (filepath.Join dir metadataFileName) data))
         decode.Unmarshal dir
       = inl (Some loaded)) /\
  validMetadata loaded /\
  (validConfig (installConfig parents) -> loaded = finalMetadata parents).
Proof.
  intros Hmarshal Htmp Hfiles Hwrite loaded. split; [|split].
  - exists (json.Marshal (finalMetadata parents)). split.
    + eapply MetadataFileProps.Generate_last_metadata; eauto.
    + intros fsys dir. rewrite MetadataFileProps.LoadMetadata_written.
      rewrite coercionProps.Unmarshal_Marshal_any. reflexivity.
  - apply metadataProps.validMetadata_finalMetadata, validConfig_coerceConfig.
  - intros Hvalid. subst loaded. rewrite coerceParents_valid by exact Hvalid.
    reflexivity.
Qed.

Lemma LoadMetadata_any_configuration_witness :
  let parents := sample.parents scenario.badName sample.libvirt in
  exists data,
    last (Files (receiver (snd (Generate sample.allGood parents sample.empty))))
      = Some (mkFile metadataFileName data) /\
    LoadMetadata
      (ReadFile (WriteFile ∅ (filepath.Join "assets" metadataFileName) data))
      decode.Unmarshal "assets"
    = inl (Some {| ClusterName := utf8.EncodeRune utf8.RuneError;
                   PlatformMetadata :=
                     {| AWS := None; OpenStack := None;
                        Libvirt := Some {| Libvirt_URI := "qemu:///system" |} |} |}).
Proof.
  intros parents.
  destruct (LoadMetadata_any_configuration sample.allGood parents sample.empty
              sample.tmpDir sample.tfvars [] (fun m => eq_refl) eq_refl eq_refl
              eq_refl) as ((data & Hlast & Hload) & _).
  exists data. split; [exact Hlast|].
  rewrite Hload. vm_compute. reflexivity.
Defined.

(** X22: a string written by the encoder is parsed as the coerced
    string, which is valid UTF-8 and is the string itself exactly when the
    string was valid. *)
Theorem encodeString_round_trip s :
  json.parse (json.encode (json.Str s)) = Some (json.Str (coerce s)) /\
  utf8.ValidString (coerce s) = true /\
  (coerce s = s <-> utf8.ValidString s = true).
Proof.
  split; [apply (coercionProps.parse_encode_any (json.Str s))|].
  split; [apply coercionProps.coerce_ValidString|].
  split.
  - intros E. rewrite <- E. apply coercionProps.coerce_ValidString.
  - apply coercionProps.coerce_valid.
Qed.

(** X23: every metadata record whose strings are valid UTF-8, produced
    by [Generate] or not (several platform variants, identifier maps of
    any size), is read back by [LoadMetadata] from its serialised
    form. *)
Theorem LoadMetadata_Marshal fsys dir m :
  validMetadata m ->
  LoadMetadata
    (ReadFile (WriteFile fsys (filepath.Join dir metadataFileName) (json.Marshal m)))
    decode.Unmarshal dir
  = inl (Some m).
Proof.
  intros Hm. rewrite MetadataFileProps.LoadMetadata_written.
  rewrite metadataProps.Unmarshal_Marshal by exact Hm. reflexivity.
Qed.

Lemma LoadMetadata_Marshal_witness :
  let m := {| ClusterName := "mycluster";
              PlatformMetadata :=
                {| AWS := Some {| AWS_Region := "us-east-1";
                                  AWS_Identifier := [∅; {[ "a" := "b" ]}] |};
                   OpenStack := None;
                   Libvirt := Some {| Libvirt_URI := "qemu:///system" |} |} |} in
  LoadMetadata
    (ReadFile (WriteFile ∅ (filepath.Join "assets" metadataFileName) (json.Marshal m)))
    decode.Unmarshal "assets"
  = inl (Some m).
Proof.
  intros m. apply (LoadMetadata_Marshal ∅ "assets" m).
  split; [reflexivity|]. split; [|split].
  - intros a [= <-]. split; [reflexivity|].
    constructor; [apply map_Forall_empty|].
    constructor; [|constructor].
    apply metadataProps.validMap_singleton; reflexivity.
  - intros o [=].
  - intros l [= <-]. reflexivity.
Defined.

End MetadataCoercedProps.

(** ** How often [Cluster.Generate] acts *)

Module ClusterCountsProps.
Import types Cluster ClusterSpec ClusterEffects ClusterCounts memfs Tactics.

(** X24: in every run [Generate] writes at most one file and calls
    terraform at most once; it reads a file exactly as often as it calls
    terraform; it calls terraform exactly when the temporary directory was
    created, the variables file written and a platform is configured; it
    attempts the write exactly when the temporary directory was created
    and the [TerraformVariables] parent has a file. *)
Theorem Generate_effect_bounds ext parents c :
  let tr := trace (snd (Generate ext parents c)) in
  (count isWrite tr <= 1)%nat /\
  (count isApply tr <= 1)%nat /\
  count isRead tr = count isApply tr /\
  (count isApply tr = 1%nat <-> reachesTerraform ext parents) /\
  (count isWrite tr = 1%nat <->
   exists tmpDir f fs,
     ioutil_TempDir ext "" "openshift-install-" = inl tmpDir /\
     terraformVariables_Files parents = f :: fs).
Proof.
  unfold reachesTerraform, count. run. cbn.
  destruct (ioutil_TempDir ext "" "openshift-install-") as [tmpDir|err]; cbn.
  2: { repeat split; auto; try discriminate.
       - intros (? & ? & ? & ? & H & _). discriminate.
       - intros (? & ? & ? & H & _). discriminate. }
  destruct (terraformVariables_Files parents) as [|f fs]; cbn.
  { repeat split; auto; try discriminate.
    - intros (? & ? & ? & ? & _ & H & _). discriminate.
    - intros (? & ? & ? & _ & H). discriminate. }
  destruct (ioutil_WriteFile ext _ _ 384) eqn:Hwrite; cbn.
  { repeat split; eauto; try discriminate.
    intros (? & ? & ? & ? & [= <-] & [= <- <-] & H & _). congruence. }
  destruct (platformMetadata parents) as [pm|]; cbn.
  2: { destruct (json_Marshal ext _); cbn.
       all: repeat split; eauto; try discriminate.
       all: intros (? & ? & ? & ? & _ & _ & _ & H); discriminate. }
  destruct (terraform_Apply ext tmpDir _) as [stateFile [applyErr|]]; cbn;
    destruct (ioutil_ReadFile ext stateFile); cbn;
    destruct (json_Marshal ext _); cbn.
  all: repeat split; eauto 10.
Qed.

End ClusterCountsProps.

(** ** Where the files are *)

Module pathProps.
Import filepath filepathSpec pathSpec filepathProps.

#[local] Arguments String.append _ _ : simpl nomatch.

Lemma concat_snoc l n :
  l <> [] ->
  String.concat "/" (l ++ [n]) = String.concat "/" l +:+ String slash n.
Proof.
  induction l as [|x l IH]; [congruence|]. intros _.
  destruct l as [|y l]; [reflexivity|].
  change ((x :: y :: l) ++ [n])%list with (x :: (y :: l) ++ [n])%list.
  change ((y :: l) ++ [n])%list with (y :: (l ++ [n]))%list at 1.
  rewrite concat_cons.
  change (y :: (l ++ [n]))%list with ((y :: l) ++ [n])%list.
  rewrite IH by discriminate.
  rewrite concat_cons, quoteProps.append_assoc. reflexivity.
Qed.

Lemma concat_not_dot r out :
  normal r out -> String.eqb (String.concat "/" (rev out)) "." = false.
Proof.
  intros Hnormal.
  pose proof (normal_noSlash _ _ Hnormal) as Hout.
  destruct Hnormal as (tops & k & -> & Htops & _).
  rewrite rev_app_distr, rev_dotdots.
  destruct k as [|k]; cbn [repeat app].
  - destruct (rev tops) as [|x l] eqn:E; [reflexivity|].
    assert (Hx : plain x = true).
    { assert (Hin : In x (rev tops)) by (rewrite E; left; reflexivity).
      apply in_rev in Hin. rewrite List.Forall_forall in Htops. auto. }
    apply plain_inv in Hx as (H1 & H2 & _).
    destruct l as [|y l]; [exact H2|].
    rewrite concat_cons.
    destruct x as [|c [|c' x]]; [discriminate | |].
    all: cbn [String.append String.eqb]; destruct (Ascii.eqb c "."); reflexivity.
  - destruct (repeat ".." k ++ rev tops)%list; reflexivity.
Qed.

Lemma Clean_plain n : plain n = true -> Clean n = n.
Proof.
  intros Hn. pose proof (plain_inv _ Hn) as (H1 & _ & _ & H4).
  unfold Clean. rewrite H1. cbv zeta.
  rewrite elements_single by exact H4. cbn [fold_left].
  rewrite clean_step_plain by exact Hn. cbn [rev app String.concat].
  rewrite H1.
  destruct n as [|c n]; [discriminate|].
  cbn in H4. apply orb_false_iff in H4 as [Hc _].
  cbn [rooted]. rewrite Hc. reflexivity.
Qed.

Lemma Join_inDir dir name : plain name = true -> Join dir name = inDir dir name.
Proof.
  intros Hn. pose proof (plain_inv _ Hn) as (Hn1 & _ & _ & Hn4).
  unfold Join, inDir.
  destruct (String.eqb_spec dir "") as [->|Hdir].
  { rewrite Hn1. change (Clean "") with ".". cbn [String.eqb Ascii.eqb Bool.eqb].
    apply Clean_plain, Hn. }
  unfold Clean. rewrite append_not_empty.
  destruct (String.eqb_spec dir "") as [E|_]; [contradiction|]. cbv zeta.
  rewrite rooted_app, elements_app, fold_left_app by assumption.
  rewrite (elements_single name) by exact Hn4. cbn [fold_left].
  rewrite clean_step_plain by exact Hn.
  set (out := fold_left (clean_step (rooted dir)) (elements dir) []).
  assert (Hnormal : normal (rooted dir) out).
  { apply fold_normal; [apply elements_noSlash | apply normal_nil]. }
  pose proof (normal_noSlash _ _ Hnormal) as Hout.
  pose proof (concat_not_dot _ _ Hnormal) as Hdot.
  assert (Hrev : Forall (fun e => hasSlash e = false /\ e <> "") (rev out)).
  { apply List.Forall_rev, Hout. }
  cbn [rev].
  destruct (rooted dir) eqn:Hr.
  - change (String.eqb (String slash ?b) ".") with false. cbv iota.
    destruct (rev out) as [|x l] eqn:E.
    + reflexivity.
    + rewrite concat_snoc by discriminate.
      assert (Hbody : String.concat "/" (x :: l) <> "").
      { intros Hb. apply concat_empty in Hb; [discriminate | exact Hrev]. }
      destruct (String.concat "/" (x :: l)) as [|c body]; [congruence|].
      reflexivity.
  - destruct (String.eqb_spec (String.concat "/" (rev out)) "") as [Hbody|Hbody].
    + apply concat_empty in Hbody; [|exact Hrev]. rewrite Hbody.
      cbn [app String.concat String.eqb Ascii.eqb Bool.eqb]. rewrite Hn1.
      reflexivity.
    + rewrite Hdot.
      assert (Hne : rev out <> []) by (intros E; rewrite E in Hbody; auto).
      rewrite concat_snoc by exact Hne.
      rewrite append_not_empty.
      pose proof (rooted_concat _ Hrev) as Hroot.
      destruct (String.concat "/" (rev out)) as [|c body]; [congruence|].
      cbn [rooted] in Hroot.
      destruct (String.eqb_spec (String c body) "/") as [E|_]; [|reflexivity].
      injection E as -> ->. discriminate.
Qed.

End pathProps.

Module FileLocationProps.
Import types Cluster ClusterSpec filepathSpec pathSpec memfs Tactics.

(** X25: [LoadMetadata] depends on the file system only through one
    file: metadata.json in the cleaned directory (without a directory part
    when that is the current directory). *)
Theorem LoadMetadata_file readFile readFile' json_Unmarshal dir :
  readFile (inDir dir "metadata.json") = readFile' (inDir dir "metadata.json") ->
  LoadMetadata readFile json_Unmarshal dir
  = LoadMetadata readFile' json_Unmarshal dir.
Proof.
  intros Hsame. unfold LoadMetadata, metadataFileName.
  rewrite pathProps.Join_inDir by reflexivity. rewrite Hsame. reflexivity.
Qed.

Lemma LoadMetadata_file_witness :
  LoadMetadata (ReadFile {[ "assets/metadata.json" := "null" ]})
               decode.Unmarshal "./assets//cluster/.."
  = LoadMetadata (ReadFile (<[ "assets/metadata.json" := "null" ]>
                              {[ "metadata.json" := "{}" ]}))
                 decode.Unmarshal "./assets//cluster/..".
Proof.
  apply LoadMetadata_file.
  change (inDir "./assets//cluster/.." "metadata.json") with "assets/metadata.json".
  unfold ReadFile. rewrite lookup_singleton_eq, lookup_insert_eq. reflexivity.
Defined.

(** X26: when the first file of the [TerraformVariables] parent has a
    plain name, the second effect of [Generate] is the write of that file
    under its name in the temporary directory, with mode 0600, and
    [Generate] writes nothing else. *)
Theorem Generate_variables_path ext parents c tmpDir f fs :
  ioutil_TempDir ext "" "openshift-install-" = inl tmpDir ->
  terraformVariables_Files parents = f :: fs ->
  plain (Filename f) = true ->
  let tr := trace (snd (Generate ext parents c)) in
  let write := EvWriteFile (inDir tmpDir (Filename f)) (Data f) 384 in
  nth_error tr 1 = Some write /\
  (forall e, In e tr -> isWrite e = true -> e = write).
Proof.
  intros Htmp Hfiles Hplain. run. cbn. rewrite Htmp, Hfiles. cbn.
  rewrite pathProps.Join_inDir by exact Hplain.
  destruct (ioutil_WriteFile ext _ _ 384) as [writeErr|]; cbn.
  { split; [reflexivity|]. intros e [<-|[<-|[<-|[]]]]; cbn; congruence. }
  destruct (platformMetadata parents) as [pm|]; cbn.
  2: { destruct (json_Marshal ext _) as [data|marshalErr]; cbn;
         (split; [reflexivity|]).
       all: intros e He Hw; repeat (destruct He as [<-|He]; [cbn in Hw; congruence|]).
       all: destruct He. }
  destruct (terraform_Apply ext tmpDir _) as [stateFile [applyErr|]]; cbn;
    destruct (ioutil_ReadFile ext stateFile) as [state|readErr]; cbn;
    destruct (json_Marshal ext _) as [data|marshalErr]; cbn;
    (split; [reflexivity|]).
  all: intros e He Hw; repeat (destruct He as [<-|He]; [cbn in Hw; congruence|]).
  all: destruct He.
Qed.

Lemma Generate_variables_path_witness :
  nth_error
    (trace (snd (Generate sample.allGood (sample.parents "mycluster" sample.aws)
                   sample.empty))) 1
  = Some (EvWriteFile "/tmp/openshift-install-012345678/terraform.tfvars" "{}" 384).
Proof.
  apply (Generate_variables_path sample.allGood
           (sample.parents "mycluster" sample.aws) sample.empty sample.tmpDir
           sample.tfvars [] eq_refl eq_refl eq_refl).
Defined.

End FileLocationProps.
